(** * chiron-ai: the scoring engine of [src/utils/scoringAlgorithms.ts]

    A shallow embedding of [analyzeResume], [analyzeInterviewPerformance]
    and their helpers, followed by the properties of the scoring engine.

    Modelling conventions.
    - A JavaScript [number] that is known to be finite is an exact rational
      ([Q]); the two quotients that can leave the finite range
      ([completionRate], [preferredPercentage]) have type [number], which
      adds [NaN] and the two infinities.  There arithmetic is exact.
    - The one property that turns on the rounding of IEEE doubles, the
      overall score as the rounded mean of the sub-scores, is stated over
      [Double], which repeats [analyzeInterviewPerformance] on binary64
      numbers with every operation rounded as JavaScript rounds it.
    - A JavaScript string is a [string] whose characters are the code units
      U+0000..U+00FF.
    - [strengths.push] / [improvements.push] become explicit state passing
      over the two message lists.
    - An exception is the [Throws] outcome, a promise that never settles is
      [Pending]. *)

From Stdlib Require Import ZArith QArith Qround Qminmax Lia Lqa List Bool
  String Ascii.
From Stdlib Require DecimalString PrimFloat FloatOps SpecFloat Uint63.
Import ListNotations.

Local Open Scope string_scope.

(* ===================================================================== *)
(** ** JavaScript strings *)
(* ===================================================================== *)

Module JsString.

Definition code (c : ascii) : nat := nat_of_ascii c.

Definition between (lo hi : nat) (c : ascii) : bool :=
  ((lo <=? code c)%nat && (code c <=? hi)%nat)%bool.

(** [\d] *)
Definition isDigit (c : ascii) : bool := between 48 57 c.

(** [\w] *)
Definition isWordChar (c : ascii) : bool :=
  (between 97 122 c || between 65 90 c || isDigit c || (code c =? 95)%nat)%bool.

(** White space removed by [String.prototype.trim]. *)
Definition isSpace (c : ascii) : bool :=
  (between 9 13 c || (code c =? 32)%nat || (code c =? 160)%nat)%bool.

(** [.], [!] or [?] : the class [[.!?]]. *)
Definition isTerminator (c : ascii) : bool :=
  ((code c =? 46)%nat || (code c =? 33)%nat || (code c =? 63)%nat)%bool.

(** [-] or [.] : the class [[-.]]. *)
Definition isDashDot (c : ascii) : bool :=
  ((code c =? 45)%nat || (code c =? 46)%nat)%bool.

Definition lowerChar (c : ascii) : ascii :=
  if (between 65 90 c
      || (between 192 222 c && negb (code c =? 215)%nat))%bool
  then ascii_of_nat (code c + 32)
  else c.

Fixpoint toLowerCase (s : string) : string :=
  match s with
  | EmptyString => EmptyString
  | String c t => String (lowerChar c) (toLowerCase t)
  end.

(** Some suffix of [s] satisfies [p]. *)
Fixpoint existsSuffix (p : string -> bool) (s : string) : bool :=
  (p s || match s with
          | EmptyString => false
          | String _ t => existsSuffix p t
          end)%bool.

(** [s.includes(sub)] *)
Definition includes (s sub : string) : bool :=
  existsSuffix (String.prefix sub) s.

Fixpoint drop (n : nat) (s : string) : string :=
  match n, s with
  | O, _ => s
  | S _, EmptyString => EmptyString
  | S k, String _ t => drop k t
  end.

(** [s.lastIndexOf(c)], [None] for [-1]. *)
Fixpoint lastIndexOf (c : ascii) (s : string) : option nat :=
  match s with
  | EmptyString => None
  | String d t =>
      match lastIndexOf c t with
      | Some i => Some (S i)
      | None => if Ascii.eqb c d then Some O else None
      end
  end.

(** [s.substring(i)] where [i] is the result of a [lastIndexOf]: a negative
    start is clamped to [0]. *)
Definition substringFrom (i : option nat) (s : string) : string :=
  match i with
  | None => s
  | Some n => drop n s
  end.

Fixpoint rev_string (acc s : string) : string :=
  match s with
  | EmptyString => acc
  | String c t => rev_string (String c acc) t
  end.

Fixpoint trimStart (s : string) : string :=
  match s with
  | EmptyString => EmptyString
  | String c t => if isSpace c then trimStart t else s
  end.

(** [s.trim()] *)
Definition trim (s : string) : string :=
  rev_string "" (trimStart (rev_string "" (trimStart s))).

(** [s.split(sep)] for a one-character separator: [cur] holds the piece
    being read, reversed. *)
Fixpoint splitCharAux (sep : ascii) (cur : string) (s : string) : list string :=
  match s with
  | EmptyString => [rev_string "" cur]
  | String c t =>
      if Ascii.eqb c sep
      then rev_string "" cur :: splitCharAux sep "" t
      else splitCharAux sep (String c cur) t
  end.

Definition splitChar (sep : ascii) (s : string) : list string :=
  splitCharAux sep "" s.

(** [s.split(/[.!?]+/)]: a maximal run of terminators is one separator;
    [inRun] says that the previous character was a terminator. *)
Fixpoint splitSentencesAux (inRun : bool) (cur : string) (s : string)
  : list string :=
  match s with
  | EmptyString => [rev_string "" cur]
  | String c t =>
      if isTerminator c
      then if inRun
           then splitSentencesAux true cur t
           else rev_string "" cur :: splitSentencesAux true "" t
      else splitSentencesAux false (String c cur) t
  end.

Definition splitSentences (s : string) : list string :=
  splitSentencesAux false "" s.

(** [s.split(sub).length - 1] for a non-empty [sub]: the occurrences of
    [sub] found from left to right without overlap.  [skip] counts the
    characters of the last match still to be passed over. *)
Fixpoint countFrom (sub : string) (skip : nat) (s : string) : nat :=
  match s with
  | EmptyString => O
  | String _ t =>
      match skip with
      | S k => countFrom sub k t
      | O =>
          if String.prefix sub s
          then S (countFrom sub (String.length sub - 1) t)
          else countFrom sub O t
      end
  end.

Definition countOccurrences (sub s : string) : nat := countFrom sub O s.

(** *** The regular expressions of the source, as anchored matchers

    A matcher consumes a prefix of its input and returns the rest.  None
    of the patterns below needs backtracking: a greedy [\d+] or [[-.]?] is
    always followed by a character outside its class. *)

Definition matcher := string -> option string.

Definition lit (p : string) : matcher :=
  fun s => if String.prefix p s then Some (drop (String.length p) s) else None.

Definition digit : matcher :=
  fun s => match s with
           | String c t => if isDigit c then Some t else None
           | EmptyString => None
           end.

Fixpoint skipDigits (s : string) : string :=
  match s with
  | String c t => if isDigit c then skipDigits t else s
  | EmptyString => EmptyString
  end.

(** [\d+] *)
Definition digits : matcher :=
  fun s => match digit s with
           | Some t => Some (skipDigits t)
           | None => None
           end.

(** [[-.]?] *)
Definition optDashDot : matcher :=
  fun s => match s with
           | String c t => if isDashDot c then Some t else Some s
           | EmptyString => Some s
           end.

Definition andThen (m1 m2 : matcher) : matcher :=
  fun s => match m1 s with
           | Some t => m2 t
           | None => None
           end.

Definition orElse (m1 m2 : matcher) : matcher :=
  fun s => match m1 s with
           | Some t => Some t
           | None => m2 s
           end.

Definition matches (m : matcher) (s : string) : bool :=
  match m s with Some _ => true | None => false end.

(** [re.test(s)] for an unanchored pattern. *)
Definition test (m : matcher) (s : string) : bool :=
  existsSuffix (matches m) s.

Infix ">>" := andThen (at level 41, right associativity).
Infix "<|>" := orElse (at level 42, right associativity).

(** [/\d+%|\$\d+|\d+ years/] *)
Definition reMetric : matcher :=
  (digits >> lit "%") <|> (lit "$" >> digits) <|> (digits >> lit " years").

(** [/\d+%|\$\d+|\d+ years|\d+ people|\d+ projects/] *)
Definition reExample : matcher :=
  (digits >> lit "%") <|> (lit "$" >> digits) <|> (digits >> lit " years")
  <|> (digits >> lit " people") <|> (digits >> lit " projects").

(** [/\d{3}[-.]?\d{3}[-.]?\d{4}/] *)
Definition rePhone : matcher :=
  digit >> digit >> digit >> optDashDot >>
  digit >> digit >> digit >> optDashDot >>
  digit >> digit >> digit >> digit.

(** [/[.!?]$/.test(s)] *)
Fixpoint endsWithTerminator (s : string) : bool :=
  match s with
  | EmptyString => false
  | String c EmptyString => isTerminator c
  | String _ t => endsWithTerminator t
  end.

Definition startsWithWordChar (s : string) : bool :=
  match s with
  | String c _ => isWordChar c
  | EmptyString => false
  end.

(** [/\bw\b/.test(s)] for a phrase [w] that begins and ends with a word
    character; [prevWord] says that the character before [s] is a word
    character. *)
Fixpoint testWordBounded (w : string) (prevWord : bool) (s : string) : bool :=
  (match lit w s with
   | Some rest => negb prevWord && negb (startsWithWordChar rest)
   | None => false
   end
   || match s with
      | EmptyString => false
      | String c t => testWordBounded w (isWordChar c) t
      end)%bool.

(** [/\bi is\b|\byou was\b|\bthey was\b/] *)
Definition reAgreement (s : string) : bool :=
  (testWordBounded "i is" false s
   || testWordBounded "you was" false s
   || testWordBounded "they was" false s)%bool.

End JsString.

(* ===================================================================== *)
(** ** JavaScript numbers *)
(* ===================================================================== *)

Local Open Scope Q_scope.

(** The value of a division: finite, or one of the three special values. *)
Inductive number : Type :=
| Finite (q : Q)
| PosInfinity
| NegInfinity
| NaN.

Definition Qltb (x y : Q) : bool :=
  match x ?= y with Lt => true | _ => false end.

Definition Qleb (x y : Q) : bool :=
  match x ?= y with Gt => false | _ => true end.

(** [a / b] on finite operands. *)
Definition js_div (a b : Q) : number :=
  if Qeq_bool b 0
  then if Qeq_bool a 0 then NaN
       else if Qltb 0 a then PosInfinity else NegInfinity
  else Finite (a / b).

(** [x < c] and [x >= c] against a finite constant: every comparison with
    [NaN] is false. *)
Definition num_ltb (x : number) (c : Q) : bool :=
  match x with
  | Finite q => Qltb q c
  | NegInfinity => true
  | PosInfinity | NaN => false
  end.

Definition num_geb (x : number) (c : Q) : bool :=
  match x with
  | Finite q => Qleb c q
  | PosInfinity => true
  | NegInfinity | NaN => false
  end.

(** [x * c] for a finite constant [c > 0]. *)
Definition num_scale (x : number) (c : Q) : number :=
  match x with
  | Finite q => Finite (q * c)
  | other => other
  end.

Definition Math_max (x y : Q) : Q := Qmax x y.
Definition Math_min (x y : Q) : Q := Qmin x y.

(** [Math.floor] and [Math.round] (halves round up), as integers. *)
Definition Math_floor (x : Q) : Z := Qfloor x.
Definition Math_round (x : Q) : Z := Qfloor (x + 0.5).

(** [Math.round(x * 10) / 10] *)
Definition round1 (x : Q) : Q := inject_Z (Math_round (x * 10)) / 10.

Definition ofNat (n : nat) : Q := inject_Z (Z.of_nat n).

(** A number is an integer. *)
Definition isInteger (q : Q) : Prop := exists z : Z, q == inject_Z z.

(** [`${n}`] for an integer. *)
Definition showZ (z : Z) : string :=
  DecimalString.NilZero.string_of_int (Z.to_int z).

Definition showNat (n : nat) : string := showZ (Z.of_nat n).

(* ===================================================================== *)
(** ** Outcomes of a call *)
(* ===================================================================== *)

Inductive outcome (A : Type) : Type :=
| Returns (a : A)
| Throws
| Pending.

Arguments Returns {A} a.
Arguments Throws {A}.
Arguments Pending {A}.

Definition bind {A B : Type} (m : outcome A) (k : A -> outcome B) : outcome B :=
  match m with
  | Returns a => k a
  | Throws => Throws
  | Pending => Pending
  end.

Notation "x <- m ;; k" := (bind m (fun x => k))
  (at level 61, m at next level, right associativity).

(** [xs.forEach(x => { st = step(x, st) })] where the body may throw. *)
Fixpoint forEach {A S : Type} (step : A -> S -> outcome S) (xs : list A) (st : S)
  : outcome S :=
  match xs with
  | [] => Returns st
  | x :: rest => st' <- step x st ;; forEach step rest st'
  end.

(** The property names every object literal inherits from
    [Object.prototype]: indexing a keyword table with one of them yields a
    truthy value that is neither a keyword list nor a keyword record. *)
Definition objectPrototypeKeys : list string :=
  [ "constructor"; "__proto__"; "hasOwnProperty"; "isPrototypeOf";
    "propertyIsEnumerable"; "toLocaleString"; "toString"; "valueOf";
    "__defineGetter__"; "__defineSetter__"; "__lookupGetter__";
    "__lookupSetter__" ].

Definition inherited (key : string) : bool :=
  existsb (String.eqb key) objectPrototypeKeys.

(** One own entry of a table literal, looked up in order. *)
Fixpoint ownEntry {V : Type} (table : list (string * V)) (key : string)
  : option V :=
  match table with
  | [] => None
  | (k, v) :: rest => if String.eqb key k then Some v else ownEntry rest key
  end.

(** [table[key] || dflt], then used as a [V]: [None] when the lookup
    reached [Object.prototype]. *)
Definition lookupOr {V : Type} (table : list (string * V)) (dflt : V)
  (key : string) : option V :=
  match ownEntry table key with
  | Some v => Some v
  | None => if inherited key then None else Some dflt
  end.

(* ===================================================================== *)
(** ** Response analysis helpers *)
(* ===================================================================== *)

Import JsString.

Definition roleKeywordsMap : list (string * list string) :=
  [ ("Software Engineer",
      ["javascript"; "python"; "react"; "api"; "database"; "algorithm";
       "framework"; "debugging"]);
    ("Product Manager",
      ["roadmap"; "stakeholder"; "metrics"; "user research"; "agile";
       "sprint"; "feature"]);
    ("Data Scientist",
      ["python"; "machine learning"; "statistics"; "modeling";
       "data analysis"; "visualization"]);
    ("UX Designer",
      ["user experience"; "wireframe"; "prototype"; "usability";
       "user research"; "design thinking"]);
    ("Sales Representative",
      ["revenue"; "pipeline"; "prospecting"; "closing"; "relationship";
       "quota"; "crm"]);
    ("Marketing Manager",
      ["campaign"; "roi"; "conversion"; "analytics"; "brand";
       "digital marketing"]);
    ("Business Analyst",
      ["requirements"; "process improvement"; "stakeholder"; "documentation";
       "analysis"]);
    ("DevOps Engineer",
      ["aws"; "docker"; "kubernetes"; "ci/cd"; "infrastructure"; "automation";
       "monitoring"]) ].

(** [getRoleKeywords(role)]; [None] is a value without a [filter] method. *)
Definition getRoleKeywords (role : string) : option (list string) :=
  lookupOr roleKeywordsMap [] role.

(** [roleKeywords.filter(k => response.toLowerCase().includes(k.toLowerCase())).length] *)
Definition keywordHits (role response : string) : outcome nat :=
  match getRoleKeywords role with
  | None => Throws
  | Some kws =>
      Returns (List.length
                 (filter (fun k => includes (toLowerCase response) (toLowerCase k))
                    kws))
  end.

Record ResponseAnalysis : Type := {
  qualityScore : Q;
  communicationScore : Q;
  skillsRelevance : Q;
  clarity : Q;
  confidence : Q
}.

Definition nonEmpty (s : string) : bool := (0 <? String.length s)%nat.

(** The body of the [forEach] of [analyzeResponseContent]. *)
Definition contentStep (role response : string) (st : ResponseAnalysis)
  : outcome ResponseAnalysis :=
  let words := filter nonEmpty (splitChar " "%char (toLowerCase response)) in
  let quality1 :=
    if (List.length words <? 10)%nat then Math_max (qualityScore st - 2) 0
    else if (50 <? List.length words)%nat then Math_min (qualityScore st + 1) 10
    else qualityScore st in
  let evidence :=
    (includes response "example" || includes response "specifically"
     || test reMetric response)%bool in
  let quality2 :=
    if evidence then Math_min (quality1 + 1.5) 10 else quality1 in
  let skills1 :=
    if evidence then Math_min (skillsRelevance st + 1) 10
    else skillsRelevance st in
  let sentences :=
    filter (fun s => nonEmpty (trim s)) (splitSentences response) in
  let structured := (2 <? List.length sentences)%nat in
  let communication1 :=
    if structured then Math_min (communicationScore st + 0.5) 10
    else communicationScore st in
  let clarity1 :=
    if structured then Math_min (clarity st + 0.5) 10 else clarity st in
  let confidence1 :=
    if (includes response "I successfully" || includes response "I achieved"
        || includes response "I led")%bool
    then Math_min (confidence st + 1) 10
    else confidence st in
  keywordMatches <- keywordHits role response ;;
  let skills2 :=
    if (0 <? keywordMatches)%nat
    then Math_min (skills1 + ofNat keywordMatches * 0.5) 10
    else skills1 in
  Returns {| qualityScore := quality2;
             communicationScore := communication1;
             skillsRelevance := skills2;
             clarity := clarity1;
             confidence := confidence1 |}.

Definition analyzeResponseContent (responses : list string) (role : string)
  : outcome ResponseAnalysis :=
  match responses with
  | [] =>
      Returns {| qualityScore := 0; communicationScore := 0;
                 skillsRelevance := 0; clarity := 0; confidence := 0 |}
  | _ =>
      st <- forEach (contentStep role) responses
              {| qualityScore := 5; communicationScore := 5;
                 skillsRelevance := 5; clarity := 5; confidence := 5 |} ;;
      Returns {| qualityScore := round1 (qualityScore st);
                 communicationScore := round1 (communicationScore st);
                 skillsRelevance := round1 (skillsRelevance st);
                 clarity := round1 (clarity st);
                 confidence := round1 (confidence st) |}
  end.

Record GrammarIssues : Type := {
  fillerWords : nat;
  incompleteThoughts : nat;
  grammarErrors : nat
}.

Definition fillerPatterns : list string :=
  ["um"; "uh"; "like"; "you know"; "actually"; "basically"].

(** The body of the [forEach] of [analyzeGrammarAndSpeech]. *)
Definition grammarStep (response : string) (st : GrammarIssues) : GrammarIssues :=
  let fillers :=
    fold_left
      (fun n filler => (n + countOccurrences filler (toLowerCase response))%nat)
      fillerPatterns (fillerWords st) in
  let incomplete :=
    fold_left
      (fun n sentence =>
         if ((10 <? String.length (trim sentence))%nat
             && negb (endsWithTerminator (trim sentence)))%bool
         then S n else n)
      (splitSentences response) (incompleteThoughts st) in
  let errors :=
    if (includes response "was were" || includes response "is are"
        || reAgreement response)%bool
    then S (grammarErrors st) else grammarErrors st in
  {| fillerWords := fillers;
     incompleteThoughts := incomplete;
     grammarErrors := errors |}.

Definition analyzeGrammarAndSpeech (responses : list string) : GrammarIssues :=
  fold_left (fun st response => grammarStep response st) responses
    {| fillerWords := 0; incompleteThoughts := 0; grammarErrors := 0 |}.

Record SkillsState : Type := {
  st_technicalAccuracy : Q;
  st_industryKnowledge : Q;
  st_problemSolving : Q;
  st_specificExamples : nat
}.

Record SkillsDemonstration : Type := {
  technicalAccuracy : Q;
  industryKnowledge : Q;
  problemSolving : Q;
  specificExamples : nat;
  overallCompetency : Q
}.

(** The body of the [forEach] of [analyzeSkillsDemonstration]. *)
Definition skillsStep (role response : string) (st : SkillsState)
  : outcome SkillsState :=
  technicalTerms <- keywordHits role response ;;
  let hit := (0 <? technicalTerms)%nat in
  let accuracy :=
    if hit
    then Math_min (st_technicalAccuracy st + ofNat technicalTerms * 0.5) 10
    else st_technicalAccuracy st in
  let knowledge :=
    if hit
    then Math_min (st_industryKnowledge st + ofNat technicalTerms * 0.3) 10
    else st_industryKnowledge st in
  let solving :=
    if (includes response "problem" || includes response "challenge"
        || includes response "solution" || includes response "approach")%bool
    then Math_min (st_problemSolving st + 1) 10
    else st_problemSolving st in
  let examples :=
    if test reExample response
    then S (st_specificExamples st) else st_specificExamples st in
  Returns {| st_technicalAccuracy := accuracy;
             st_industryKnowledge := knowledge;
             st_problemSolving := solving;
             st_specificExamples := examples |}.

Definition analyzeSkillsDemonstration (responses : list string) (role : string)
  : outcome SkillsDemonstration :=
  st <- forEach (skillsStep role) responses
          {| st_technicalAccuracy := 3; st_industryKnowledge := 3;
             st_problemSolving := 3; st_specificExamples := 0 |} ;;
  let overall :=
    (st_technicalAccuracy st + st_industryKnowledge st + st_problemSolving st)
    / 3 in
  Returns {| technicalAccuracy := round1 (st_technicalAccuracy st);
             industryKnowledge := round1 (st_industryKnowledge st);
             problemSolving := round1 (st_problemSolving st);
             specificExamples := st_specificExamples st;
             overallCompetency := round1 overall |}.

(* ===================================================================== *)
(** ** Messages *)
(* ===================================================================== *)

(** The two arrays the scorers push to. *)
Record Notes : Type := {
  strengths : list string;
  improvements : list string
}.

Definition noNotes : Notes := {| strengths := []; improvements := [] |}.

(** [strengths.push(msg)] *)
Definition strength (msg : string) (n : Notes) : Notes :=
  {| strengths := strengths n ++ [msg]; improvements := improvements n |}.

(** [improvements.push(msg)] *)
Definition improve (msg : string) (n : Notes) : Notes :=
  {| strengths := strengths n; improvements := improvements n ++ [msg] |}.

(** A template literal: its text and the numbers it prints with
    [toFixed(1)], which are kept as numbers. *)
Inductive chunk : Type :=
| Text (s : string)
| Fixed1 (x : number).

(* ===================================================================== *)
(** ** analyzeInterviewPerformance *)
(* ===================================================================== *)

Record InterviewData : Type := {
  questionsAnswered : Z;
  totalQuestions : Z;
  timeSpentPerQuestion : list Q;
  cameraUsed : bool;
  microphoneUsed : bool;
  interviewCompleted : bool;
  selectedRole : string;
  interviewDuration : Q;
  responses : option (list string)
}.

Record InterviewAnalysis : Type := {
  overallScore : Q;
  bodyLanguageScore : Q;
  grammarScore : Q;
  skillsScore : Q;
  confidenceScore : Q;
  feedback : list chunk;
  interviewStrengths : list string;
  interviewImprovements : list string
}.

(** [responses = []] in the destructuring of the argument. *)
Definition responsesOf (d : InterviewData) : list string :=
  match responses d with
  | Some rs => rs
  | None => []
  end.

Definition completionRate (d : InterviewData) : number :=
  js_div (inject_Z (questionsAnswered d)) (inject_Z (totalQuestions d)).

Definition avgTimePerQuestion (d : InterviewData) : Q :=
  if (0 <? List.length (timeSpentPerQuestion d))%nat
  then fold_left Qplus (timeSpentPerQuestion d) 0
       / ofNat (List.length (timeSpentPerQuestion d))
  else 0.

(** [timeSpentPerQuestion.filter(time => time < limit).length] *)
Definition countBelow (limit : Q) (times : list Q) : nat :=
  List.length (filter (fun time => Qltb time limit) times).

(** *** Body language *)

(** The engagement gate and the completion bands of the camera branch. *)
Definition bodyLanguageBand (qa : Z) (rate : number) (n : Notes) : Q * Notes :=
  if (qa =? 0)%Z then
    (0, improve "CRITICAL: No responses despite camera - shows complete disengagement" n)
  else if num_ltb rate 0.3 then
    (2, improve "SEVERE: Answered <30% questions - appears uninterested or unprepared" n)
  else if num_ltb rate 0.5 then
    (5, improve "POOR: <50% completion suggests nervousness or lack of preparation" n)
  else if num_ltb rate 0.7 then
    (12, improve "BELOW AVERAGE: Complete at least 70% to show engagement" n)
  else if num_ltb rate 0.8 then
    (25, improve "AVERAGE: Aim for 80%+ completion for professional impression" n)
  else if num_ltb rate 0.95 then
    (45, strength "Good visual engagement" n)
  else
    (60, strength "Excellent visual participation" n).

Definition bodyLanguageTiming (qa : Z) (times : list Q) (score : Q) (n : Notes)
  : Q * Notes :=
  let rushResponses := countBelow 8 times in
  let shortResponses := countBelow 15 times in
  if Qltb (inject_Z qa * 0.4) (ofNat rushResponses) then
    (Math_max (score - 25) 0,
     improve "MAJOR: Too many rushed responses (<8s) - shows panic or disinterest" n)
  else if Qltb (inject_Z qa * 0.6) (ofNat shortResponses) then
    (Math_max (score - 15) 0,
     improve "WARNING: Many brief responses - provide more thoughtful answers" n)
  else (score, n).

Definition bodyLanguageQuality (ra : ResponseAnalysis) (score : Q) (n : Notes)
  : Q * Notes :=
  if Qltb 7 (qualityScore ra) then
    (Math_min (score + 15) 100,
     strength "Confident delivery with quality content" n)
  else if Qltb 5 (qualityScore ra) then
    (Math_min (score + 8) 85, n)
  else (score, n).

Definition bodyLanguage (d : InterviewData) (ra : ResponseAnalysis) (n : Notes)
  : Q * Notes :=
  if negb (cameraUsed d) then
    (0, improve "Modern interviews require video presence"
          (improve "CRITICAL: Camera disabled - cannot assess professional presence" n))
  else
    let '(s1, n1) := bodyLanguageBand (questionsAnswered d) (completionRate d) n in
    let '(s2, n2) :=
      bodyLanguageTiming (questionsAnswered d) (timeSpentPerQuestion d) s1 n1 in
    bodyLanguageQuality ra s2 n2.

(** *** Grammar and speech *)

Definition grammarIssuesPenalty (rs : list string) (score : Q) (n : Notes)
  : Q * Notes :=
  let issues := analyzeGrammarAndSpeech rs in
  let '(s1, n1) :=
    if (List.length rs * 2 <? fillerWords issues)%nat then
      (Math_max (score - 20) 0,
       improve "MAJOR: Excessive filler words (um, uh, like) - practice fluency" n)
    else (score, n) in
  let '(s2, n2) :=
    if Qltb (ofNat (List.length rs) * 0.3) (ofNat (incompleteThoughts issues)) then
      (Math_max (s1 - 15) 0,
       improve "WARNING: Many incomplete thoughts - practice structured responses" n1)
    else (s1, n1) in
  if Qltb (ofNat (List.length rs) * 0.2) (ofNat (grammarErrors issues)) then
    (Math_max (s2 - 10) 0,
     improve "NOTE: Grammar issues detected - review professional communication" n2)
  else (s2, n2).

Definition grammarLength (avg : Q) (score : Q) (n : Notes) : Q * Notes :=
  if Qltb avg 10 then
    (Math_max (score - 25) 0,
     improve "SEVERE: Responses too brief to demonstrate communication skills" n)
  else if Qltb avg 20 then
    (Math_max (score - 15) 0,
     improve "POOR: Very brief responses - elaborate with examples" n)
  else if Qltb 120 avg then
    (Math_max (score - 10) 0,
     improve "WARNING: Responses too lengthy - practice conciseness" n)
  else (score, n).

(** The completion consistency penalty. *)
Definition grammarCompletion (rate : number) (score : Q) (n : Notes) : Q * Notes :=
  if num_ltb rate 0.5 then
    (Math_max (score * 0.3) 0,
     improve "CRITICAL: Low completion severely limits communication assessment" n)
  else if num_ltb rate 0.7 then
    (Math_max (score * 0.6) 0,
     improve "MAJOR: Inconsistent participation affects communication evaluation" n)
  else (score, n).

Definition grammarClarity (ra : ResponseAnalysis) (n : Notes) : Notes :=
  if Qltb 8 (clarity ra) then strength "Excellent clarity and articulation" n
  else if Qltb 6 (clarity ra) then strength "Good communication clarity" n
  else improve "IMPROVE: Work on clearer articulation and structure" n.

Definition grammar (d : InterviewData) (ra : ResponseAnalysis) (n : Notes)
  : Q * Notes :=
  if negb (microphoneUsed d) then
    (0, improve "Professional roles require verbal communication skills"
          (improve "CRITICAL: Microphone disabled - cannot assess communication" n))
  else
    let base := inject_Z (Math_floor (communicationScore ra * 10)) in
    if (questionsAnswered d =? 0)%Z then
      (0, improve "CRITICAL: No verbal responses detected" n)
    else
      let '(s1, n1) := grammarIssuesPenalty (responsesOf d) base n in
      let '(s2, n2) := grammarLength (avgTimePerQuestion d) s1 n1 in
      let '(s3, n3) := grammarCompletion (completionRate d) s2 n2 in
      (s3, grammarClarity ra n3).

(** *** Skills *)

Definition skillsCompetency (sd : SkillsDemonstration) (score : Q) (n : Notes)
  : Q * Notes :=
  let '(s1, n1) :=
    if Qltb (technicalAccuracy sd) 3 then
      (Math_max (score - 30) 0,
       improve "MAJOR: Lacks technical accuracy for role requirements" n)
    else (score, n) in
  let '(s2, n2) :=
    if Qltb (industryKnowledge sd) 4 then
      (Math_max (s1 - 20) 0,
       improve "WARNING: Limited industry knowledge demonstrated" n1)
    else (s1, n1) in
  let '(s3, n3) :=
    if Qltb (problemSolving sd) 3 then
      (Math_max (s2 - 25) 0,
       improve "CRITICAL: Poor problem-solving approach shown" n2)
    else (s2, n2) in
  if (specificExamples sd <? 2)%nat then
    (Math_max (s3 - 15) 0,
     improve "MAJOR: Provide specific examples to demonstrate experience" n3)
  else (s3, n3).

(** The completion-based penalties. *)
Definition skillsCompletion (rate : number) (score : Q) (n : Notes) : Q * Notes :=
  if num_ltb rate 0.4 then
    (Math_max (score * 0.2) 0,
     improve "SEVERE: Insufficient responses to evaluate competency" n)
  else if num_ltb rate 0.6 then
    (Math_max (score * 0.5) 0,
     improve "POOR: Need more responses to showcase abilities" n)
  else if num_ltb rate 0.8 then
    (Math_max (score * 0.7) 0,
     improve "AVERAGE: Complete more to fully demonstrate skills" n)
  else (score, n).

Definition skillsDepth (avg : Q) (score : Q) (n : Notes) : Q * Notes :=
  if Qltb avg 20 then
    (Math_max (score - 20) 0,
     improve "MAJOR: Responses too brief to show expertise depth" n)
  else if Qltb avg 30 then
    (Math_max (score - 10) 0,
     improve "WARNING: Provide more detailed technical examples" n)
  else (score, n).

Definition skillsQuality (role : string) (sd : SkillsDemonstration) (n : Notes)
  : Notes :=
  if Qltb 8 (overallCompetency sd) then
    strength ("Excellent " ++ role ++ " expertise demonstrated") n
  else if Qltb 6 (overallCompetency sd) then
    strength "Good role-specific knowledge shown" n
  else improve "IMPROVE: Strengthen role-specific competencies" n.

Definition skills (d : InterviewData) (ra : ResponseAnalysis) (n : Notes)
  : outcome (Q * Notes) :=
  let base := inject_Z (Math_floor (skillsRelevance ra * 10)) in
  if (questionsAnswered d =? 0)%Z then
    Returns
      (0, improve "Complete interview to demonstrate competencies"
            (improve "CRITICAL: Cannot assess skills without responses" n))
  else
    sd <- analyzeSkillsDemonstration (responsesOf d) (selectedRole d) ;;
    let '(s1, n1) := skillsCompetency sd base n in
    let '(s2, n2) := skillsCompletion (completionRate d) s1 n1 in
    let '(s3, n3) := skillsDepth (avgTimePerQuestion d) s2 n2 in
    Returns (s3, skillsQuality (selectedRole d) sd n3).

(** *** Confidence *)

(** The penalties for poor participation. *)
Definition confidenceCompletion (rate : number) (score : Q) (n : Notes)
  : Q * Notes :=
  if num_ltb rate 0.3 then
    (Math_max (score * 0.1) 0,
     improve "SEVERE: Very low completion suggests extreme nervousness" n)
  else if num_ltb rate 0.5 then
    (Math_max (score * 0.3) 0,
     improve "POOR: Low completion indicates confidence issues" n)
  else if num_ltb rate 0.7 then
    (Math_max (score * 0.6) 0,
     improve "BELOW AVERAGE: Build confidence through better preparation" n)
  else (score, n).

Definition confidenceTiming (avg : Q) (ra : ResponseAnalysis) (score : Q)
  (n : Notes) : Q * Notes :=
  if Qltb avg 8 then
    (Math_max (score - 30) 0,
     improve "MAJOR: Rushed responses suggest panic or lack of preparation" n)
  else if Qltb avg 15 then
    (Math_max (score - 15) 0,
     improve "WARNING: Brief responses may indicate nervousness" n)
  else if (Qleb 30 avg && Qltb 6 (clarity ra))%bool then
    (Math_min (score + 10) 100,
     strength "Confident, well-structured responses" n)
  else (score, n).

Definition confidenceConsistency (completed : bool) (rate : number) (score : Q)
  (n : Notes) : Q * Notes :=
  if (completed && num_geb rate 0.9)%bool then
    (Math_min (score + 15) 100,
     strength "Excellent confidence through complete participation" n)
  else (score, n).

Definition confidenceOf (d : InterviewData) (ra : ResponseAnalysis) (n : Notes)
  : Q * Notes :=
  if (negb (cameraUsed d) || negb (microphoneUsed d))%bool then
    (0, improve "CRITICAL: Cannot assess confidence without full A/V setup" n)
  else if (questionsAnswered d =? 0)%Z then
    (0, improve "CRITICAL: No engagement indicates lack of confidence" n)
  else
    let base := inject_Z (Math_floor (confidence ra * 10)) in
    let '(s1, n1) := confidenceCompletion (completionRate d) base n in
    let '(s2, n2) := confidenceTiming (avgTimePerQuestion d) ra s1 n1 in
    confidenceConsistency (interviewCompleted d) (completionRate d) s2 n2.

(** *** Overall score and feedback *)

Definition overallOf (body gram skill conf : Q) : Q :=
  inject_Z (Math_round ((body + gram + skill + conf) / 4)).

Definition interviewFeedback (d : InterviewData) (overall : Q) : list chunk :=
  let pct := Text (showZ (Qfloor overall)) in
  let rate := Fixed1 (num_scale (completionRate d) 100) in
  let avg := Fixed1 (Finite (avgTimePerQuestion d)) in
  if Qeq_bool overall 0 then
    [Text "INTERVIEW FAILURE: Complete lack of professional interview readiness. Cannot recommend for any position without fundamental improvements in setup, preparation, and engagement."]
  else if Qltb overall 15 then
    [Text "SEVERE DEFICIENCY ("; pct;
     Text "%): Performance indicates fundamental lack of interview skills and professional readiness. Completed ";
     rate; Text "% with "; avg;
     Text "s avg response time. Requires comprehensive interview training, technical setup review, and extensive practice before attempting real interviews."]
  else if Qltb overall 30 then
    [Text "POOR PERFORMANCE ("; pct;
     Text "%): Interview demonstrates significant preparation and communication deficiencies. ";
     rate; Text "% completion rate with "; avg;
     Text "s responses indicates either technical difficulties or inadequate preparation. Must address: ";
     Text (if negb (cameraUsed d) then "video setup," else "");
     Text " ";
     Text (if negb (microphoneUsed d) then "audio setup," else "");
     Text " response quality, and professional communication standards."]
  else if Qltb overall 50 then
    [Text "BELOW STANDARD ("; pct;
     Text "%): Basic interview participation detected but falls short of professional expectations. ";
     rate; Text "% completion with "; avg;
     Text "s avg responses. While technical setup appears functional, content quality, communication skills, and confidence need substantial improvement. Focus on STAR method, industry knowledge, and structured responses."]
  else if Qltb overall 65 then
    [Text "AVERAGE PERFORMANCE ("; pct;
     Text "%): Demonstrates adequate interview skills with ";
     rate; Text "% completion and "; avg;
     Text "s response times. Shows basic professional communication and role understanding. To excel: add specific quantifiable examples, demonstrate deeper technical expertise, improve response structure, and show greater enthusiasm for the role."]
  else if Qltb overall 80 then
    [Text "GOOD PERFORMANCE ("; pct;
     Text "%): Strong interview showing with ";
     rate; Text "% completion rate and "; avg;
     Text "s thoughtful responses. Demonstrates professional communication, role competency, and good interview presence. Minor improvements: more specific metrics in examples, stronger technical depth, and enhanced storytelling to differentiate from other candidates."]
  else
    [Text "EXCELLENT PERFORMANCE ("; pct;
     Text "%): Outstanding interview demonstration with ";
     rate; Text "% completion and "; avg;
     Text "s well-structured responses. Shows exceptional professional presence, clear communication, strong role expertise, and interview confidence. Performance indicates strong candidacy for ";
     Text (selectedRole d);
     Text " positions. Continue leveraging these strengths in real interviews."].

Definition analyzeInterviewPerformance (d : InterviewData)
  : outcome InterviewAnalysis :=
  ra <- analyzeResponseContent (responsesOf d) (selectedRole d) ;;
  let '(body, n1) := bodyLanguage d ra noNotes in
  let '(gram, n2) := grammar d ra n1 in
  sk <- skills d ra n2 ;;
  let '(skill, n3) := sk in
  let '(conf, n4) := confidenceOf d ra n3 in
  let overall := overallOf body gram skill conf in
  Returns {| overallScore := overall;
             bodyLanguageScore := body;
             grammarScore := gram;
             skillsScore := skill;
             confidenceScore := conf;
             feedback := interviewFeedback d overall;
             interviewStrengths := strengths n4;
             interviewImprovements := improvements n4 |}.

(* ===================================================================== *)
(** ** analyzeResume *)
(* ===================================================================== *)

Local Open Scope Z_scope.

(** What the scorer observes of a browser [File]: its name, its size, and
    how [FileReader.readAsText] ends ([Returns] the [result] handed to
    [onload], [None] for [null]; [Throws] when the read raises inside the
    promise; [Pending] when [onload] never fires). *)
Record File : Type := {
  name : string;
  size : Z;
  readAsText : outcome (option string)
}.

Record ResumeAnalysis : Type := {
  atsScore : Z;
  resumeFeedback : string;
  resumeStrengths : list string;
  resumeImprovements : list string
}.

Record RoleData : Type := {
  required : list string;
  preferred : list string;
  exclusions : list string
}.

Definition roleKeywords : list (string * RoleData) :=
  [ ("Software Engineer",
      {| required := ["software"; "development"; "programming"; "code"];
         preferred := ["javascript"; "python"; "react"; "node"; "git"; "api";
                       "database"; "frontend"; "backend"; "html"; "css"];
         exclusions := ["microsoft word"; "data entry"; "customer service"] |});
    ("Product Manager",
      {| required := ["product"; "management"; "strategy"];
         preferred := ["roadmap"; "stakeholder"; "agile"; "analytics"; "user";
                       "market"; "launch"; "metrics"];
         exclusions := ["coding"; "programming"; "technical implementation"] |});
    ("Data Scientist",
      {| required := ["data"; "analysis"; "statistics"];
         preferred := ["python"; "machine learning"; "sql"; "modeling";
                       "visualization"; "pandas"; "numpy"; "scikit"];
         exclusions := ["basic excel"; "data entry"; "administrative"] |});
    ("UX Designer",
      {| required := ["design"; "user"; "experience"];
         preferred := ["wireframe"; "prototype"; "usability"; "research";
                       "figma"; "sketch"; "adobe"; "user-centered"];
         exclusions := ["graphic design only"; "print design";
                        "marketing design"] |});
    ("Sales Representative",
      {| required := ["sales"; "revenue"; "client"];
         preferred := ["relationship"; "target"; "crm"; "negotiation"; "quota";
                       "pipeline"; "prospecting"];
         exclusions := ["cashier"; "retail associate";
                        "customer service only"] |});
    ("Marketing Manager",
      {| required := ["marketing"; "campaign"; "brand"];
         preferred := ["digital"; "analytics"; "roi"; "content"; "social media";
                       "seo"; "conversion"];
         exclusions := ["sales only"; "administrative assistant";
                        "data entry"] |});
    ("Business Analyst",
      {| required := ["business"; "analysis"; "requirements"];
         preferred := ["process"; "stakeholder"; "documentation"; "workflow";
                       "improvement"; "metrics"];
         exclusions := ["basic admin"; "data entry"; "customer service"] |});
    ("DevOps Engineer",
      {| required := ["devops"; "infrastructure"; "deployment"];
         preferred := ["aws"; "docker"; "kubernetes"; "ci/cd"; "automation";
                       "monitoring"; "cloud"; "linux"];
         exclusions := ["basic IT support"; "help desk"; "desktop support"] |}) ].

Definition noRoleData : RoleData :=
  {| required := []; preferred := []; exclusions := [] |}.

Definition allowedTypes : list string := [".pdf"; ".doc"; ".docx"].

(** [file.name.toLowerCase().substring(file.name.lastIndexOf('.'))] *)
Definition fileExtension (file : File) : string :=
  substringFrom (lastIndexOf "."%char (name file)) (toLowerCase (name file)).

Definition accepted (file : File) : bool :=
  existsb (String.eqb (fileExtension file)) allowedTypes.

(** [extractTextFromFile]: [resolve(result || '')]. *)
Definition extractTextFromFile (file : File) : outcome string :=
  r <- readAsText file ;;
  Returns (match r with Some text => text | None => "" end).

(** The keywords of a list found in the text or in the file name. *)
Definition countFound (textContent fileName : string) (keywords : list string)
  : nat :=
  List.length
    (filter (fun keyword =>
               (includes (toLowerCase textContent) keyword
                || includes fileName keyword)%bool)
       keywords).

(** 2. File size, below the 2MB rejection. *)
Definition sizeStep (file : File) (score : Z) (n : Notes) : Z * Notes :=
  if size file <? 30000 then
    (Z.max (score - 5) 0,
     improve "CRITICAL: File too small - likely missing essential content" n)
  else if (50000 <=? size file) && (size file <=? 500000) then
    (score + 2, strength "Appropriate file size" n)
  else (score, n).

(** 3. Filename analysis. *)
Definition nameStep (fileName : string) (score : Z) (n : Notes) : Z * Notes :=
  let '(s1, n1) :=
    if (negb (includes fileName "resume") && negb (includes fileName "cv"))%bool
    then
      (Z.max (score - 3) 0,
       improve "MAJOR: Filename should contain 'resume' or 'CV' for ATS recognition" n)
    else (score + 2, strength "Professional filename" n) in
  if (includes fileName "draft" || includes fileName "temp"
      || includes fileName "copy")%bool
  then
    (Z.max (s1 - 5) 0,
     improve "CRITICAL: Remove draft/temp/copy from filename - appears unprofessional" n1)
  else (s1, n1).

(** 5. Keyword analysis. *)
Definition requiredStep (role : string) (roleData : RoleData)
  (textContent fileName : string) (score : Z) (n : Notes) : Z * Notes :=
  let requiredFound := countFound textContent fileName (required roleData) in
  if (requiredFound =? 0)%nat then
    (0, improve ("CRITICAL: Missing ALL required keywords for " ++ role) n)
  else if (requiredFound <? List.length (required roleData))%nat then
    (Z.max (score - 15) 0,
     improve ("MAJOR: Missing "
              ++ showNat (List.length (required roleData) - requiredFound)
              ++ " required keywords") n)
  else (score + 10, strength "Contains required role keywords" n).

Definition preferredPercentage (roleData : RoleData)
  (textContent fileName : string) : number :=
  js_div (ofNat (countFound textContent fileName (preferred roleData)))
         (ofNat (List.length (preferred roleData))).

Definition preferredStep (roleData : RoleData) (textContent fileName : string)
  (score : Z) (n : Notes) : Z * Notes :=
  let pct := preferredPercentage roleData textContent fileName in
  if num_geb pct 0.7 then
    (score + 15, strength "Excellent keyword optimization" n)
  else if num_geb pct 0.5 then
    (score + 10, strength "Good keyword presence" n)
  else if num_geb pct 0.3 then
    (score + 5, improve "Add more role-specific keywords" n)
  else
    (Z.max (score - 10) 0,
     improve "MAJOR: Severely lacking role-specific keywords" n).

Definition exclusionStep (roleData : RoleData) (textContent fileName : string)
  (score : Z) (n : Notes) : Z * Notes :=
  let exclusionsFound := countFound textContent fileName (exclusions roleData) in
  if (0 <? exclusionsFound)%nat then
    (Z.max (score - Z.of_nat exclusionsFound * 5) 0,
     improve ("WARNING: Contains " ++ showNat exclusionsFound
              ++ " irrelevant/negative keywords") n)
  else (score, n).

(** 6. Essential sections. *)
Definition essentialSections : list string :=
  ["experience"; "education"; "skills"; "contact"].

Definition sectionStep (textContent fileName : string) (score : Z) (n : Notes)
  : Z * Notes :=
  let sectionsFound :=
    List.length
      (filter (fun section =>
                 (includes (toLowerCase textContent) section
                  || includes (toLowerCase textContent) (section ++ "s")
                  || includes fileName section)%bool)
         essentialSections) in
  if (sectionsFound <? 3)%nat then
    (Z.max (score - 20) 0,
     improve "CRITICAL: Missing essential resume sections (Experience, Education, Skills, Contact)" n)
  else (score + 5, strength "Contains essential resume sections" n).

(** 7. Length analysis, from [Math.floor(file.size / 6)]. *)
Definition lengthStep (file : File) (score : Z) (n : Notes) : Z * Notes :=
  let estimatedWords := size file / 6 in
  if estimatedWords <? 200 then
    (Z.max (score - 15) 0,
     improve "CRITICAL: Resume appears too brief - ATS expects 300-600 words minimum" n)
  else if 1200 <? estimatedWords then
    (Z.max (score - 10) 0,
     improve "MAJOR: Resume appears too lengthy - ATS prefers concise 1-2 pages" n)
  else if (300 <=? estimatedWords) && (estimatedWords <=? 800) then
    (score + 8, strength "Appropriate resume length" n)
  else (score, n).

(** 8. Contact information. *)
Definition contactStep (textContent fileName : string) (score : Z) (n : Notes)
  : Z * Notes :=
  let hasEmail := (includes textContent "@" || includes fileName "email")%bool in
  let hasPhone := (test rePhone textContent || includes fileName "phone")%bool in
  if (negb hasEmail && negb hasPhone)%bool then
    (Z.max (score - 10) 0, improve "CRITICAL: No contact information detected" n)
  else if (negb hasEmail || negb hasPhone)%bool then
    (Z.max (score - 5) 0, improve "MAJOR: Missing email or phone number" n)
  else (score + 3, strength "Contains contact information" n).

Definition resumeFeedbackOf (score : Z) : string :=
  if score =? 0 then
    "REJECTED: Resume fails basic ATS requirements. Cannot proceed to human review."
  else if score <? 20 then
    "CRITICAL FAILURE (" ++ showZ score
    ++ "%): Resume would be auto-rejected by ATS systems. Major restructuring required."
  else if score <? 40 then
    "POOR (" ++ showZ score
    ++ "%): Resume unlikely to pass ATS screening. Significant improvements needed in keywords, format, and content."
  else if score <? 60 then
    "BELOW AVERAGE (" ++ showZ score
    ++ "%): Resume has basic requirements but lacks optimization. May pass simple ATS but will rank low."
  else if score <? 75 then
    "AVERAGE (" ++ showZ score
    ++ "%): Resume meets most ATS requirements but needs refinement to stand out among candidates."
  else
    "GOOD (" ++ showZ score
    ++ "%): Resume well-optimized for ATS systems. Should pass most screening filters and reach human reviewers.".

(** The result of a call that stops at one of the two rejections. *)
Definition rejected (score : Z) (text : string) (n : Notes) : ResumeAnalysis :=
  {| atsScore := score;
     resumeFeedback := text;
     resumeStrengths := strengths n;
     resumeImprovements := improvements n |}.

(** Steps 5 to 8 and the final cap, on the extracted text. *)
Definition scoreText (file : File) (selectedRole fileName textContent : string)
  (score : Z) (n : Notes) : outcome ResumeAnalysis :=
  match lookupOr roleKeywords noRoleData selectedRole with
  | None => Throws
  | Some roleData =>
      let '(s5, n5) :=
        requiredStep selectedRole roleData textContent fileName score n in
      let '(s6, n6) := preferredStep roleData textContent fileName s5 n5 in
      let '(s7, n7) := exclusionStep roleData textContent fileName s6 n6 in
      let '(s8, n8) := sectionStep textContent fileName s7 n7 in
      let '(s9, n9) := lengthStep file s8 n8 in
      let '(s10, n10) := contactStep textContent fileName s9 n9 in
      let final := Z.min s10 85 in
      Returns {| atsScore := final;
                 resumeFeedback := resumeFeedbackOf final;
                 resumeStrengths := strengths n10;
                 resumeImprovements := improvements n10 |}
  end.

(** Steps 3 and 4, once format and size are accepted: the [try] around the
    extraction turns a rejected read into an empty text and a warning. *)
Definition scoreContent (file : File) (selectedRole : string) (score : Z)
  (n : Notes) : outcome ResumeAnalysis :=
  let fileName := toLowerCase (name file) in
  let '(s3, n3) := nameStep fileName score n in
  match extractTextFromFile file with
  | Returns textContent => scoreText file selectedRole fileName textContent s3 n3
  | Throws =>
      scoreText file selectedRole fileName "" s3
        (improve "WARNING: Could not parse resume content - ensure file is not corrupted" n3)
  | Pending => Pending
  end.

Definition analyzeResume (file : option File) (selectedRole : string)
  : outcome ResumeAnalysis :=
  match file with
  | None =>
      Returns
        {| atsScore := 0;
           resumeFeedback :=
             "CRITICAL: No resume uploaded. ATS systems immediately reject applications without resumes.";
           resumeStrengths := [];
           resumeImprovements :=
             ["Upload a resume in PDF, DOC, or DOCX format";
              "Ensure file is under 2MB"; "Use standard resume format"] |}
  | Some file =>
      if negb (accepted file) then
        Returns
          (rejected 0 "Resume format incompatible with ATS systems"
             (improve "ATS systems auto-reject non-standard formats"
                (improve "CRITICAL: File format rejected by ATS - use PDF, DOC, or DOCX only"
                   noNotes)))
      else
        let n1 := strength "Acceptable file format" noNotes in
        if 2000000 <? size file then
          Returns
            (rejected 5 "Resume file size exceeds ATS limits"
               (improve "CRITICAL: File too large - ATS systems reject files over 2MB" n1))
        else
          let '(s2, n2) := sizeStep file (0 + 3) n1 in
          scoreContent file selectedRole s2 n2
  end.

(** The projections of [Notes], under names that the records of other
    scorers do not shadow. *)
Definition notedStrengths (n : Notes) : list string := strengths n.
Definition notedImprovements (n : Notes) : list string := improvements n.

(* ===================================================================== *)
(** ** public/minimal.js: analyzePerformance *)
(* ===================================================================== *)

(** The stand-alone page keeps the session in a global [state] and scores
    it with its own, simpler [analyzePerformance].  Only the fields the
    scorer reads are kept. *)
Module Minimal.

Local Open Scope Q_scope.

Record State : Type := {
  questionsAnswered : Z;
  questions : list string;
  timeSpentPerQuestion : list Q;
  cameraUsed : bool;
  microphoneUsed : bool
}.

Record Analysis : Type := {
  overallScore : Q;
  bodyLanguageScore : Q;
  grammarScore : Q;
  skillsScore : Q;
  confidenceScore : Q;
  feedback : string;
  strengths : list string;
  improvements : list string
}.

Definition completionRate (state : State) : number :=
  js_div (inject_Z (questionsAnswered state))
         (ofNat (List.length (questions state))).

Definition avgTimePerQuestion (state : State) : Q :=
  if (0 <? List.length (timeSpentPerQuestion state))%nat
  then fold_left Qplus (timeSpentPerQuestion state) 0
       / ofNat (List.length (timeSpentPerQuestion state))
  else 0.

Definition bodyLanguage (state : State) (n : Notes) : Q * Notes :=
  if negb (cameraUsed state) then
    (0, improve "Camera was not enabled - body language assessment impossible" n)
  else if (questionsAnswered state =? 0)%Z then
    (0, improve "No questions answered despite camera being on" n)
  else if num_ltb (completionRate state) 0.5 then
    (5, improve "Very poor engagement - answered less than 50% of questions" n)
  else if num_ltb (completionRate state) 0.8 then
    (25, improve "Poor engagement - complete more questions" n)
  else (60, strength "Good visual engagement" n).

Definition grammar (state : State) (n : Notes) : Q * Notes :=
  if negb (microphoneUsed state) then
    (0, improve "Microphone was not enabled - speech assessment impossible" n)
  else if (questionsAnswered state =? 0)%Z then
    (0, improve "No verbal responses detected" n)
  else if Qltb (avgTimePerQuestion state) 15 then
    (10, improve "Responses too brief" n)
  else (45, strength "Adequate response length" n).

Definition skills (state : State) (n : Notes) : Q * Notes :=
  if (questionsAnswered state =? 0)%Z then
    (0, improve "Cannot assess skills - no questions answered" n)
  else if num_ltb (completionRate state) 0.7 then
    (15, improve "Limited skill demonstration" n)
  else (50, strength "Moderate skill demonstration" n).

Definition confidence (state : State) (n : Notes) : Q * Notes :=
  if (negb (cameraUsed state) || negb (microphoneUsed state))%bool then
    (5, improve "Unable to assess confidence without full setup" n)
  else if num_ltb (completionRate state) 0.5 then
    (10, improve "Low completion suggests confidence issues" n)
  else (40, strength "Adequate confidence level" n).

Definition feedbackOf (overall : Q) : string :=
  if Qeq_bool overall 0 then
    "No interview participation detected. Please restart with camera and microphone enabled."
  else if Qltb overall 15 then
    "Extremely poor performance. Major improvements needed."
  else if Qltb overall 30 then
    "Very poor interview performance. Focus on preparation and engagement."
  else if Qltb overall 60 then
    "Below average performance with significant room for improvement."
  else
    "Good performance! Continue practicing to improve further.".

Definition analyzePerformance (state : State) : Analysis :=
  let '(body, n1) := bodyLanguage state noNotes in
  let '(gram, n2) := grammar state n1 in
  let '(skill, n3) := skills state n2 in
  let '(conf, n4) := confidence state n3 in
  let overall := overallOf body gram skill conf in
  {| overallScore := overall;
     bodyLanguageScore := body;
     grammarScore := gram;
     skillsScore := skill;
     confidenceScore := conf;
     feedback := feedbackOf overall;
     strengths := notedStrengths n4;
     improvements := notedImprovements n4 |}.

End Minimal.

(* ===================================================================== *)
(** ** analyzeInterviewPerformance in double precision *)
(* ===================================================================== *)

(** The same function once more, with every [number] an IEEE 754 binary64
    value and every arithmetic operation rounded as JavaScript rounds it.
    The text of the function is followed operation by operation (sums are
    taken left to right, as the source writes them).  The string helpers,
    the grammar detector (which only counts) and the messages are the ones
    above. *)
Module Double.

Import PrimFloat.
Local Open Scope float_scope.
#[local] Set Warnings "-inexact-float".

(** A count (an array length, a number of matches) as a double. *)
Definition ofNat (n : nat) : float := of_uint63 (Uint63.of_Z (Z.of_nat n)).

Definition isNaN (x : float) : bool := negb (x =? x).

(** [Math.max] and [Math.min] of two numbers: [NaN] if either is [NaN],
    and [+0] above [-0]. *)
Definition Math_max (x y : float) : float :=
  if isNaN x then x
  else if isNaN y then y
  else if y <? x then x
  else if x <? y then y
  else if x =? 0 then x + y
  else x.

Definition Math_min (x y : float) : float :=
  if isNaN x then x
  else if isNaN y then y
  else if x <? y then x
  else if y <? x then y
  else if x =? 0 then - (- x + - y)
  else x.

(** [2^52]: from here on every double is an integer. *)
Definition two52 : float := 4503599627370496.

(** [Math.floor]: adding and subtracting [2^52] rounds to the nearest
    integer, which is one too many when it lies above [x]. *)
Definition Math_floor (x : float) : float :=
  if x =? 0 then x
  else if abs x <? two52 then
    let nearest := if 0 <? x then (x + two52) - two52
                   else (x - two52) + two52 in
    if x <? nearest then nearest - 1 else nearest
  else x.

(** [Math.round]: the nearest integer, the larger one on a tie, [-0] for
    a negative number that rounds to zero. *)
Definition Math_round (x : float) : float :=
  let below := Math_floor x in
  let rounded := if 0.5 <=? x - below then below + 1 else below in
  if ((x <? 0) && (rounded =? 0))%bool then - 0 else rounded.

(** [Math.round(x * 10) / 10] *)
Definition round1 (x : float) : float := Math_round (x * 10) / 10.

(** The exact value of a finite double, as a rational. *)
Definition exactValue (x : float) : Q :=
  match FloatOps.Prim2SF x with
  | SpecFloat.S754_finite negative m e =>
      let magnitude :=
        if (0 <=? e)%Z then inject_Z (Z.pos m * 2 ^ e)
        else (inject_Z (Z.pos m) / inject_Z (2 ^ (- e)))%Q in
      if negative then Qopp magnitude else magnitude
  | _ => 0%Q
  end.

(** *** Response analysis *)

Record ResponseAnalysis : Type := {
  qualityScore : float;
  communicationScore : float;
  skillsRelevance : float;
  clarity : float;
  confidence : float
}.

Definition contentStep (role response : string) (st : ResponseAnalysis)
  : outcome ResponseAnalysis :=
  let words := filter nonEmpty (splitChar " "%char (toLowerCase response)) in
  let quality1 :=
    if (List.length words <? 10)%nat then Math_max (qualityScore st - 2) 0
    else if (50 <? List.length words)%nat then Math_min (qualityScore st + 1) 10
    else qualityScore st in
  let evidence :=
    (includes response "example" || includes response "specifically"
     || test reMetric response)%bool in
  let quality2 :=
    if evidence then Math_min (quality1 + 1.5) 10 else quality1 in
  let skills1 :=
    if evidence then Math_min (skillsRelevance st + 1) 10
    else skillsRelevance st in
  let sentences :=
    filter (fun s => nonEmpty (trim s)) (splitSentences response) in
  let structured := (2 <? List.length sentences)%nat in
  let communication1 :=
    if structured then Math_min (communicationScore st + 0.5) 10
    else communicationScore st in
  let clarity1 :=
    if structured then Math_min (clarity st + 0.5) 10 else clarity st in
  let confidence1 :=
    if (includes response "I successfully" || includes response "I achieved"
        || includes response "I led")%bool
    then Math_min (confidence st + 1) 10
    else confidence st in
  keywordMatches <- keywordHits role response ;;
  let skills2 :=
    if (0 <? keywordMatches)%nat
    then Math_min (skills1 + ofNat keywordMatches * 0.5) 10
    else skills1 in
  Returns {| qualityScore := quality2;
             communicationScore := communication1;
             skillsRelevance := skills2;
             clarity := clarity1;
             confidence := confidence1 |}.

Definition analyzeResponseContent (responses : list string) (role : string)
  : outcome ResponseAnalysis :=
  match responses with
  | [] =>
      Returns {| qualityScore := 0; communicationScore := 0;
                 skillsRelevance := 0; clarity := 0; confidence := 0 |}
  | _ =>
      st <- forEach (contentStep role) responses
              {| qualityScore := 5; communicationScore := 5;
                 skillsRelevance := 5; clarity := 5; confidence := 5 |} ;;
      Returns {| qualityScore := round1 (qualityScore st);
                 communicationScore := round1 (communicationScore st);
                 skillsRelevance := round1 (skillsRelevance st);
                 clarity := round1 (clarity st);
                 confidence := round1 (confidence st) |}
  end.

Record SkillsState : Type := {
  st_technicalAccuracy : float;
  st_industryKnowledge : float;
  st_problemSolving : float;
  st_specificExamples : nat
}.

Record SkillsDemonstration : Type := {
  technicalAccuracy : float;
  industryKnowledge : float;
  problemSolving : float;
  specificExamples : nat;
  overallCompetency : float
}.

Definition skillsStep (role response : string) (st : SkillsState)
  : outcome SkillsState :=
  technicalTerms <- keywordHits role response ;;
  let hit := (0 <? technicalTerms)%nat in
  let accuracy :=
    if hit
    then Math_min (st_technicalAccuracy st + ofNat technicalTerms * 0.5) 10
    else st_technicalAccuracy st in
  let knowledge :=
    if hit
    then Math_min (st_industryKnowledge st + ofNat technicalTerms * 0.3) 10
    else st_industryKnowledge st in
  let solving :=
    if (includes response "problem" || includes response "challenge"
        || includes response "solution" || includes response "approach")%bool
    then Math_min (st_problemSolving st + 1) 10
    else st_problemSolving st in
  let examples :=
    if test reExample response
    then S (st_specificExamples st) else st_specificExamples st in
  Returns {| st_technicalAccuracy := accuracy;
             st_industryKnowledge := knowledge;
             st_problemSolving := solving;
             st_specificExamples := examples |}.

Definition analyzeSkillsDemonstration (responses : list string) (role : string)
  : outcome SkillsDemonstration :=
  st <- forEach (skillsStep role) responses
          {| st_technicalAccuracy := 3; st_industryKnowledge := 3;
             st_problemSolving := 3; st_specificExamples := 0 |} ;;
  let overall :=
    (st_technicalAccuracy st + st_industryKnowledge st + st_problemSolving st)
    / 3 in
  Returns {| technicalAccuracy := round1 (st_technicalAccuracy st);
             industryKnowledge := round1 (st_industryKnowledge st);
             problemSolving := round1 (st_problemSolving st);
             specificExamples := st_specificExamples st;
             overallCompetency := round1 overall |}.

(** *** The session and its analysis *)

Record InterviewData : Type := {
  questionsAnswered : float;
  totalQuestions : float;
  timeSpentPerQuestion : list float;
  cameraUsed : bool;
  microphoneUsed : bool;
  interviewCompleted : bool;
  selectedRole : string;
  interviewDuration : float;
  responses : option (list string)
}.

(** A template literal: its text, the numbers it prints as they are and the
    numbers it prints with [toFixed(1)]. *)
Inductive chunk : Type :=
| Text (s : string)
| Shown (x : float)
| Fixed1 (x : float).

Record InterviewAnalysis : Type := {
  overallScore : float;
  bodyLanguageScore : float;
  grammarScore : float;
  skillsScore : float;
  confidenceScore : float;
  feedback : list chunk;
  interviewStrengths : list string;
  interviewImprovements : list string
}.

Definition responsesOf (d : InterviewData) : list string :=
  match responses d with
  | Some rs => rs
  | None => []
  end.

Definition completionRate (d : InterviewData) : float :=
  questionsAnswered d / totalQuestions d.

Definition avgTimePerQuestion (d : InterviewData) : float :=
  if (0 <? List.length (timeSpentPerQuestion d))%nat
  then fold_left add (timeSpentPerQuestion d) 0
       / ofNat (List.length (timeSpentPerQuestion d))
  else 0.

Definition countBelow (limit : float) (times : list float) : nat :=
  List.length (filter (fun time => time <? limit) times).

(** *** Body language *)

Definition bodyLanguageBand (qa rate : float) (n : Notes) : float * Notes :=
  if qa =? 0 then
    (0, improve "CRITICAL: No responses despite camera - shows complete disengagement" n)
  else if rate <? 0.3 then
    (2, improve "SEVERE: Answered <30% questions - appears uninterested or unprepared" n)
  else if rate <? 0.5 then
    (5, improve "POOR: <50% completion suggests nervousness or lack of preparation" n)
  else if rate <? 0.7 then
    (12, improve "BELOW AVERAGE: Complete at least 70% to show engagement" n)
  else if rate <? 0.8 then
    (25, improve "AVERAGE: Aim for 80%+ completion for professional impression" n)
  else if rate <? 0.95 then
    (45, strength "Good visual engagement" n)
  else
    (60, strength "Excellent visual participation" n).

Definition bodyLanguageTiming (qa : float) (times : list float) (score : float)
  (n : Notes) : float * Notes :=
  let rushResponses := countBelow 8 times in
  let shortResponses := countBelow 15 times in
  if qa * 0.4 <? ofNat rushResponses then
    (Math_max (score - 25) 0,
     improve "MAJOR: Too many rushed responses (<8s) - shows panic or disinterest" n)
  else if qa * 0.6 <? ofNat shortResponses then
    (Math_max (score - 15) 0,
     improve "WARNING: Many brief responses - provide more thoughtful answers" n)
  else (score, n).

Definition bodyLanguageQuality (ra : ResponseAnalysis) (score : float)
  (n : Notes) : float * Notes :=
  if 7 <? qualityScore ra then
    (Math_min (score + 15) 100,
     strength "Confident delivery with quality content" n)
  else if 5 <? qualityScore ra then
    (Math_min (score + 8) 85, n)
  else (score, n).

Definition bodyLanguage (d : InterviewData) (ra : ResponseAnalysis) (n : Notes)
  : float * Notes :=
  if negb (cameraUsed d) then
    (0, improve "Modern interviews require video presence"
          (improve "CRITICAL: Camera disabled - cannot assess professional presence" n))
  else
    let '(s1, n1) := bodyLanguageBand (questionsAnswered d) (completionRate d) n in
    let '(s2, n2) :=
      bodyLanguageTiming (questionsAnswered d) (timeSpentPerQuestion d) s1 n1 in
    bodyLanguageQuality ra s2 n2.

(** *** Grammar and speech *)

Definition grammarIssuesPenalty (rs : list string) (score : float) (n : Notes)
  : float * Notes :=
  let issues := analyzeGrammarAndSpeech rs in
  let '(s1, n1) :=
    if (List.length rs * 2 <? fillerWords issues)%nat then
      (Math_max (score - 20) 0,
       improve "MAJOR: Excessive filler words (um, uh, like) - practice fluency" n)
    else (score, n) in
  let '(s2, n2) :=
    if ofNat (List.length rs) * 0.3 <? ofNat (incompleteThoughts issues) then
      (Math_max (s1 - 15) 0,
       improve "WARNING: Many incomplete thoughts - practice structured responses" n1)
    else (s1, n1) in
  if ofNat (List.length rs) * 0.2 <? ofNat (grammarErrors issues) then
    (Math_max (s2 - 10) 0,
     improve "NOTE: Grammar issues detected - review professional communication" n2)
  else (s2, n2).

Definition grammarLength (avg : float) (score : float) (n : Notes)
  : float * Notes :=
  if avg <? 10 then
    (Math_max (score - 25) 0,
     improve "SEVERE: Responses too brief to demonstrate communication skills" n)
  else if avg <? 20 then
    (Math_max (score - 15) 0,
     improve "POOR: Very brief responses - elaborate with examples" n)
  else if 120 <? avg then
    (Math_max (score - 10) 0,
     improve "WARNING: Responses too lengthy - practice conciseness" n)
  else (score, n).

Definition grammarCompletion (rate : float) (score : float) (n : Notes)
  : float * Notes :=
  if rate <? 0.5 then
    (Math_max (score * 0.3) 0,
     improve "CRITICAL: Low completion severely limits communication assessment" n)
  else if rate <? 0.7 then
    (Math_max (score * 0.6) 0,
     improve "MAJOR: Inconsistent participation affects communication evaluation" n)
  else (score, n).

Definition grammarClarity (ra : ResponseAnalysis) (n : Notes) : Notes :=
  if 8 <? clarity ra then strength "Excellent clarity and articulation" n
  else if 6 <? clarity ra then strength "Good communication clarity" n
  else improve "IMPROVE: Work on clearer articulation and structure" n.

Definition grammar (d : InterviewData) (ra : ResponseAnalysis) (n : Notes)
  : float * Notes :=
  if negb (microphoneUsed d) then
    (0, improve "Professional roles require verbal communication skills"
          (improve "CRITICAL: Microphone disabled - cannot assess communication" n))
  else
    let base := Math_floor (communicationScore ra * 10) in
    if questionsAnswered d =? 0 then
      (0, improve "CRITICAL: No verbal responses detected" n)
    else
      let '(s1, n1) := grammarIssuesPenalty (responsesOf d) base n in
      let '(s2, n2) := grammarLength (avgTimePerQuestion d) s1 n1 in
      let '(s3, n3) := grammarCompletion (completionRate d) s2 n2 in
      (s3, grammarClarity ra n3).

(** *** Skills *)

Definition skillsCompetency (sd : SkillsDemonstration) (score : float)
  (n : Notes) : float * Notes :=
  let '(s1, n1) :=
    if technicalAccuracy sd <? 3 then
      (Math_max (score - 30) 0,
       improve "MAJOR: Lacks technical accuracy for role requirements" n)
    else (score, n) in
  let '(s2, n2) :=
    if industryKnowledge sd <? 4 then
      (Math_max (s1 - 20) 0,
       improve "WARNING: Limited industry knowledge demonstrated" n1)
    else (s1, n1) in
  let '(s3, n3) :=
    if problemSolving sd <? 3 then
      (Math_max (s2 - 25) 0,
       improve "CRITICAL: Poor problem-solving approach shown" n2)
    else (s2, n2) in
  if (specificExamples sd <? 2)%nat then
    (Math_max (s3 - 15) 0,
     improve "MAJOR: Provide specific examples to demonstrate experience" n3)
  else (s3, n3).

Definition skillsCompletion (rate : float) (score : float) (n : Notes)
  : float * Notes :=
  if rate <? 0.4 then
    (Math_max (score * 0.2) 0,
     improve "SEVERE: Insufficient responses to evaluate competency" n)
  else if rate <? 0.6 then
    (Math_max (score * 0.5) 0,
     improve "POOR: Need more responses to showcase abilities" n)
  else if rate <? 0.8 then
    (Math_max (score * 0.7) 0,
     improve "AVERAGE: Complete more to fully demonstrate skills" n)
  else (score, n).

Definition skillsDepth (avg : float) (score : float) (n : Notes)
  : float * Notes :=
  if avg <? 20 then
    (Math_max (score - 20) 0,
     improve "MAJOR: Responses too brief to show expertise depth" n)
  else if avg <? 30 then
    (Math_max (score - 10) 0,
     improve "WARNING: Provide more detailed technical examples" n)
  else (score, n).

Definition skillsQuality (role : string) (sd : SkillsDemonstration) (n : Notes)
  : Notes :=
  if 8 <? overallCompetency sd then
    strength ("Excellent " ++ role ++ " expertise demonstrated") n
  else if 6 <? overallCompetency sd then
    strength "Good role-specific knowledge shown" n
  else improve "IMPROVE: Strengthen role-specific competencies" n.

Definition skills (d : InterviewData) (ra : ResponseAnalysis) (n : Notes)
  : outcome (float * Notes) :=
  let base := Math_floor (skillsRelevance ra * 10) in
  if questionsAnswered d =? 0 then
    Returns
      (0, improve "Complete interview to demonstrate competencies"
            (improve "CRITICAL: Cannot assess skills without responses" n))
  else
    sd <- analyzeSkillsDemonstration (responsesOf d) (selectedRole d) ;;
    let '(s1, n1) := skillsCompetency sd base n in
    let '(s2, n2) := skillsCompletion (completionRate d) s1 n1 in
    let '(s3, n3) := skillsDepth (avgTimePerQuestion d) s2 n2 in
    Returns (s3, skillsQuality (selectedRole d) sd n3).

(** *** Confidence *)

Definition confidenceCompletion (rate : float) (score : float) (n : Notes)
  : float * Notes :=
  if rate <? 0.3 then
    (Math_max (score * 0.1) 0,
     improve "SEVERE: Very low completion suggests extreme nervousness" n)
  else if rate <? 0.5 then
    (Math_max (score * 0.3) 0,
     improve "POOR: Low completion indicates confidence issues" n)
  else if rate <? 0.7 then
    (Math_max (score * 0.6) 0,
     improve "BELOW AVERAGE: Build confidence through better preparation" n)
  else (score, n).

Definition confidenceTiming (avg : float) (ra : ResponseAnalysis) (score : float)
  (n : Notes) : float * Notes :=
  if avg <? 8 then
    (Math_max (score - 30) 0,
     improve "MAJOR: Rushed responses suggest panic or lack of preparation" n)
  else if avg <? 15 then
    (Math_max (score - 15) 0,
     improve "WARNING: Brief responses may indicate nervousness" n)
  else if ((30 <=? avg) && (6 <? clarity ra))%bool then
    (Math_min (score + 10) 100,
     strength "Confident, well-structured responses" n)
  else (score, n).

Definition confidenceConsistency (completed : bool) (rate : float)
  (score : float) (n : Notes) : float * Notes :=
  if (completed && (0.9 <=? rate))%bool then
    (Math_min (score + 15) 100,
     strength "Excellent confidence through complete participation" n)
  else (score, n).

Definition confidenceOf (d : InterviewData) (ra : ResponseAnalysis) (n : Notes)
  : float * Notes :=
  if (negb (cameraUsed d) || negb (microphoneUsed d))%bool then
    (0, improve "CRITICAL: Cannot assess confidence without full A/V setup" n)
  else if questionsAnswered d =? 0 then
    (0, improve "CRITICAL: No engagement indicates lack of confidence" n)
  else
    let base := Math_floor (confidence ra * 10) in
    let '(s1, n1) := confidenceCompletion (completionRate d) base n in
    let '(s2, n2) := confidenceTiming (avgTimePerQuestion d) ra s1 n1 in
    confidenceConsistency (interviewCompleted d) (completionRate d) s2 n2.

(** *** Overall score and feedback *)

(** [Math.round((bodyLanguageScore + grammarScore + skillsScore +
    confidenceScore) / 4)] *)
Definition overallOf (body gram skill conf : float) : float :=
  Math_round ((body + gram + skill + conf) / 4).

Definition interviewFeedback (d : InterviewData) (overall : float) : list chunk :=
  let pct := Shown overall in
  let rate := Fixed1 (completionRate d * 100) in
  let avg := Fixed1 (avgTimePerQuestion d) in
  if overall =? 0 then
    [Text "INTERVIEW FAILURE: Complete lack of professional interview readiness. Cannot recommend for any position without fundamental improvements in setup, preparation, and engagement."]
  else if overall <? 15 then
    [Text "SEVERE DEFICIENCY ("; pct;
     Text "%): Performance indicates fundamental lack of interview skills and professional readiness. Completed ";
     rate; Text "% with "; avg;
     Text "s avg response time. Requires comprehensive interview training, technical setup review, and extensive practice before attempting real interviews."]
  else if overall <? 30 then
    [Text "POOR PERFORMANCE ("; pct;
     Text "%): Interview demonstrates significant preparation and communication deficiencies. ";
     rate; Text "% completion rate with "; avg;
     Text "s responses indicates either technical difficulties or inadequate preparation. Must address: ";
     Text (if negb (cameraUsed d) then "video setup," else "");
     Text " ";
     Text (if negb (microphoneUsed d) then "audio setup," else "");
     Text " response quality, and professional communication standards."]
  else if overall <? 50 then
    [Text "BELOW STANDARD ("; pct;
     Text "%): Basic interview participation detected but falls short of professional expectations. ";
     rate; Text "% completion with "; avg;
     Text "s avg responses. While technical setup appears functional, content quality, communication skills, and confidence need substantial improvement. Focus on STAR method, industry knowledge, and structured responses."]
  else if overall <? 65 then
    [Text "AVERAGE PERFORMANCE ("; pct;
     Text "%): Demonstrates adequate interview skills with ";
     rate; Text "% completion and "; avg;
     Text "s response times. Shows basic professional communication and role understanding. To excel: add specific quantifiable examples, demonstrate deeper technical expertise, improve response structure, and show greater enthusiasm for the role."]
  else if overall <? 80 then
    [Text "GOOD PERFORMANCE ("; pct;
     Text "%): Strong interview showing with ";
     rate; Text "% completion rate and "; avg;
     Text "s thoughtful responses. Demonstrates professional communication, role competency, and good interview presence. Minor improvements: more specific metrics in examples, stronger technical depth, and enhanced storytelling to differentiate from other candidates."]
  else
    [Text "EXCELLENT PERFORMANCE ("; pct;
     Text "%): Outstanding interview demonstration with ";
     rate; Text "% completion and "; avg;
     Text "s well-structured responses. Shows exceptional professional presence, clear communication, strong role expertise, and interview confidence. Performance indicates strong candidacy for ";
     Text (selectedRole d);
     Text " positions. Continue leveraging these strengths in real interviews."].

Definition analyzeInterviewPerformance (d : InterviewData)
  : outcome InterviewAnalysis :=
  ra <- analyzeResponseContent (responsesOf d) (selectedRole d) ;;
  let '(body, n1) := bodyLanguage d ra noNotes in
  let '(gram, n2) := grammar d ra n1 in
  sk <- skills d ra n2 ;;
  let '(skill, n3) := sk in
  let '(conf, n4) := confidenceOf d ra n3 in
  let overall := overallOf body gram skill conf in
  Returns {| overallScore := overall;
             bodyLanguageScore := body;
             grammarScore := gram;
             skillsScore := skill;
             confidenceScore := conf;
             feedback := interviewFeedback d overall;
             interviewStrengths := notedStrengths n4;
             interviewImprovements := notedImprovements n4 |}.

(** The exactly rounded mean of four doubles: what [Math.round] gives on
    the exact value of their sum divided by four. *)
Definition exactRoundedMean (body gram skill conf : float) : Z :=
  Qfloor ((exactValue body + exactValue gram + exactValue skill
           + exactValue conf) / 4 + 0.5)%Q.

(** Six questions, four answered in 30 seconds each, two response texts. *)
Definition twoThirdsSession : InterviewData :=
  {| questionsAnswered := 4;
     totalQuestions := 6;
     timeSpentPerQuestion := [30; 30; 30; 30];
     cameraUsed := true;
     microphoneUsed := true;
     interviewCompleted := false;
     selectedRole := "Software Engineer";
     interviewDuration := 0;
     responses :=
       Some ["I led the api and database work. It cut costs by 20%. We shipped.";
             "Used python and react. Errors fell 30%. Done."] |}.

End Double.

(* ===================================================================== *)
(** ** Vocabulary of the properties *)
(* ===================================================================== *)

Local Open Scope Q_scope.

(** A score on the 0-100 scale. *)
Definition inRange (q : Q) : Prop := 0 <= q <= 100.

(** A metric on the 0-10 scale of the response-content profile. *)
Definition onScale (x : Q) : Prop := 0 <= x <= 10.

Definition profileOnScale (ra : ResponseAnalysis) : Prop :=
  onScale (qualityScore ra) /\ onScale (communicationScore ra)
  /\ onScale (skillsRelevance ra) /\ onScale (clarity ra)
  /\ onScale (confidence ra).

(** [out] is a score that a penalty step made of [score]: not negative and
    not above it. *)
Definition shrinks (score out : Q) : Prop := 0 <= out <= score.

(** The profile of a session without response texts. *)
Definition emptyProfile : ResponseAnalysis :=
  {| qualityScore := 0; communicationScore := 0; skillsRelevance := 0;
     clarity := 0; confidence := 0 |}.

(** The sessions on which the scorer runs to completion: the role is not a
    property name inherited from [Object.prototype], or there is no
    response text to search for role keywords. *)
Definition runs (d : InterviewData) : Prop :=
  inherited (selectedRole d) = false \/ responsesOf d = [].

(** The read of the file comes to an end. *)
Definition settles (file : option File) : Prop :=
  match file with
  | Some f => readAsText f <> Pending
  | None => True
  end.

(** Every character of a string satisfies [p]. *)
Fixpoint allChars (p : ascii -> bool) (s : string) : bool :=
  match s with
  | EmptyString => true
  | String c t => (p c && allChars p t)%bool
  end.

Definition notTerminator (c : ascii) : bool := negb (isTerminator c).

(** A piece of a response whose trimmed length exceeds 10. *)
Definition longPiece (piece : string) : bool :=
  (10 <? String.length (trim piece))%nat.

(** The four metrics that [contentStep] only raises. *)
Definition raisedFrom (floor : Q) (ra : ResponseAnalysis) : Prop :=
  floor <= communicationScore ra /\ floor <= skillsRelevance ra
  /\ floor <= clarity ra /\ floor <= confidence ra.

(** The three ratings that [skillsStep] only raises. *)
Definition ratedFrom3 (st : SkillsState) : Prop :=
  3 <= st_technicalAccuracy st <= 10 /\ 3 <= st_industryKnowledge st <= 10
  /\ 3 <= st_problemSolving st <= 10.

(** The text the resume scorer works on: the [result] of the read, or the
    empty text when the read gives [null] or is caught failing. *)
Definition textOf (file : File) : string :=
  match readAsText file with
  | Returns (Some text) => text
  | _ => ""
  end.

(** The same file with another outcome of the read. *)
Definition withRead (file : File) (read : outcome (option string)) : File :=
  {| name := name file; size := size file; readAsText := read |}.

(** A role that is neither in the keyword table nor inherited from
    [Object.prototype]. *)
Definition unknownRole (role : string) : Prop :=
  ownEntry roleKeywords role = None /\ inherited role = false.

(** Every improvement noted in [n] is still noted in [n']. *)
Definition keepsImprovements (n n' : Notes) : Prop :=
  forall m, In m (improvements n) -> In m (improvements n').

(** A character that is not one of [A]..[Z]. *)
Definition notUpper (c : ascii) : bool := negb (between 65 90 c).

(* ===================================================================== *)
(** ** Example inputs *)
(* ===================================================================== *)

(** Seven questions, all answered in 35 seconds each, camera and microphone
    on, interview completed, no response texts. *)
Definition fullSession (role : string) (duration : Q) : InterviewData :=
  {| questionsAnswered := 7;
     totalQuestions := 7;
     timeSpentPerQuestion := [35; 35; 35; 35; 35; 35; 35];
     cameraUsed := true;
     microphoneUsed := true;
     interviewCompleted := true;
     selectedRole := role;
     interviewDuration := duration;
     responses := None |}.

(** One question answered out of three, with a three-sentence answer. *)
Definition shortSession : InterviewData :=
  {| questionsAnswered := 1;
     totalQuestions := 3;
     timeSpentPerQuestion := [30];
     cameraUsed := true;
     microphoneUsed := true;
     interviewCompleted := false;
     selectedRole := "Software Engineer";
     interviewDuration := 0;
     responses := Some ["I led. We won. Done."] |}.

(** Nine questions answered out of twenty, two response texts with a
    figure each, the first one in three sentences and naming a role
    keyword. *)
Definition partialSession : InterviewData :=
  {| questionsAnswered := 9;
     totalQuestions := 20;
     timeSpentPerQuestion := [30; 30];
     cameraUsed := true;
     microphoneUsed := true;
     interviewCompleted := false;
     selectedRole := "Software Engineer";
     interviewDuration := 0;
     responses := Some ["api 5%. Yes. No."; "grew 5%"] |}.

(** A session whose question list was empty although one answer was
    recorded. *)
Definition noQuestionSession : InterviewData :=
  {| questionsAnswered := 1;
     totalQuestions := 0;
     timeSpentPerQuestion := [30];
     cameraUsed := true;
     microphoneUsed := true;
     interviewCompleted := true;
     selectedRole := "Software Engineer";
     interviewDuration := 0;
     responses := None |}.

(** Nothing answered, nothing switched on. *)
Definition idleSession : InterviewData :=
  {| questionsAnswered := 0;
     totalQuestions := 7;
     timeSpentPerQuestion := [];
     cameraUsed := false;
     microphoneUsed := false;
     interviewCompleted := false;
     selectedRole := "Product Manager";
     interviewDuration := 0;
     responses := None |}.

(** The same session with another number of answered questions. *)
Definition withAnswered (d : InterviewData) (answered : Z) : InterviewData :=
  {| questionsAnswered := answered;
     totalQuestions := totalQuestions d;
     timeSpentPerQuestion := timeSpentPerQuestion d;
     cameraUsed := cameraUsed d;
     microphoneUsed := microphoneUsed d;
     interviewCompleted := interviewCompleted d;
     selectedRole := selectedRole d;
     interviewDuration := interviewDuration d;
     responses := responses d |}.

(** A resume with the expected name, keywords, sections and contact
    details, saved as plain text. *)
Definition txtResume : File :=
  {| name := "resume.txt";
     size := 200000;
     readAsText :=
       Returns (Some "software development programming code javascript python react node git api database frontend experience education skills contact me@mail.com 555-123-4567") |}.

(** The same resume saved as PDF. *)
Definition pdfResume : File :=
  {| name := "resume.pdf";
     size := size txtResume;
     readAsText := readAsText txtResume |}.

(* ===================================================================== *)
(** * Properties *)
(* ===================================================================== *)

(** ** The string layer *)

Section Strings.

Lemma prefix_iff (p s : string) :
  String.prefix p s = true <-> exists post, s = p ++ post.
Proof.
  revert s. induction p as [| c p IH]; intro s.
  - split; [intros _; exists s; reflexivity | intros _; destruct s; reflexivity].
  - destruct s as [| d s]; simpl.
    + split; [discriminate | intros [post E]; discriminate].
    + destruct (ascii_dec c d) as [-> | Hne].
      * rewrite IH. split; intros [post E]; exists post.
        -- rewrite E. reflexivity.
        -- injection E as E. exact E.
      * split; [discriminate | intros [post E]; congruence].
Qed.

Lemma existsSuffix_iff (p : string -> bool) (s : string) :
  existsSuffix p s = true
  <-> exists pre post, s = pre ++ post /\ p post = true.
Proof.
  induction s as [| c s IH]; simpl.
  - rewrite orb_false_r. split.
    + intro H. exists "", "". auto.
    + intros (pre & post & E & H). destruct pre, post; try discriminate.
      exact H.
  - rewrite orb_true_iff, IH. split.
    + intros [H | (pre & post & E & H)].
      * exists "", (String c s). auto.
      * exists (String c pre), post. rewrite E. auto.
    + intros (pre & post & E & H). destruct pre as [| d pre]; simpl in E.
      * left. rewrite E. exact H.
      * right. injection E as _ E. eauto.
Qed.

(** [includes] is the substring test. *)
Lemma includes_iff (s sub : string) :
  includes s sub = true <-> exists pre post, s = pre ++ sub ++ post.
Proof.
  unfold includes. rewrite existsSuffix_iff. split.
  - intros (pre & rest & E & H). apply prefix_iff in H. destruct H as [post ->].
    eauto.
  - intros (pre & post & E). exists pre, (sub ++ post). split; [exact E |].
    apply prefix_iff. eauto.
Qed.

Lemma toLowerCase_length (s : string) :
  String.length (toLowerCase s) = String.length s.
Proof. induction s as [| c s IH]; simpl; congruence. Qed.

Example lower_case_of_name :
  toLowerCase "Resume_FINAL.PDF" = "resume_final.pdf".
Proof. reflexivity. Qed.

Example split_on_terminators :
  splitSentences "I led. We won!? Done."
  = ["I led"; " We won"; " Done"; ""]
  /\ splitSentences "" = [""]
  /\ splitSentences "..." = [""; ""].
Proof. repeat split. Qed.

Example split_on_spaces :
  splitChar " " " two  words " = [""; "two"; ""; "words"; ""].
Proof. reflexivity. Qed.

Example trim_both_ends : trim "  a b  " = "a b".
Proof. reflexivity. Qed.

Example occurrences_do_not_overlap :
  countOccurrences "um" "um, umum... rum" = 4%nat
  /\ countOccurrences "aa" "aaaaa" = 2%nat.
Proof. split; reflexivity. Qed.

Example phone_pattern :
  test rePhone "call 555-123.4567 now" = true
  /\ test rePhone "5551234567" = true
  /\ test rePhone "555--123-4567" = false
  /\ test rePhone "555-123-456" = false.
Proof. repeat split. Qed.

Example metric_pattern :
  test reMetric "grew 15% in a year" = true
  /\ test reMetric "saved $200" = true
  /\ test reMetric "for 5 years" = true
  /\ test reMetric "for five years, 5 times" = false.
Proof. repeat split. Qed.

Example agreement_pattern :
  reAgreement "so i is here" = true
  /\ reAgreement "this is" = false
  /\ reAgreement "they was." = true
  /\ reAgreement "they wash" = false.
Proof. repeat split. Qed.

Example extension_of_name :
  fileExtension {| name := "My.Resume.PDF"; size := 0; readAsText := Pending |}
  = ".pdf"
  /\ fileExtension {| name := "resume"; size := 0; readAsText := Pending |}
     = "resume".
Proof. split; reflexivity. Qed.

End Strings.

(** ** Arithmetic of scores *)

Section ScoreArithmetic.

Local Open Scope Q_scope.

Lemma Qltb_lt (x y : Q) : Qltb x y = true <-> x < y.
Proof.
  unfold Qltb. rewrite Qlt_alt.
  destruct (x ?= y); split; intro H; congruence.
Qed.

Lemma Qltb_ge (x y : Q) : Qltb x y = false <-> y <= x.
Proof.
  split; intro H.
  - apply Qnot_lt_le. intro L. apply Qltb_lt in L. congruence.
  - destruct (Qltb x y) eqn:E; [| reflexivity].
    apply Qltb_lt in E. exfalso. apply (Qlt_not_le _ _ E H).
Qed.

Lemma Qleb_le (x y : Q) : Qleb x y = true <-> x <= y.
Proof.
  unfold Qleb. rewrite Qle_alt.
  destruct (x ?= y); split; intro H; congruence.
Qed.

Lemma inRange_zero : inRange 0.
Proof. unfold inRange; lra. Qed.

Lemma Math_max_zero_cases (x : Q) :
  (x < 0 /\ Math_max x 0 == 0) \/ (0 <= x /\ Math_max x 0 == x).
Proof. unfold Math_max. apply Q.max_spec. Qed.

Lemma Math_min_cases (x y : Q) :
  (x < y /\ Math_min x y == x) \/ (y <= x /\ Math_min x y == y).
Proof. unfold Math_min. apply Q.min_spec. Qed.

(** [Math.max(score - k, 0)] stays between [0] and [score]. *)
Lemma penalty_bounds (score k : Q) :
  0 <= score -> 0 <= k ->
  0 <= Math_max (score - k) 0 <= score.
Proof.
  intros Hs Hk.
  destruct (Math_max_zero_cases (score - k)) as [[L E] | [L E]];
    rewrite E; lra.
Qed.

(** [Math.max(score * c, 0)] for a factor [c] of at most one. *)
Lemma scaling_bounds (score c : Q) :
  0 <= score -> 0 <= c <= 1 ->
  0 <= Math_max (score * c) 0 <= score.
Proof.
  intros Hs [Hc0 Hc1].
  assert (0 <= score * c) by (apply Qmult_le_0_compat; assumption).
  assert (score * c <= score).
  { setoid_replace score with (score * 1) at 2 by ring.
    rewrite !(Qmult_comm score). apply Qmult_le_compat_r; assumption. }
  destruct (Math_max_zero_cases (score * c)) as [[L E] | [L E]];
    rewrite E; lra.
Qed.

(** [Math.min(score + k, cap)] stays between [0] and the larger of [score]
    and [cap]. *)
Lemma bonus_bounds (score k cap : Q) :
  0 <= score -> 0 <= k -> 0 <= cap ->
  0 <= Math_min (score + k) cap <= cap.
Proof.
  intros Hs Hk Hc.
  destruct (Math_min_cases (score + k) cap) as [[L E] | [L E]];
    rewrite E; lra.
Qed.

Lemma penalty_inRange (score k : Q) :
  inRange score -> 0 <= k -> inRange (Math_max (score - k) 0).
Proof.
  intros [H0 H1] Hk. pose proof (penalty_bounds score k H0 Hk).
  unfold inRange. lra.
Qed.

Lemma scaling_inRange (score c : Q) :
  inRange score -> 0 <= c <= 1 -> inRange (Math_max (score * c) 0).
Proof.
  intros [H0 H1] Hc. pose proof (scaling_bounds score c H0 Hc).
  unfold inRange. lra.
Qed.

Lemma bonus_inRange (score k cap : Q) :
  inRange score -> 0 <= k -> 0 <= cap <= 100 ->
  inRange (Math_min (score + k) cap).
Proof.
  intros [H0 H1] Hk [Hc0 Hc1].
  pose proof (bonus_bounds score k cap H0 Hk Hc0).
  unfold inRange. lra.
Qed.

(** [Math.floor(x * 10)] of a 0-10 metric is a 0-100 score. *)
Lemma floor_scale_inRange (x : Q) :
  0 <= x <= 10 -> inRange (inject_Z (Math_floor (x * 10))).
Proof.
  intros [H0 H1]. unfold inRange, Math_floor. split.
  - change 0 with (inject_Z 0). rewrite <- Zle_Qle.
    change 0%Z with (Qfloor 0). apply Qfloor_resp_le. lra.
  - change 100 with (inject_Z 100). rewrite <- Zle_Qle.
    change 100%Z with (Qfloor 100). apply Qfloor_resp_le. lra.
Qed.

(** [Math.round(x * 10) / 10] keeps a metric on the 0-10 scale. *)
Lemma round1_bounds (x : Q) : 0 <= x <= 10 -> 0 <= round1 x <= 10.
Proof.
  intros [H0 H1]. unfold round1, Math_round.
  assert (L : (0 <= Qfloor (x * 10 + 0.5))%Z).
  { change 0%Z with (Qfloor 0). apply Qfloor_resp_le. lra. }
  assert (U : (Qfloor (x * 10 + 0.5) <= 100)%Z).
  { change 100%Z with (Qfloor (100 + 0.5)). apply Qfloor_resp_le. lra. }
  rewrite Zle_Qle in L, U.
  change (inject_Z 0) with 0 in L. change (inject_Z 100) with 100 in U.
  set (z := inject_Z (Qfloor (x * 10 + 0.5))) in *.
  split.
  - apply Qle_shift_div_l; lra.
  - apply Qle_shift_div_r; lra.
Qed.

(** [Math.round] of an integer and a half-step below the next one. *)
Lemma Qfloor_half (z : Z) : Qfloor (inject_Z z + 0.5) = z.
Proof.
  unfold Qfloor, Qplus, inject_Z. cbn [Qnum Qden].
  change (Z.pos (1 * 10)) with 10%Z. change (Z.pos 1) with 1%Z.
  change (Z.pos 10) with 10%Z.
  symmetry. apply Z.div_unique with (r := 5%Z); lia.
Qed.

Lemma isInteger_inject (z : Z) : isInteger (inject_Z z).
Proof. exists z. reflexivity. Qed.

Lemma isInteger_eq (x y : Q) : x == y -> isInteger x -> isInteger y.
Proof. intros E [z Hz]. exists z. rewrite <- E. exact Hz. Qed.

Lemma isInteger_plus (x y : Q) : isInteger x -> isInteger y -> isInteger (x + y).
Proof.
  intros [a Ha] [b Hb]. exists (a + b)%Z.
  rewrite Ha, Hb, inject_Z_plus. reflexivity.
Qed.

Lemma isInteger_minus (x y : Q) : isInteger x -> isInteger y -> isInteger (x - y).
Proof.
  intros [a Ha] [b Hb]. exists (a - b)%Z.
  rewrite Ha, Hb. unfold Zminus. rewrite inject_Z_plus, inject_Z_opp. reflexivity.
Qed.

Lemma isInteger_max (x y : Q) : isInteger x -> isInteger y -> isInteger (Math_max x y).
Proof.
  intros Hx Hy. unfold Math_max.
  destruct (Q.max_spec x y) as [[_ E] | [_ E]];
    [apply (isInteger_eq y) | apply (isInteger_eq x)];
    try assumption; symmetry; exact E.
Qed.

Lemma isInteger_min (x y : Q) : isInteger x -> isInteger y -> isInteger (Math_min x y).
Proof.
  intros Hx Hy. unfold Math_min.
  destruct (Q.min_spec x y) as [[_ E] | [_ E]];
    [apply (isInteger_eq x) | apply (isInteger_eq y)];
    try assumption; symmetry; exact E.
Qed.

End ScoreArithmetic.

(** ** Exceptions: when a keyword lookup leaves the table *)

Section Lookups.

Lemma forEach_invariant {A S : Type} (P : S -> Prop) (step : A -> S -> outcome S) :
  (forall x st st', P st -> step x st = Returns st' -> P st') ->
  forall xs st st', P st -> forEach step xs st = Returns st' -> P st'.
Proof.
  intros Hstep xs. induction xs as [| x rest IH]; simpl; intros st st' HP E.
  - injection E as <-. exact HP.
  - destruct (step x st) as [st1 | |] eqn:E1; simpl in E; try discriminate.
    eapply IH; [eapply Hstep; eassumption | exact E].
Qed.

Lemma forEach_returns {A S : Type} (step : A -> S -> outcome S) :
  (forall x st, exists st', step x st = Returns st') ->
  forall xs st, exists st', forEach step xs st = Returns st'.
Proof.
  intros Hstep xs. induction xs as [| x rest IH]; simpl; intro st.
  - eauto.
  - destruct (Hstep x st) as [st1 ->]. simpl. apply IH.
Qed.

Lemma forEach_throws {A S : Type} (step : A -> S -> outcome S) :
  (forall x st, step x st = Throws) ->
  forall xs st, xs <> [] -> forEach step xs st = Throws.
Proof.
  intros Hstep [| x rest] st Hne; [congruence |].
  simpl. rewrite Hstep. reflexivity.
Qed.

Lemma inherited_cases (key : string) :
  inherited key = true -> In key objectPrototypeKeys.
Proof.
  unfold inherited. intro H. apply existsb_exists in H.
  destruct H as [k [Hin Heq]]. apply String.eqb_eq in Heq. subst k. exact Hin.
Qed.

Lemma lookupOr_own {V : Type} (table : list (string * V)) (dflt : V) (key : string) :
  inherited key = false -> exists v, lookupOr table dflt key = Some v.
Proof.
  intro H. unfold lookupOr. destruct (ownEntry table key); [eauto |].
  rewrite H. eauto.
Qed.

Lemma getRoleKeywords_inherited (role : string) :
  inherited role = true -> getRoleKeywords role = None.
Proof.
  intro H. apply inherited_cases in H. simpl in H.
  repeat (destruct H as [<- | H]; [reflexivity |]). contradiction.
Qed.

Lemma roleKeywords_inherited (role : string) :
  inherited role = true -> lookupOr roleKeywords noRoleData role = None.
Proof.
  intro H. apply inherited_cases in H. simpl in H.
  repeat (destruct H as [<- | H]; [reflexivity |]). contradiction.
Qed.

Lemma keywordHits_returns (role response : string) :
  inherited role = false -> exists n, keywordHits role response = Returns n.
Proof.
  intro H. unfold keywordHits, getRoleKeywords.
  destruct (lookupOr_own roleKeywordsMap [] role H) as [kws ->]. eauto.
Qed.

Lemma keywordHits_throws (role response : string) :
  inherited role = true -> keywordHits role response = Throws.
Proof.
  intro H. unfold keywordHits. rewrite (getRoleKeywords_inherited role H).
  reflexivity.
Qed.

Lemma contentStep_returns (role : string) :
  inherited role = false ->
  forall response st, exists st', contentStep role response st = Returns st'.
Proof.
  intros H response st. unfold contentStep.
  destruct (keywordHits_returns role response H) as [k ->]. simpl. eauto.
Qed.

Lemma skillsStep_returns (role : string) :
  inherited role = false ->
  forall response st, exists st', skillsStep role response st = Returns st'.
Proof.
  intros H response st. unfold skillsStep.
  destruct (keywordHits_returns role response H) as [k ->]. simpl. eauto.
Qed.

Lemma analyzeResponseContent_returns (rs : list string) (role : string) :
  inherited role = false \/ rs = [] ->
  exists ra, analyzeResponseContent rs role = Returns ra.
Proof.
  intros [H | ->]; [| simpl; eauto].
  unfold analyzeResponseContent. destruct rs as [| r rest]; [eauto |].
  destruct (forEach_returns (contentStep role) (contentStep_returns role H)
              (r :: rest)
              {| qualityScore := 5; communicationScore := 5;
                 skillsRelevance := 5; clarity := 5; confidence := 5 |})
    as [st ->].
  simpl. eauto.
Qed.

Lemma analyzeResponseContent_throws (rs : list string) (role : string) :
  inherited role = true -> rs <> [] ->
  analyzeResponseContent rs role = Throws.
Proof.
  intros H Hne. unfold analyzeResponseContent.
  destruct rs as [| r rest]; [congruence |].
  rewrite forEach_throws; [reflexivity | | discriminate].
  intros x st. unfold contentStep. rewrite (keywordHits_throws role x H).
  reflexivity.
Qed.

Lemma analyzeSkillsDemonstration_returns (rs : list string) (role : string) :
  inherited role = false \/ rs = [] ->
  exists sd, analyzeSkillsDemonstration rs role = Returns sd.
Proof.
  intros [H | ->]; [| unfold analyzeSkillsDemonstration; simpl; eauto].
  unfold analyzeSkillsDemonstration.
  destruct (forEach_returns (skillsStep role) (skillsStep_returns role H) rs
              {| st_technicalAccuracy := 3; st_industryKnowledge := 3;
                 st_problemSolving := 3; st_specificExamples := 0 |})
    as [st ->].
  simpl. eauto.
Qed.

End Lookups.

(** ** The response-content profile stays on the 0-10 scale *)

Section ContentProfile.

Local Open Scope Q_scope.

Lemma ofNat_nonneg (n : nat) : 0 <= ofNat n.
Proof.
  unfold ofNat. change 0 with (inject_Z 0). rewrite <- Zle_Qle. lia.
Qed.

Lemma onScale_raise (x k : Q) :
  onScale x -> 0 <= k -> onScale (Math_min (x + k) 10).
Proof.
  intros [H0 H1] Hk. unfold onScale.
  apply bonus_bounds; lra.
Qed.

Lemma onScale_lower (x k : Q) :
  onScale x -> 0 <= k -> onScale (Math_max (x - k) 0).
Proof.
  intros [H0 H1] Hk. pose proof (penalty_bounds x k H0 Hk).
  unfold onScale. lra.
Qed.

Lemma onScale_hits (n : nat) (c : Q) : 0 <= c -> 0 <= ofNat n * c.
Proof. intro Hc. apply Qmult_le_0_compat; [apply ofNat_nonneg | exact Hc]. Qed.

Lemma contentStep_onScale (role response : string) (st st' : ResponseAnalysis) :
  profileOnScale st -> contentStep role response st = Returns st' ->
  profileOnScale st'.
Proof.
  intros (Hq & Hc & Hs & Hl & Hf) E. unfold contentStep in E.
  destruct (keywordHits role response) as [k | |]; simpl in E; try discriminate.
  injection E as <-. unfold profileOnScale; simpl.
  split; [| split; [| split; [| split]]];
    repeat match goal with
      | |- context [if ?b then _ else _] => destruct b
      end;
    repeat first
      [ assumption
      | apply onScale_raise
      | apply onScale_lower
      | apply onScale_hits
      | lra ].
Qed.

Lemma round1_onScale (x : Q) : onScale x -> onScale (round1 x).
Proof. apply round1_bounds. Qed.

Lemma analyzeResponseContent_onScale (rs : list string) (role : string)
  (ra : ResponseAnalysis) :
  analyzeResponseContent rs role = Returns ra -> profileOnScale ra.
Proof.
  unfold analyzeResponseContent. destruct rs as [| r rest].
  - intro E. injection E as <-. unfold profileOnScale, onScale; simpl.
    repeat split; lra.
  - destruct (forEach (contentStep role) (r :: rest) _) as [st | |] eqn:E;
      simpl; intro E'; try discriminate.
    injection E' as <-.
    assert (H : profileOnScale st).
    { eapply (forEach_invariant profileOnScale); [| | exact E].
      - intros x s s'. apply contentStep_onScale.
      - unfold profileOnScale, onScale; simpl. repeat split; lra. }
    destruct H as (Hq & Hc & Hs & Hl & Hf).
    unfold profileOnScale; simpl.
    split; [| split; [| split; [| split]]]; apply round1_bounds; assumption.
Qed.

(** Without responses every metric of the profile is zero. *)
Lemma analyzeResponseContent_empty (role : string) :
  analyzeResponseContent [] role
  = Returns {| qualityScore := 0; communicationScore := 0;
               skillsRelevance := 0; clarity := 0; confidence := 0 |}.
Proof. reflexivity. Qed.

End ContentProfile.

(** ** The four sub-scores, block by block *)

Local Open Scope Q_scope.

Lemma isInteger_lit (z : Z) : isInteger (z # 1).
Proof. exists z. reflexivity. Qed.

Ltac branches :=
  repeat match goal with
    | |- context [if ?b then _ else _] => destruct b eqn:?
    end;
  simpl.

Ltac integral :=
  repeat first
    [ assumption
    | apply isInteger_lit
    | apply isInteger_max
    | apply isInteger_min
    | apply isInteger_plus
    | apply isInteger_minus ].

(** Name the score and the notes a block returns, keeping the equation
    in the form [score = fst (block ...)]. *)
Ltac block s n E :=
  match goal with
  | |- context [let '(_, _) := ?f in _] =>
      destruct f as [s n] eqn:E;
      apply (f_equal fst) in E; cbn [fst] in E; symmetry in E
  end.

(** *** Body language *)

Lemma bodyLanguageBand_inRange (qa : Z) (rate : number) (n : Notes) :
  inRange (fst (bodyLanguageBand qa rate n)).
Proof. unfold bodyLanguageBand. branches; unfold inRange; lra. Qed.

Lemma bodyLanguageBand_integer (qa : Z) (rate : number) (n : Notes) :
  isInteger (fst (bodyLanguageBand qa rate n)).
Proof. unfold bodyLanguageBand. branches; integral. Qed.

Lemma bodyLanguageTiming_inRange (qa : Z) (times : list Q) (score : Q) (n : Notes) :
  inRange score -> inRange (fst (bodyLanguageTiming qa times score n)).
Proof.
  intro H. unfold bodyLanguageTiming.
  branches; try assumption; apply penalty_inRange; (assumption || lra).
Qed.

Lemma bodyLanguageTiming_integer (qa : Z) (times : list Q) (score : Q) (n : Notes) :
  isInteger score -> isInteger (fst (bodyLanguageTiming qa times score n)).
Proof. intro H. unfold bodyLanguageTiming. branches; integral. Qed.

Lemma bodyLanguageQuality_inRange (ra : ResponseAnalysis) (score : Q) (n : Notes) :
  inRange score -> inRange (fst (bodyLanguageQuality ra score n)).
Proof.
  intro H. unfold bodyLanguageQuality.
  branches; try assumption; apply bonus_inRange; (assumption || lra).
Qed.

Lemma bodyLanguageQuality_integer (ra : ResponseAnalysis) (score : Q) (n : Notes) :
  isInteger score -> isInteger (fst (bodyLanguageQuality ra score n)).
Proof. intro H. unfold bodyLanguageQuality. branches; integral. Qed.

Lemma bodyLanguage_inRange (d : InterviewData) (ra : ResponseAnalysis) (n : Notes) :
  inRange (fst (bodyLanguage d ra n)).
Proof.
  unfold bodyLanguage. destruct (negb (cameraUsed d)); [apply inRange_zero |].
  block s1 n1 E1. block s2 n2 E2.
  apply bodyLanguageQuality_inRange. rewrite E2.
  apply bodyLanguageTiming_inRange. rewrite E1.
  apply bodyLanguageBand_inRange.
Qed.

Lemma bodyLanguage_integer (d : InterviewData) (ra : ResponseAnalysis) (n : Notes) :
  isInteger (fst (bodyLanguage d ra n)).
Proof.
  unfold bodyLanguage. destruct (negb (cameraUsed d)); [simpl; integral |].
  block s1 n1 E1. block s2 n2 E2.
  apply bodyLanguageQuality_integer. rewrite E2.
  apply bodyLanguageTiming_integer. rewrite E1.
  apply bodyLanguageBand_integer.
Qed.

Lemma bodyLanguage_camera_off (d : InterviewData) (ra : ResponseAnalysis) (n : Notes) :
  cameraUsed d = false -> fst (bodyLanguage d ra n) = 0.
Proof. intro H. unfold bodyLanguage. rewrite H. reflexivity. Qed.

(** *** Grammar: every step after the base only lowers the score *)

Lemma shrinks_refl (score : Q) : 0 <= score -> shrinks score score.
Proof. unfold shrinks. lra. Qed.

Lemma shrinks_trans (a b c : Q) : shrinks a b -> shrinks b c -> shrinks a c.
Proof. unfold shrinks. lra. Qed.

Lemma shrinks_penalty (score k : Q) :
  0 <= score -> 0 <= k -> shrinks score (Math_max (score - k) 0).
Proof. intros. apply penalty_bounds; assumption. Qed.

Lemma shrinks_scaling (score c : Q) :
  0 <= score -> 0 <= c <= 1 -> shrinks score (Math_max (score * c) 0).
Proof. intros. apply scaling_bounds; assumption. Qed.

Ltac shrinking :=
  first
    [ apply shrinks_refl; assumption
    | apply shrinks_penalty; (assumption || lra)
    | apply shrinks_scaling; (assumption || lra) ].

Lemma grammarIssuesPenalty_shrinks (rs : list string) (score : Q) (n : Notes) :
  0 <= score -> shrinks score (fst (grammarIssuesPenalty rs score n)).
Proof.
  intro H. unfold grammarIssuesPenalty.
  match goal with
  | |- context [let '(_, _) := ?f in _] =>
      assert (S1 : shrinks score (fst f)) by (branches; shrinking);
      destruct f as [s1 n1]
  end.
  simpl in S1.
  match goal with
  | |- context [let '(_, _) := ?f in _] =>
      assert (S2 : shrinks s1 (fst f))
        by (destruct S1; branches; shrinking);
      destruct f as [s2 n2]
  end.
  simpl in S2.
  apply (shrinks_trans _ s1); [exact S1 |].
  apply (shrinks_trans _ s2); [exact S2 |].
  destruct S2. branches; shrinking.
Qed.

Lemma grammarLength_shrinks (avg score : Q) (n : Notes) :
  0 <= score -> shrinks score (fst (grammarLength avg score n)).
Proof. intro H. unfold grammarLength. branches; shrinking. Qed.

Lemma grammarCompletion_shrinks (rate : number) (score : Q) (n : Notes) :
  0 <= score -> shrinks score (fst (grammarCompletion rate score n)).
Proof. intro H. unfold grammarCompletion. branches; shrinking. Qed.

(** With the microphone on and at least one answer, the grammar score lies
    between zero and its content base. *)
Lemma grammar_shrinks (d : InterviewData) (ra : ResponseAnalysis) (n : Notes) :
  0 <= communicationScore ra ->
  shrinks (inject_Z (Math_floor (communicationScore ra * 10)))
          (fst (grammar d ra n)).
Proof.
  intro H.
  assert (B : 0 <= inject_Z (Math_floor (communicationScore ra * 10))).
  { change 0 with (inject_Z 0). rewrite <- Zle_Qle.
    change 0%Z with (Qfloor 0). apply Qfloor_resp_le. lra. }
  unfold grammar.
  destruct (negb (microphoneUsed d)); [unfold shrinks; cbn [fst]; lra |].
  destruct (questionsAnswered d =? 0)%Z; [unfold shrinks; cbn [fst]; lra |].
  block s1 n1 E1. block s2 n2 E2. block s3 n3 E3. cbn [fst].
  pose proof (grammarIssuesPenalty_shrinks (responsesOf d) _ n B) as S1.
  rewrite <- E1 in S1.
  pose proof (grammarLength_shrinks (avgTimePerQuestion d) s1 n1 (proj1 S1)) as S2.
  rewrite <- E2 in S2.
  pose proof (grammarCompletion_shrinks (completionRate d) s2 n2 (proj1 S2)) as S3.
  rewrite <- E3 in S3.
  eapply shrinks_trans; [exact S1 |]. eapply shrinks_trans; eassumption.
Qed.

Lemma grammar_inRange (d : InterviewData) (ra : ResponseAnalysis) (n : Notes) :
  onScale (communicationScore ra) -> inRange (fst (grammar d ra n)).
Proof.
  intro H. pose proof (floor_scale_inRange _ H) as [_ U].
  destruct (grammar_shrinks d ra n (proj1 H)). unfold inRange. lra.
Qed.

Lemma grammar_microphone_off (d : InterviewData) (ra : ResponseAnalysis) (n : Notes) :
  microphoneUsed d = false -> fst (grammar d ra n) = 0.
Proof. intro H. unfold grammar. rewrite H. reflexivity. Qed.

(** *** Skills: the same shape, base first and penalties after *)

Lemma skillsCompetency_shrinks (sd : SkillsDemonstration) (score : Q) (n : Notes) :
  0 <= score -> shrinks score (fst (skillsCompetency sd score n)).
Proof.
  intro H. unfold skillsCompetency.
  match goal with
  | |- context [let '(_, _) := ?f in _] =>
      assert (S1 : shrinks score (fst f)) by (branches; shrinking);
      destruct f as [s1 n1]
  end.
  cbn [fst] in S1.
  match goal with
  | |- context [let '(_, _) := ?f in _] =>
      assert (S2 : shrinks s1 (fst f))
        by (destruct S1; branches; shrinking);
      destruct f as [s2 n2]
  end.
  cbn [fst] in S2.
  match goal with
  | |- context [let '(_, _) := ?f in _] =>
      assert (S3 : shrinks s2 (fst f))
        by (destruct S2; branches; shrinking);
      destruct f as [s3 n3]
  end.
  cbn [fst] in S3.
  apply (shrinks_trans _ s1); [exact S1 |].
  apply (shrinks_trans _ s2); [exact S2 |].
  apply (shrinks_trans _ s3); [exact S3 |].
  destruct S3. branches; shrinking.
Qed.

Lemma skillsCompletion_shrinks (rate : number) (score : Q) (n : Notes) :
  0 <= score -> shrinks score (fst (skillsCompletion rate score n)).
Proof. intro H. unfold skillsCompletion. branches; shrinking. Qed.

Lemma skillsDepth_shrinks (avg score : Q) (n : Notes) :
  0 <= score -> shrinks score (fst (skillsDepth avg score n)).
Proof. intro H. unfold skillsDepth. branches; shrinking. Qed.

Lemma skills_shrinks (d : InterviewData) (ra : ResponseAnalysis) (n : Notes)
  (s : Q) (n' : Notes) :
  0 <= skillsRelevance ra ->
  skills d ra n = Returns (s, n') ->
  shrinks (inject_Z (Math_floor (skillsRelevance ra * 10))) s.
Proof.
  intros H E.
  assert (B : 0 <= inject_Z (Math_floor (skillsRelevance ra * 10))).
  { change 0 with (inject_Z 0). rewrite <- Zle_Qle.
    change 0%Z with (Qfloor 0). apply Qfloor_resp_le. lra. }
  unfold skills in E.
  destruct (questionsAnswered d =? 0)%Z.
  { injection E as <- _. unfold shrinks. lra. }
  destruct (analyzeSkillsDemonstration (responsesOf d) (selectedRole d))
    as [sd | |]; cbn [bind] in E; try discriminate.
  pose proof (skillsCompetency_shrinks sd _ n B) as S1.
  destruct (skillsCompetency sd _ n) as [s1 n1]. cbn [fst] in S1.
  pose proof (skillsCompletion_shrinks (completionRate d) s1 n1 (proj1 S1)) as S2.
  destruct (skillsCompletion (completionRate d) s1 n1) as [s2 n2]. cbn [fst] in S2.
  pose proof (skillsDepth_shrinks (avgTimePerQuestion d) s2 n2 (proj1 S2)) as S3.
  destruct (skillsDepth (avgTimePerQuestion d) s2 n2) as [s3 n3]. cbn [fst] in S3.
  injection E as <- _.
  eapply shrinks_trans; [exact S1 |]. eapply shrinks_trans; eassumption.
Qed.

Lemma skills_inRange (d : InterviewData) (ra : ResponseAnalysis) (n : Notes)
  (s : Q) (n' : Notes) :
  onScale (skillsRelevance ra) -> skills d ra n = Returns (s, n') -> inRange s.
Proof.
  intros H E. pose proof (floor_scale_inRange _ H) as [_ U].
  destruct (skills_shrinks d ra n s n' (proj1 H) E). unfold inRange. lra.
Qed.

Lemma skills_returns (d : InterviewData) (ra : ResponseAnalysis) (n : Notes) :
  inherited (selectedRole d) = false \/ responsesOf d = [] ->
  exists s n', skills d ra n = Returns (s, n').
Proof.
  intro H. unfold skills.
  destruct (questionsAnswered d =? 0)%Z; [eauto |].
  destruct (analyzeSkillsDemonstration_returns _ _ H) as [sd ->]. cbn [bind].
  destruct (skillsCompetency sd _ n) as [s1 n1].
  destruct (skillsCompletion _ s1 n1) as [s2 n2].
  destruct (skillsDepth _ s2 n2) as [s3 n3]. eauto.
Qed.

(** *** Confidence *)

Lemma confidenceCompletion_shrinks (rate : number) (score : Q) (n : Notes) :
  0 <= score -> shrinks score (fst (confidenceCompletion rate score n)).
Proof. intro H. unfold confidenceCompletion. branches; shrinking. Qed.

Lemma confidenceTiming_inRange (avg : Q) (ra : ResponseAnalysis) (score : Q)
  (n : Notes) :
  inRange score -> inRange (fst (confidenceTiming avg ra score n)).
Proof.
  intro H. unfold confidenceTiming.
  branches; try assumption;
    (apply penalty_inRange || apply bonus_inRange); (assumption || lra).
Qed.

Lemma confidenceConsistency_inRange (completed : bool) (rate : number)
  (score : Q) (n : Notes) :
  inRange score -> inRange (fst (confidenceConsistency completed rate score n)).
Proof.
  intro H. unfold confidenceConsistency.
  branches; try assumption; apply bonus_inRange; (assumption || lra).
Qed.

Lemma confidenceOf_inRange (d : InterviewData) (ra : ResponseAnalysis) (n : Notes) :
  onScale (confidence ra) -> inRange (fst (confidenceOf d ra n)).
Proof.
  intro H. unfold confidenceOf.
  destruct (negb (cameraUsed d) || negb (microphoneUsed d))%bool;
    [apply inRange_zero |].
  destruct (questionsAnswered d =? 0)%Z; [apply inRange_zero |].
  pose proof (floor_scale_inRange _ H) as B.
  pose proof (confidenceCompletion_shrinks (completionRate d) _ n (proj1 B)) as S1.
  destruct (confidenceCompletion (completionRate d) _ n) as [s1 n1].
  cbn [fst] in S1.
  assert (R1 : inRange s1) by (destruct B, S1; unfold inRange; lra).
  pose proof (confidenceTiming_inRange (avgTimePerQuestion d) ra s1 n1 R1) as R2.
  destruct (confidenceTiming (avgTimePerQuestion d) ra s1 n1) as [s2 n2].
  cbn [fst] in R2.
  apply confidenceConsistency_inRange. exact R2.
Qed.

(** The confidence score is an integer: the confidence metric of the
    profile moves in whole steps from 5, so the base is a multiple of ten,
    which each of the factors 0.1, 0.3 and 0.6 takes to an integer. *)

Lemma round1_integer (x : Q) : isInteger x -> round1 x == x.
Proof.
  intros [z Hz]. unfold round1, Math_round.
  assert (E : x * 10 + 0.5 == inject_Z (z * 10) + 0.5)
    by (rewrite Hz, inject_Z_mult; reflexivity).
  rewrite E, Qfloor_half, inject_Z_mult, Hz. field.
Qed.

Lemma contentStep_confidence_integer (role response : string)
  (st st' : ResponseAnalysis) :
  isInteger (confidence st) -> contentStep role response st = Returns st' ->
  isInteger (confidence st').
Proof.
  intros H E. unfold contentStep in E.
  destruct (keywordHits role response) as [k | |]; cbn [bind] in E;
    try discriminate.
  injection E as <-. cbn [confidence]. branches; integral.
Qed.

Lemma analyzeResponseContent_confidence_integer (rs : list string)
  (role : string) (ra : ResponseAnalysis) :
  analyzeResponseContent rs role = Returns ra -> isInteger (confidence ra).
Proof.
  unfold analyzeResponseContent. destruct rs as [| r rest].
  - intro E. injection E as <-. cbn [confidence]. integral.
  - set (start := {| qualityScore := 5; communicationScore := 5;
                     skillsRelevance := 5; clarity := 5; confidence := 5 |}).
    destruct (forEach (contentStep role) (r :: rest) start) as [st | |] eqn:F;
      cbn [bind]; intro E; try discriminate.
    injection E as <-. cbn [confidence].
    assert (I : isInteger (confidence st)).
    { apply (forEach_invariant (fun st => isInteger (confidence st))
               (contentStep role)) with (xs := r :: rest) (st := start);
        [| cbn [confidence start]; integral | exact F].
      intros x s1 s2. apply contentStep_confidence_integer. }
    apply (isInteger_eq (confidence st)); [| exact I].
    symmetry. apply round1_integer. exact I.
Qed.

Lemma confidence_base_tenfold (x : Q) :
  isInteger x -> exists z, inject_Z (Math_floor (x * 10)) == inject_Z (10 * z).
Proof.
  intros [z Hz]. exists z. unfold Math_floor.
  assert (E : x * 10 == inject_Z (10 * z))
    by (rewrite Hz, inject_Z_mult; change (inject_Z 10) with 10; ring).
  rewrite E, Qfloor_Z. reflexivity.
Qed.

Lemma confidenceCompletion_integer (rate : number) (score : Q) (n : Notes) :
  (exists z, score == inject_Z (10 * z)) ->
  isInteger (fst (confidenceCompletion rate score n)).
Proof.
  intros [z Hz]. unfold confidenceCompletion.
  branches; [apply isInteger_max; [exists z | apply isInteger_lit]
            | apply isInteger_max; [exists (3 * z)%Z | apply isInteger_lit]
            | apply isInteger_max; [exists (6 * z)%Z | apply isInteger_lit]
            | exists (10 * z)%Z; exact Hz];
    rewrite Hz, ?inject_Z_mult;
    change (inject_Z 10) with 10; change (inject_Z 3) with 3;
    change (inject_Z 6) with 6; field.
Qed.

Lemma confidenceTiming_integer (avg : Q) (ra : ResponseAnalysis) (score : Q)
  (n : Notes) :
  isInteger score -> isInteger (fst (confidenceTiming avg ra score n)).
Proof. intro H. unfold confidenceTiming. branches; integral. Qed.

Lemma confidenceConsistency_integer (completed : bool) (rate : number)
  (score : Q) (n : Notes) :
  isInteger score ->
  isInteger (fst (confidenceConsistency completed rate score n)).
Proof. intro H. unfold confidenceConsistency. branches; integral. Qed.

Lemma confidenceOf_integer (d : InterviewData) (ra : ResponseAnalysis)
  (n : Notes) :
  isInteger (confidence ra) -> isInteger (fst (confidenceOf d ra n)).
Proof.
  intro H. unfold confidenceOf.
  destruct (negb (cameraUsed d) || negb (microphoneUsed d))%bool;
    [simpl; integral |].
  destruct (questionsAnswered d =? 0)%Z; [simpl; integral |].
  pose proof (confidenceCompletion_integer (completionRate d) _ n
                (confidence_base_tenfold _ H)) as I1.
  destruct (confidenceCompletion (completionRate d) _ n) as [s1 n1].
  cbn [fst] in I1.
  pose proof (confidenceTiming_integer (avgTimePerQuestion d) ra s1 n1 I1) as I2.
  destruct (confidenceTiming (avgTimePerQuestion d) ra s1 n1) as [s2 n2].
  cbn [fst] in I2.
  apply confidenceConsistency_integer. exact I2.
Qed.

(** *** Overall score *)

Lemma overallOf_inRange (body gram skill conf : Q) :
  inRange body -> inRange gram -> inRange skill -> inRange conf ->
  inRange (overallOf body gram skill conf).
Proof.
  unfold inRange, overallOf, Math_round. intros Hb Hg Hs Hc.
  assert (M : 0 <= (body + gram + skill + conf) / 4 <= 100).
  { split; [apply Qle_shift_div_l | apply Qle_shift_div_r]; lra. }
  split.
  - change 0 with (inject_Z 0). rewrite <- Zle_Qle.
    change 0%Z with (Qfloor 0). apply Qfloor_resp_le. lra.
  - change 100 with (inject_Z 100). rewrite <- Zle_Qle.
    change 100%Z with (Qfloor (100 + 0.5)). apply Qfloor_resp_le. lra.
Qed.

Lemma overallOf_integer (body gram skill conf : Q) :
  isInteger (overallOf body gram skill conf).
Proof. apply isInteger_inject. Qed.

(** ** The analysis as a whole *)

Lemma analyze_inversion (d : InterviewData) (r : InterviewAnalysis) :
  analyzeInterviewPerformance d = Returns r ->
  exists ra n2 n3,
    analyzeResponseContent (responsesOf d) (selectedRole d) = Returns ra
    /\ bodyLanguageScore r = fst (bodyLanguage d ra noNotes)
    /\ grammarScore r = fst (grammar d ra (snd (bodyLanguage d ra noNotes)))
    /\ skills d ra n2 = Returns (skillsScore r, n3)
    /\ confidenceScore r = fst (confidenceOf d ra n3)
    /\ overallScore r
       = overallOf (bodyLanguageScore r) (grammarScore r) (skillsScore r)
           (confidenceScore r).
Proof.
  unfold analyzeInterviewPerformance. intro E.
  destruct (analyzeResponseContent (responsesOf d) (selectedRole d))
    as [ra | |]; cbn [bind] in E; try discriminate.
  destruct (bodyLanguage d ra noNotes) as [b n1] eqn:Eb.
  destruct (grammar d ra n1) as [g n2] eqn:Eg.
  destruct (skills d ra n2) as [[s n3] | |] eqn:Es; cbn [bind] in E;
    try discriminate.
  destruct (confidenceOf d ra n3) as [c n4] eqn:Ec.
  injection E as <-. exists ra, n2, n3.
  cbn [bodyLanguageScore grammarScore skillsScore confidenceScore overallScore].
  rewrite Eb. cbn [fst snd]. rewrite Eg, Ec. cbn [fst]. auto 10.
Qed.

Lemma analyze_returns (d : InterviewData) :
  runs d -> exists r, analyzeInterviewPerformance d = Returns r.
Proof.
  intro H. unfold analyzeInterviewPerformance.
  destruct (analyzeResponseContent_returns _ _ H) as [ra ->]. cbn [bind].
  destruct (bodyLanguage d ra noNotes) as [b n1].
  destruct (grammar d ra n1) as [g n2].
  destruct (skills_returns d ra n2 H) as (s & n3 & ->). cbn [bind].
  destruct (confidenceOf d ra n3) as [c n4]. eauto.
Qed.

Lemma analyze_throws (d : InterviewData) :
  inherited (selectedRole d) = true -> responsesOf d <> [] ->
  analyzeInterviewPerformance d = Throws.
Proof.
  intros H Hne. unfold analyzeInterviewPerformance.
  rewrite (analyzeResponseContent_throws _ _ H Hne). reflexivity.
Qed.

Lemma runs_dec (d : InterviewData) :
  runs d \/ (inherited (selectedRole d) = true /\ responsesOf d <> []).
Proof.
  unfold runs. destruct (inherited (selectedRole d)); [| auto].
  destruct (responsesOf d); [auto | right; split; [reflexivity | discriminate]].
Qed.

(** The scores of a returned analysis: ranges and integrality. *)
Lemma analysis_scores (d : InterviewData) (r : InterviewAnalysis) :
  analyzeInterviewPerformance d = Returns r ->
  inRange (overallScore r) /\ inRange (bodyLanguageScore r)
  /\ inRange (grammarScore r) /\ inRange (skillsScore r)
  /\ inRange (confidenceScore r)
  /\ isInteger (overallScore r) /\ isInteger (bodyLanguageScore r).
Proof.
  intro E. destruct (analyze_inversion d r E)
    as (ra & n2 & n3 & Era & Hb & Hg & Hs & Hc & Ho).
  destruct (analyzeResponseContent_onScale _ _ _ Era) as (Sq & Sc & Ss & Sl & Sf).
  assert (Rb : inRange (bodyLanguageScore r))
    by (rewrite Hb; apply bodyLanguage_inRange).
  assert (Rg : inRange (grammarScore r))
    by (rewrite Hg; apply grammar_inRange; exact Sc).
  assert (Rs : inRange (skillsScore r))
    by (eapply skills_inRange; eassumption).
  assert (Rc : inRange (confidenceScore r))
    by (rewrite Hc; apply confidenceOf_inRange; exact Sf).
  repeat split; try apply Rb; try apply Rg; try apply Rs; try apply Rc.
  - rewrite Ho. apply overallOf_inRange; assumption.
  - rewrite Ho. apply overallOf_inRange; assumption.
  - rewrite Ho. apply overallOf_integer.
  - rewrite Hb. apply bodyLanguage_integer.
Qed.

Lemma analysis_confidence_integer (d : InterviewData) (r : InterviewAnalysis) :
  analyzeInterviewPerformance d = Returns r -> isInteger (confidenceScore r).
Proof.
  intro E. destruct (analyze_inversion d r E)
    as (ra & n2 & n3 & Era & _ & _ & _ & Hc & _).
  rewrite Hc. apply confidenceOf_integer.
  apply (analyzeResponseContent_confidence_integer _ _ _ Era).
Qed.

(** ** Interview scoring: the claims *)

(** *** The overall score, in double precision *)

Section DoublePrecision.

Import PrimFloat.
Local Open Scope float_scope.
#[local] Set Warnings "-inexact-float".

Lemma double_contentStep_returns (role : string) :
  inherited role = false ->
  forall response st, exists st', Double.contentStep role response st = Returns st'.
Proof.
  intros H response st. unfold Double.contentStep.
  destruct (keywordHits_returns role response H) as [k ->]. simpl. eauto.
Qed.

Lemma double_skillsStep_returns (role : string) :
  inherited role = false ->
  forall response st, exists st', Double.skillsStep role response st = Returns st'.
Proof.
  intros H response st. unfold Double.skillsStep.
  destruct (keywordHits_returns role response H) as [k ->]. simpl. eauto.
Qed.

Lemma double_analyzeResponseContent_returns (rs : list string) (role : string) :
  inherited role = false \/ rs = [] ->
  exists ra, Double.analyzeResponseContent rs role = Returns ra.
Proof.
  intros [H | ->]; [| simpl; eauto].
  unfold Double.analyzeResponseContent. destruct rs as [| r rest]; [eauto |].
  destruct (forEach_returns (Double.contentStep role)
              (double_contentStep_returns role H) (r :: rest)
              {| Double.qualityScore := 5; Double.communicationScore := 5;
                 Double.skillsRelevance := 5; Double.clarity := 5;
                 Double.confidence := 5 |})
    as [st ->].
  simpl. eauto.
Qed.

Lemma double_analyzeResponseContent_throws (rs : list string) (role : string) :
  inherited role = true -> rs <> [] ->
  Double.analyzeResponseContent rs role = Throws.
Proof.
  intros H Hne. unfold Double.analyzeResponseContent.
  destruct rs as [| r rest]; [congruence |].
  rewrite forEach_throws; [reflexivity | | discriminate].
  intros x st. unfold Double.contentStep. rewrite (keywordHits_throws role x H).
  reflexivity.
Qed.

Lemma double_analyzeSkillsDemonstration_returns (rs : list string)
  (role : string) :
  inherited role = false \/ rs = [] ->
  exists sd, Double.analyzeSkillsDemonstration rs role = Returns sd.
Proof.
  intros [H | ->];
    [| unfold Double.analyzeSkillsDemonstration; simpl; eauto].
  unfold Double.analyzeSkillsDemonstration.
  destruct (forEach_returns (Double.skillsStep role)
              (double_skillsStep_returns role H) rs
              {| Double.st_technicalAccuracy := 3;
                 Double.st_industryKnowledge := 3;
                 Double.st_problemSolving := 3;
                 Double.st_specificExamples := 0 |})
    as [st ->].
  simpl. eauto.
Qed.

Lemma double_skills_returns (d : Double.InterviewData)
  (ra : Double.ResponseAnalysis) (n : Notes) :
  inherited (Double.selectedRole d) = false \/ Double.responsesOf d = [] ->
  exists s n', Double.skills d ra n = Returns (s, n').
Proof.
  intro H. unfold Double.skills.
  destruct (Double.questionsAnswered d =? 0); [eauto |].
  destruct (double_analyzeSkillsDemonstration_returns _ _ H) as [sd ->].
  cbn [bind].
  destruct (Double.skillsCompetency sd _ n) as [s1 n1].
  destruct (Double.skillsCompletion _ s1 n1) as [s2 n2].
  destruct (Double.skillsDepth _ s2 n2) as [s3 n3]. eauto.
Qed.

Lemma double_analyze_returns (d : Double.InterviewData) :
  inherited (Double.selectedRole d) = false \/ Double.responsesOf d = [] ->
  exists r, Double.analyzeInterviewPerformance d = Returns r.
Proof.
  intro H. unfold Double.analyzeInterviewPerformance.
  destruct (double_analyzeResponseContent_returns _ _ H) as [ra ->].
  cbn [bind].
  destruct (Double.bodyLanguage d ra noNotes) as [b n1].
  destruct (Double.grammar d ra n1) as [g n2].
  destruct (double_skills_returns d ra n2 H) as (s & n3 & ->). cbn [bind].
  destruct (Double.confidenceOf d ra n3) as [c n4]. eauto.
Qed.

Lemma double_analyze_throws (d : Double.InterviewData) :
  inherited (Double.selectedRole d) = true -> Double.responsesOf d <> [] ->
  Double.analyzeInterviewPerformance d = Throws.
Proof.
  intros H Hne. unfold Double.analyzeInterviewPerformance.
  rewrite (double_analyzeResponseContent_throws _ _ H Hne). reflexivity.
Qed.

Lemma double_runs_dec (d : Double.InterviewData) :
  (inherited (Double.selectedRole d) = false \/ Double.responsesOf d = [])
  \/ (inherited (Double.selectedRole d) = true /\ Double.responsesOf d <> []).
Proof.
  destruct (inherited (Double.selectedRole d)); [| auto].
  destruct (Double.responsesOf d);
    [auto | right; split; [reflexivity | discriminate]].
Qed.

Lemma double_analyze_overall (d : Double.InterviewData)
  (r : Double.InterviewAnalysis) :
  Double.analyzeInterviewPerformance d = Returns r ->
  Double.overallScore r
  = Double.overallOf (Double.bodyLanguageScore r) (Double.grammarScore r)
      (Double.skillsScore r) (Double.confidenceScore r).
Proof.
  unfold Double.analyzeInterviewPerformance. intro E.
  destruct (Double.analyzeResponseContent (Double.responsesOf d)
              (Double.selectedRole d)) as [ra | |];
    cbn [bind] in E; try discriminate.
  destruct (Double.bodyLanguage d ra noNotes) as [b n1].
  destruct (Double.grammar d ra n1) as [g n2].
  destruct (Double.skills d ra n2) as [[s n3] | |]; cbn [bind] in E;
    try discriminate.
  destruct (Double.confidenceOf d ra n3) as [c n4].
  injection E as <-. reflexivity.
Qed.

(** C1, as stated, fails in the arithmetic of the code.  On
    [Double.twoThirdsSession] the four sub-scores returned are 20, 27,
    [90 * 0.7] (a double just below 63) and 36; their exact mean is just
    below 36.5 and rounds to 36, but the sum the code forms is rounded to
    the double 146 on the way, so the code returns [Math.round(36.5)],
    which is 37. *)
Lemma overallScore_not_exact_rounded_mean :
  match Double.analyzeInterviewPerformance Double.twoThirdsSession with
  | Returns r =>
      Double.bodyLanguageScore r = 20
      /\ Double.grammarScore r = 27
      /\ Double.skillsScore r = 90 * 0.7
      /\ (Double.exactValue (Double.skillsScore r) < 63)%Q
      /\ Double.confidenceScore r = 36
      /\ Double.overallScore r = 37
      /\ Double.exactRoundedMean (Double.bodyLanguageScore r)
           (Double.grammarScore r) (Double.skillsScore r)
           (Double.confidenceScore r) = 36%Z
  | _ => False
  end.
Proof. vm_compute. repeat split. Qed.

(** C1, as the code has it.  For every session, the analysis that
    [analyzeInterviewPerformance] returns has [overallScore] equal to
    [Math.round] of the double-precision value of
    [(bodyLanguageScore + grammarScore + skillsScore + confidenceScore) / 4],
    the three sums taken left to right and each of them, and the quotient,
    rounded to the nearest double; the call fails to return only by
    throwing, when the role is a property name inherited from
    [Object.prototype] and there are response texts. *)
Theorem overallScore_is_rounded_double_mean (d : Double.InterviewData) :
  match Double.analyzeInterviewPerformance d with
  | Returns r =>
      Double.overallScore r
      = Double.Math_round
          ((Double.bodyLanguageScore r + Double.grammarScore r
            + Double.skillsScore r + Double.confidenceScore r) / 4)
  | Throws =>
      inherited (Double.selectedRole d) = true /\ Double.responsesOf d <> []
  | Pending => False
  end.
Proof.
  destruct (Double.analyzeInterviewPerformance d) as [r | |] eqn:E.
  - exact (double_analyze_overall d r E).
  - destruct (double_runs_dec d) as [H | H]; [| exact H].
    destruct (double_analyze_returns d H) as [r E']. congruence.
  - destruct (double_runs_dec d) as [H | [H1 H2]].
    + destruct (double_analyze_returns d H) as [r E']. congruence.
    + rewrite (double_analyze_throws d H1 H2) in E. discriminate.
Qed.

End DoublePrecision.

(** C3. Device gate: a session scored without camera has
    [bodyLanguageScore = 0], a session scored without microphone has
    [grammarScore = 0]. *)
Theorem device_gates (d : InterviewData) :
  runs d ->
  exists r,
    analyzeInterviewPerformance d = Returns r
    /\ (cameraUsed d = false -> bodyLanguageScore r = 0)
    /\ (microphoneUsed d = false -> grammarScore r = 0).
Proof.
  intro H. destruct (analyze_returns d H) as [r E]. exists r.
  destruct (analyze_inversion d r E) as (ra & n2 & n3 & _ & Hb & Hg & _).
  split; [exact E |]. split; intro Off.
  - rewrite Hb. apply bodyLanguage_camera_off. exact Off.
  - rewrite Hg. apply grammar_microphone_off. exact Off.
Qed.

Lemma device_gates_witness :
  exists r,
    analyzeInterviewPerformance idleSession = Returns r
    /\ bodyLanguageScore r = 0 /\ grammarScore r = 0.
Proof.
  destruct (device_gates idleSession (or_intror eq_refl)) as (r & E & Hb & Hg).
  exists r. split; [exact E |]. split; [apply Hb | apply Hg]; reflexivity.
Defined.

(** *** Zero engagement *)

Lemma profile_without_responses (d : InterviewData) (ra : ResponseAnalysis) :
  responsesOf d = [] ->
  analyzeResponseContent (responsesOf d) (selectedRole d) = Returns ra ->
  ra = emptyProfile.
Proof. intros -> E. injection E as <-. reflexivity. Qed.

Lemma bodyLanguage_unanswered (d : InterviewData) (n : Notes) :
  questionsAnswered d = 0%Z -> fst (bodyLanguage d emptyProfile n) = 0.
Proof.
  intro H.
  unfold bodyLanguage, bodyLanguageBand, bodyLanguageTiming, bodyLanguageQuality.
  rewrite H. destruct (negb (cameraUsed d)); [reflexivity |].
  cbn [Z.eqb emptyProfile qualityScore].
  change (Qltb 7 0) with false. change (Qltb 5 0) with false.
  branches; reflexivity.
Qed.

Lemma grammar_unanswered (d : InterviewData) (ra : ResponseAnalysis) (n : Notes) :
  questionsAnswered d = 0%Z -> fst (grammar d ra n) = 0.
Proof.
  intro H. unfold grammar. rewrite H.
  destruct (negb (microphoneUsed d)); reflexivity.
Qed.

Lemma skills_unanswered (d : InterviewData) (ra : ResponseAnalysis) (n : Notes)
  (s : Q) (n' : Notes) :
  questionsAnswered d = 0%Z -> skills d ra n = Returns (s, n') -> s = 0.
Proof.
  intros H E. unfold skills in E. rewrite H in E. cbn [Z.eqb] in E.
  injection E as <- _. reflexivity.
Qed.

Lemma confidenceOf_unanswered (d : InterviewData) (ra : ResponseAnalysis)
  (n : Notes) :
  questionsAnswered d = 0%Z -> fst (confidenceOf d ra n) = 0.
Proof.
  intro H. unfold confidenceOf. rewrite H.
  destruct (negb (cameraUsed d) || negb (microphoneUsed d))%bool; reflexivity.
Qed.

(** C4. Zero engagement: a session with [questionsAnswered = 0] and no
    response texts gets zero for the four sub-scores and for the overall
    score, whatever the devices, [totalQuestions] and the timing entries. *)
Theorem zero_engagement (d : InterviewData) :
  questionsAnswered d = 0%Z -> responsesOf d = [] ->
  exists r,
    analyzeInterviewPerformance d = Returns r
    /\ bodyLanguageScore r = 0 /\ grammarScore r = 0 /\ skillsScore r = 0
    /\ confidenceScore r = 0 /\ overallScore r = 0.
Proof.
  intros Hq Hr. destruct (analyze_returns d (or_intror Hr)) as [r E]. exists r.
  destruct (analyze_inversion d r E)
    as (ra & n2 & n3 & Era & Hb & Hg & Hs & Hc & Ho).
  apply (profile_without_responses d ra Hr) in Era. subst ra.
  rewrite (bodyLanguage_unanswered d _ Hq) in Hb.
  rewrite (grammar_unanswered d _ _ Hq) in Hg.
  apply (skills_unanswered d _ _ _ _ Hq) in Hs.
  rewrite (confidenceOf_unanswered d _ _ Hq) in Hc.
  rewrite Hb, Hg, Hs, Hc in Ho.
  repeat split; assumption.
Qed.

Lemma zero_engagement_witness :
  exists r,
    analyzeInterviewPerformance (withAnswered (fullSession "UX Designer" 0) 0)
    = Returns r
    /\ bodyLanguageScore r = 0 /\ grammarScore r = 0 /\ skillsScore r = 0
    /\ confidenceScore r = 0 /\ overallScore r = 0.
Proof.
  apply (zero_engagement (withAnswered (fullSession "UX Designer" 0) 0));
    reflexivity.
Defined.

(** *** No response texts *)

Lemma shrinks_from_zero (base out : Q) : base == 0 -> shrinks base out -> out == 0.
Proof. unfold shrinks. intros E [L U]. apply Qle_antisym; lra. Qed.

(** C10. Without response texts (absent or empty), with the microphone on
    and at least one question answered, [grammarScore] and [skillsScore] are
    zero: each starts from a metric of the empty content profile and is
    only lowered or clamped afterwards. *)
Theorem no_responses_no_grammar_no_skills (d : InterviewData) :
  responsesOf d = [] -> microphoneUsed d = true ->
  (0 < questionsAnswered d)%Z ->
  exists r,
    analyzeInterviewPerformance d = Returns r
    /\ grammarScore r == 0 /\ skillsScore r == 0.
Proof.
  intros Hr _ _. destruct (analyze_returns d (or_intror Hr)) as [r E]. exists r.
  destruct (analyze_inversion d r E)
    as (ra & n2 & n3 & Era & _ & Hg & Hs & _).
  apply (profile_without_responses d ra Hr) in Era. subst ra.
  split; [exact E |]. split.
  - rewrite Hg. eapply shrinks_from_zero; [| apply grammar_shrinks].
    + reflexivity.
    + cbn. lra.
  - eapply shrinks_from_zero; [| eapply skills_shrinks; [| exact Hs]].
    + reflexivity.
    + cbn. lra.
Qed.

Lemma no_responses_no_grammar_no_skills_witness :
  exists r,
    analyzeInterviewPerformance (fullSession "Data Scientist" 0) = Returns r
    /\ grammarScore r == 0 /\ skillsScore r == 0.
Proof.
  apply (no_responses_no_grammar_no_skills (fullSession "Data Scientist" 0));
    reflexivity.
Defined.

(** *** The fully answered session *)

(** C8, as the code has it.  The session with seven questions out of seven,
    35 seconds each, camera and microphone on, interview completed and no
    response texts scores [bodyLanguageScore = 60], [grammarScore = 0],
    [skillsScore = 0], [confidenceScore = 15] and [overallScore = 19]:
    only the body-language score reaches 60. *)
Theorem full_session_scores (role : string) (duration : Q) :
  exists r,
    analyzeInterviewPerformance (fullSession role duration) = Returns r
    /\ bodyLanguageScore r = 60 /\ grammarScore r == 0 /\ skillsScore r == 0
    /\ confidenceScore r = 15 /\ overallScore r = 19.
Proof.
  eexists. split; [vm_compute; reflexivity |].
  cbn [bodyLanguageScore grammarScore skillsScore confidenceScore overallScore].
  repeat split; reflexivity.
Qed.

(** C8, as stated, fails on that session: the four sub-scores and the
    overall score are not all at least 60. *)
Lemma full_session_not_all_above_60 :
  ~ (exists r,
       analyzeInterviewPerformance (fullSession "Software Engineer" 0) = Returns r
       /\ 60 <= bodyLanguageScore r /\ 60 <= grammarScore r
       /\ 60 <= skillsScore r /\ 60 <= confidenceScore r
       /\ 60 <= overallScore r).
Proof.
  intros (r & E & _ & Hg & _).
  vm_compute in E. injection E as <-. cbn in Hg.
  apply Qle_bool_iff in Hg. discriminate.
Qed.

(** *** Division by the number of questions *)

Lemma avgTimePerQuestion_empty (d : InterviewData) :
  timeSpentPerQuestion d = [] -> avgTimePerQuestion d = 0.
Proof. intro H. unfold avgTimePerQuestion. rewrite H. reflexivity. Qed.

Lemma completionRate_no_questions (d : InterviewData) :
  totalQuestions d = 0%Z ->
  completionRate d = NaN \/ completionRate d = PosInfinity
  \/ completionRate d = NegInfinity.
Proof.
  intro H. unfold completionRate, js_div. rewrite H.
  change (Qeq_bool (inject_Z 0) 0) with true. cbv iota.
  destruct (Qeq_bool _ 0); [auto |]. destruct (Qltb 0 _); auto.
Qed.

(** C6, on the code.  The mean time is guarded ([avgTimePerQuestion] is [0]
    for an empty list), the completion rate is not: with
    [totalQuestions = 0] and one recorded answer the quotient is [Infinity],
    no band test [completionRate < c] holds, and the session is scored in
    the top completion band (body language 60) where a rate of [0] would
    have given the bottom band (body language 2). *)
Theorem completionRate_unguarded :
  avgTimePerQuestion idleSession = 0
  /\ completionRate noQuestionSession = PosInfinity
  /\ (exists r,
        analyzeInterviewPerformance noQuestionSession = Returns r
        /\ bodyLanguageScore r = 60)
  /\ fst (bodyLanguageBand 1 (Finite 0) noNotes) = 2.
Proof.
  split; [reflexivity |]. split; [reflexivity |]. split; [| reflexivity].
  eexists. split; [vm_compute; reflexivity | reflexivity].
Qed.

(** *** Monotonicity of the completion bands *)

Lemma completionRate_withAnswered (d : InterviewData) (answered : Z) :
  (0 < totalQuestions d)%Z ->
  completionRate (withAnswered d answered)
  = Finite (inject_Z answered / inject_Z (totalQuestions d)).
Proof.
  intro H. unfold completionRate, js_div. cbn [withAnswered questionsAnswered totalQuestions].
  destruct (Qeq_bool (inject_Z (totalQuestions d)) 0) eqn:E; [| reflexivity].
  apply Qeq_bool_eq in E. unfold Qeq in E. simpl in E. lia.
Qed.

Lemma rate_monotone (q1 q2 t : Z) :
  (q1 <= q2)%Z -> (0 < t)%Z ->
  inject_Z q1 / inject_Z t <= inject_Z q2 / inject_Z t.
Proof.
  intros Hq Ht. unfold Qdiv. apply Qmult_le_compat_r.
  - rewrite <- Zle_Qle. exact Hq.
  - apply Qinv_le_0_compat. change 0 with (inject_Z 0). rewrite <- Zle_Qle. lia.
Qed.

Ltac to_props :=
  repeat match goal with
    | H : Qltb _ _ = true |- _ => apply Qltb_lt in H
    | H : Qltb _ _ = false |- _ => apply Qltb_ge in H
    | H : (_ =? _)%Z = true |- _ => apply Z.eqb_eq in H
    | H : (_ =? _)%Z = false |- _ => apply Z.eqb_neq in H
    end.

Ltac maxes :=
  repeat match goal with
    | |- context [Math_max ?a 0] =>
        let E := fresh "E" in
        destruct (Math_max_zero_cases a) as [[? E] | [? E]]; rewrite E; clear E
    end.

Lemma bodyLanguageBand_monotone (q1 q2 : Z) (x y : Q) (n : Notes) :
  (0 <= q1 <= q2)%Z -> x <= y ->
  fst (bodyLanguageBand q1 (Finite x) n) <= fst (bodyLanguageBand q2 (Finite y) n).
Proof.
  intros Hq Hxy. unfold bodyLanguageBand, num_ltb.
  branches; to_props; try lra; exfalso; lia.
Qed.

Lemma grammarCompletion_monotone (x y score : Q) (n : Notes) :
  0 <= score -> x <= y ->
  fst (grammarCompletion (Finite x) score n)
  <= fst (grammarCompletion (Finite y) score n).
Proof.
  intros Hs Hxy. unfold grammarCompletion, num_ltb.
  branches; to_props; maxes; lra.
Qed.

Lemma skillsCompletion_monotone (x y score : Q) (n : Notes) :
  0 <= score -> x <= y ->
  fst (skillsCompletion (Finite x) score n)
  <= fst (skillsCompletion (Finite y) score n).
Proof.
  intros Hs Hxy. unfold skillsCompletion, num_ltb.
  branches; to_props; maxes; lra.
Qed.

Lemma confidenceCompletion_monotone (x y score : Q) (n : Notes) :
  0 <= score -> x <= y ->
  fst (confidenceCompletion (Finite x) score n)
  <= fst (confidenceCompletion (Finite y) score n).
Proof.
  intros Hs Hxy. unfold confidenceCompletion, num_ltb.
  branches; to_props; maxes; lra.
Qed.

(** C9. Two sessions that differ only in [questionsAnswered], the second
    having the larger count (so the larger completion rate): the
    completion-banded component of each sub-score is at least as large in
    the second session.  For body language that component is the band value
    behind the engagement gate; for grammar, skills and confidence it is the
    outcome of the completion penalty on the score that reaches it, which
    is the same in both sessions. *)
Theorem completion_bands_monotone (d : InterviewData) (q1 q2 : Z) (n : Notes) :
  (0 < totalQuestions d)%Z -> (0 <= q1 <= q2)%Z ->
  let rate1 := completionRate (withAnswered d q1) in
  let rate2 := completionRate (withAnswered d q2) in
  fst (bodyLanguageBand q1 rate1 n) <= fst (bodyLanguageBand q2 rate2 n)
  /\ forall score, 0 <= score ->
       fst (grammarCompletion rate1 score n)
       <= fst (grammarCompletion rate2 score n)
       /\ fst (skillsCompletion rate1 score n)
          <= fst (skillsCompletion rate2 score n)
       /\ fst (confidenceCompletion rate1 score n)
          <= fst (confidenceCompletion rate2 score n).
Proof.
  intros Ht Hq rate1 rate2. subst rate1 rate2.
  rewrite !completionRate_withAnswered by exact Ht.
  assert (M : inject_Z q1 / inject_Z (totalQuestions d)
              <= inject_Z q2 / inject_Z (totalQuestions d))
    by (apply rate_monotone; lia).
  split.
  - apply bodyLanguageBand_monotone; assumption.
  - intros score Hs. repeat split.
    + apply grammarCompletion_monotone; assumption.
    + apply skillsCompletion_monotone; assumption.
    + apply confidenceCompletion_monotone; assumption.
Qed.

Lemma completion_bands_monotone_witness :
  fst (bodyLanguageBand 3 (completionRate (withAnswered (fullSession "" 0) 3)) noNotes)
  <= fst (bodyLanguageBand 7 (completionRate (withAnswered (fullSession "" 0) 7)) noNotes)
  /\ fst (skillsCompletion (completionRate (withAnswered (fullSession "" 0) 3)) 50 noNotes)
     <= fst (skillsCompletion (completionRate (withAnswered (fullSession "" 0) 7)) 50 noNotes).
Proof.
  assert (Ht : (0 < totalQuestions (fullSession "" 0))%Z) by reflexivity.
  assert (Hq : (0 <= 3 <= 7)%Z) by (split; discriminate).
  destruct (completion_bands_monotone (fullSession "" 0) 3 7 noNotes Ht Hq)
    as [Hb Hrest].
  split; [exact Hb |].
  assert (Hs : 0 <= 50) by (apply Qle_bool_iff; reflexivity).
  destruct (Hrest 50 Hs) as (_ & Hk & _). exact Hk.
Defined.

(** ** Resume scoring *)

Section Resume.

Local Open Scope Z_scope.

Ltac cases :=
  repeat match goal with
    | |- context [if ?b then _ else _] => destruct b
    | |- context [let '(_, _) := ?p in _] => destruct p
    end;
  cbn [fst].

Lemma sizeStep_nonneg (file : File) (score : Z) (n : Notes) :
  0 <= score -> 0 <= fst (sizeStep file score n).
Proof. intro H. unfold sizeStep. cases; lia. Qed.

Lemma nameStep_nonneg (fileName : string) (score : Z) (n : Notes) :
  0 <= score -> 0 <= fst (nameStep fileName score n).
Proof.
  intro H. unfold nameStep.
  destruct (negb (includes fileName "resume") && negb (includes fileName "cv"))%bool;
    cases; lia.
Qed.

Lemma requiredStep_nonneg (role : string) (roleData : RoleData)
  (textContent fileName : string) (score : Z) (n : Notes) :
  0 <= score ->
  0 <= fst (requiredStep role roleData textContent fileName score n).
Proof. intro H. unfold requiredStep. cases; lia. Qed.

Lemma preferredStep_nonneg (roleData : RoleData) (textContent fileName : string)
  (score : Z) (n : Notes) :
  0 <= score -> 0 <= fst (preferredStep roleData textContent fileName score n).
Proof. intro H. unfold preferredStep. cases; lia. Qed.

Lemma exclusionStep_nonneg (roleData : RoleData) (textContent fileName : string)
  (score : Z) (n : Notes) :
  0 <= score -> 0 <= fst (exclusionStep roleData textContent fileName score n).
Proof. intro H. unfold exclusionStep. cases; lia. Qed.

Lemma sectionStep_nonneg (textContent fileName : string) (score : Z) (n : Notes) :
  0 <= score -> 0 <= fst (sectionStep textContent fileName score n).
Proof. intro H. unfold sectionStep. cases; lia. Qed.

Lemma lengthStep_nonneg (file : File) (score : Z) (n : Notes) :
  0 <= score -> 0 <= fst (lengthStep file score n).
Proof. intro H. unfold lengthStep. cases; lia. Qed.

Lemma contactStep_nonneg (textContent fileName : string) (score : Z) (n : Notes) :
  0 <= score -> 0 <= fst (contactStep textContent fileName score n).
Proof. intro H. unfold contactStep. cases; lia. Qed.

Lemma scoreText_bounds (file : File) (role fileName textContent : string)
  (score : Z) (n : Notes) (r : ResumeAnalysis) :
  0 <= score ->
  scoreText file role fileName textContent score n = Returns r ->
  0 <= atsScore r <= 85.
Proof.
  intros H E. unfold scoreText in E.
  destruct (lookupOr roleKeywords noRoleData role) as [roleData |];
    [| discriminate].
  pose proof (requiredStep_nonneg role roleData textContent fileName score n H) as H5.
  destruct (requiredStep role roleData textContent fileName score n) as [s5 n5].
  pose proof (preferredStep_nonneg roleData textContent fileName s5 n5 H5) as H6.
  destruct (preferredStep roleData textContent fileName s5 n5) as [s6 n6].
  pose proof (exclusionStep_nonneg roleData textContent fileName s6 n6 H6) as H7.
  destruct (exclusionStep roleData textContent fileName s6 n6) as [s7 n7].
  pose proof (sectionStep_nonneg textContent fileName s7 n7 H7) as H8.
  destruct (sectionStep textContent fileName s7 n7) as [s8 n8].
  pose proof (lengthStep_nonneg file s8 n8 H8) as H9.
  destruct (lengthStep file s8 n8) as [s9 n9].
  pose proof (contactStep_nonneg textContent fileName s9 n9 H9) as H10.
  destruct (contactStep textContent fileName s9 n9) as [s10 n10].
  cbn [fst] in *. injection E as <-. cbn [atsScore]. lia.
Qed.

Lemma scoreText_returns (file : File) (role fileName textContent : string)
  (score : Z) (n : Notes) :
  inherited role = false ->
  exists r, scoreText file role fileName textContent score n = Returns r.
Proof.
  intro H. unfold scoreText.
  destruct (lookupOr_own roleKeywords noRoleData role H) as [roleData ->].
  cases. eauto.
Qed.

Lemma scoreContent_bounds (file : File) (role : string) (score : Z) (n : Notes)
  (r : ResumeAnalysis) :
  0 <= score ->
  scoreContent file role score n = Returns r -> 0 <= atsScore r <= 85.
Proof.
  intros H E. unfold scoreContent in E.
  pose proof (nameStep_nonneg (toLowerCase (name file)) score n H) as H3.
  destruct (nameStep (toLowerCase (name file)) score n) as [s3 n3].
  cbn [fst] in H3.
  destruct (extractTextFromFile file); try discriminate;
    eapply scoreText_bounds; eassumption.
Qed.

Lemma scoreContent_returns (file : File) (role : string) (score : Z) (n : Notes) :
  inherited role = false -> readAsText file <> Pending ->
  exists r, scoreContent file role score n = Returns r.
Proof.
  intros H Hread. unfold scoreContent, extractTextFromFile.
  destruct (nameStep (toLowerCase (name file)) score n) as [s3 n3].
  destruct (readAsText file) as [text | |]; cbn [bind];
    try apply scoreText_returns; congruence.
Qed.

Lemma analyzeResume_bounds (file : option File) (role : string)
  (r : ResumeAnalysis) :
  analyzeResume file role = Returns r -> 0 <= atsScore r <= 85.
Proof.
  unfold analyzeResume. destruct file as [f |].
  - destruct (negb (accepted f)).
    { intro E. injection E as <-. cbn. lia. }
    destruct (2000000 <? size f).
    { intro E. injection E as <-. cbn. lia. }
    pose proof (sizeStep_nonneg f (0 + 3)
                  (strength "Acceptable file format" noNotes)) as H2.
    destruct (sizeStep f (0 + 3) (strength "Acceptable file format" noNotes))
      as [s2 n2].
    cbn [fst] in H2. apply scoreContent_bounds. lia.
  - intro E. injection E as <-. cbn. lia.
Qed.

Lemma analyzeResume_returns (file : option File) (role : string) :
  inherited role = false -> settles file ->
  exists r, analyzeResume file role = Returns r.
Proof.
  intros H Hs. unfold analyzeResume. destruct file as [f |]; [| eauto].
  destruct (negb (accepted f)); [eauto |].
  destruct (2000000 <? size f); [eauto |].
  destruct (sizeStep f (0 + 3) (strength "Acceptable file format" noNotes))
    as [s2 n2].
  apply scoreContent_returns; assumption.
Qed.

End Resume.

(** ** Resume scoring: the claims *)

Local Open Scope Z_scope.

(** C5. Without a file, whatever the role, [analyzeResume] throws nothing
    and returns the fixed zero result: [atsScore = 0], no strengths, and
    improvements that begin with the prompt to upload a resume in PDF, DOC
    or DOCX format. *)
Theorem no_file_zero_result (role : string) :
  exists r,
    analyzeResume None role = Returns r
    /\ atsScore r = 0
    /\ resumeStrengths r = []
    /\ In "Upload a resume in PDF, DOC, or DOCX format" (resumeImprovements r).
Proof.
  eexists. split; [reflexivity |]. cbn. auto.
Qed.

(** C7, as the code has it.  A file whose extension is not [.pdf], [.doc]
    or [.docx] is rejected on the spot, for every role: [atsScore = 0], the
    format feedback, no strengths and the two format improvements; size,
    name, keywords, sections and contact details are not looked at. *)
Theorem unaccepted_format_is_rejected (file : File) (role : string) :
  accepted file = false ->
  analyzeResume (Some file) role
  = Returns
      {| atsScore := 0;
         resumeFeedback := "Resume format incompatible with ATS systems";
         resumeStrengths := [];
         resumeImprovements :=
           ["CRITICAL: File format rejected by ATS - use PDF, DOC, or DOCX only";
            "ATS systems auto-reject non-standard formats"] |}.
Proof.
  intro H. unfold analyzeResume. rewrite H. reflexivity.
Qed.

Lemma unaccepted_format_is_rejected_witness :
  accepted txtResume = false
  /\ analyzeResume (Some txtResume) "Software Engineer"
     = Returns
         {| atsScore := 0;
            resumeFeedback := "Resume format incompatible with ATS systems";
            resumeStrengths := [];
            resumeImprovements :=
              ["CRITICAL: File format rejected by ATS - use PDF, DOC, or DOCX only";
               "ATS systems auto-reject non-standard formats"] |}.
Proof.
  split; [reflexivity |].
  apply (unaccepted_format_is_rejected txtResume "Software Engineer").
  reflexivity.
Defined.

(** C7, as stated, fails on [txtResume]: the call returns score 0 and no
    strength, whereas zero format points followed by the remaining steps
    (size, name, keywords, sections, length, contact) give 27 and six
    strengths. *)
Lemma unaccepted_format_stops_scoring :
  accepted txtResume = false
  /\ (exists r,
        analyzeResume (Some txtResume) "Software Engineer" = Returns r
        /\ atsScore r = 0 /\ resumeStrengths r = [])
  /\ (exists r,
        (let '(s2, n2) := sizeStep txtResume 0 noNotes in
         scoreContent txtResume "Software Engineer" s2 n2) = Returns r
        /\ atsScore r = 27 /\ List.length (resumeStrengths r) = 6%nat).
Proof.
  split; [reflexivity |].
  split; eexists; (split; [vm_compute; reflexivity | split; reflexivity]).
Qed.

(** ** Score ranges *)

(** C2, as stated, fails on [shortSession]: its grammar score is 16.5, the
    content base 55 multiplied by 0.3 for a completion rate under one
    half. *)
Lemma grammarScore_not_integer :
  exists r,
    analyzeInterviewPerformance shortSession = Returns r
    /\ (grammarScore r == 16.5)%Q
    /\ ~ isInteger (grammarScore r).
Proof.
  eexists. split; [vm_compute; reflexivity |].
  cbn [grammarScore]. split; [reflexivity |].
  intros [z Hz]. unfold Qeq in Hz. cbn in Hz. lia.
Qed.

(** The skills score is not rounded either: on [partialSession] the base 75
    loses 20 and is halved for a completion rate between 0.4 and 0.6. *)
Example skillsScore_can_be_fractional :
  exists r,
    analyzeInterviewPerformance partialSession = Returns r
    /\ (grammarScore r == 16.5)%Q /\ (skillsScore r == 27.5)%Q
    /\ (overallScore r == 16)%Q.
Proof.
  eexists. split; [vm_compute; reflexivity |]. repeat split.
Qed.

(** C2, as the code has it.  On every input with a role of its own (not a
    property name inherited from [Object.prototype]) and a file read that
    comes to an end, [analyzeResume] returns [0 <= atsScore <= 100]; on
    every session that runs, [analyzeInterviewPerformance] returns five
    scores in [0, 100], of which [overallScore], [bodyLanguageScore] and
    [confidenceScore] are integers ([grammarScore] and [skillsScore] need
    not be). *)
Theorem scores_in_range :
  (forall (file : option File) (role : string),
      inherited role = false -> settles file ->
      exists r, analyzeResume file role = Returns r /\ 0 <= atsScore r <= 100)
  /\ (forall d : InterviewData,
        runs d ->
        exists r,
          analyzeInterviewPerformance d = Returns r
          /\ inRange (overallScore r) /\ inRange (bodyLanguageScore r)
          /\ inRange (grammarScore r) /\ inRange (skillsScore r)
          /\ inRange (confidenceScore r)
          /\ isInteger (overallScore r) /\ isInteger (bodyLanguageScore r)
          /\ isInteger (confidenceScore r)).
Proof.
  split.
  - intros file role H Hs.
    destruct (analyzeResume_returns file role H Hs) as [r E]. exists r.
    split; [exact E |]. pose proof (analyzeResume_bounds file role r E). lia.
  - intros d H. destruct (analyze_returns d H) as [r E]. exists r.
    split; [exact E |].
    destruct (analysis_scores d r E) as (Ro & Rb & Rg & Rs & Rc & Io & Ib).
    pose proof (analysis_confidence_integer d r E) as Ic.
    auto 10.
Qed.

Lemma scores_in_range_witness :
  (exists r,
      analyzeResume (Some pdfResume) "Software Engineer" = Returns r
      /\ 0 <= atsScore r <= 100)
  /\ (exists r,
        analyzeInterviewPerformance shortSession = Returns r
        /\ inRange (overallScore r) /\ inRange (bodyLanguageScore r)
        /\ inRange (grammarScore r) /\ inRange (skillsScore r)
        /\ inRange (confidenceScore r)
        /\ isInteger (overallScore r) /\ isInteger (bodyLanguageScore r)
        /\ isInteger (confidenceScore r)).
Proof.
  destruct scores_in_range as [HR HI]. split.
  - apply HR; [reflexivity | discriminate].
  - apply HI. left. reflexivity.
Defined.

(* ===================================================================== *)
(** * Further properties of the interview scorer *)
(* ===================================================================== *)

Local Open Scope Q_scope.

(** ** Ceilings of the sub-scores *)

Lemma bodyLanguageBand_ceiling (qa : Z) (rate : number) (n : Notes) :
  fst (bodyLanguageBand qa rate n) <= 60.
Proof. unfold bodyLanguageBand. branches; lra. Qed.

Lemma bodyLanguageTiming_ceiling (qa : Z) (times : list Q) (score : Q) (n : Notes) :
  0 <= score -> fst (bodyLanguageTiming qa times score n) <= score.
Proof.
  intro H. unfold bodyLanguageTiming. branches; maxes; lra.
Qed.

Lemma bodyLanguageQuality_ceiling (ra : ResponseAnalysis) (score : Q) (n : Notes) :
  fst (bodyLanguageQuality ra score n) <= score + 15
  /\ (qualityScore ra <= 5 -> fst (bodyLanguageQuality ra score n) <= score).
Proof.
  unfold bodyLanguageQuality.
  destruct (Qltb 7 (qualityScore ra)) eqn:E7;
    [| destruct (Qltb 5 (qualityScore ra)) eqn:E5]; cbn [fst]; to_props.
  - destruct (Math_min_cases (score + 15) 100) as [[? E] | [? E]];
      rewrite E; split; intros; lra.
  - destruct (Math_min_cases (score + 8) 85) as [[? E] | [? E]];
      rewrite E; split; intros; lra.
  - split; intros; lra.
Qed.

Lemma bodyLanguage_ceiling (d : InterviewData) (ra : ResponseAnalysis) (n : Notes) :
  fst (bodyLanguage d ra n) <= 75
  /\ (qualityScore ra <= 5 -> fst (bodyLanguage d ra n) <= 60).
Proof.
  unfold bodyLanguage.
  destruct (negb (cameraUsed d)); [cbn [fst]; split; intros; lra |].
  pose proof (bodyLanguageBand_ceiling (questionsAnswered d) (completionRate d) n) as B.
  pose proof (bodyLanguageBand_inRange (questionsAnswered d) (completionRate d) n) as [B0 _].
  destruct (bodyLanguageBand (questionsAnswered d) (completionRate d) n) as [s1 n1].
  cbn [fst] in B, B0.
  pose proof (bodyLanguageTiming_ceiling (questionsAnswered d)
                (timeSpentPerQuestion d) s1 n1 B0) as T.
  destruct (bodyLanguageTiming (questionsAnswered d) (timeSpentPerQuestion d) s1 n1)
    as [s2 n2].
  cbn [fst] in T.
  destruct (bodyLanguageQuality_ceiling ra s2 n2) as [Q1 Q2].
  split; [lra |]. intro H. specialize (Q2 H). lra.
Qed.

(** X: whatever the session, the body-language score never exceeds 75, and
    it never exceeds 60 unless the response texts earn a quality score
    above 5. *)
Theorem bodyLanguageScore_ceiling (d : InterviewData) :
  runs d ->
  exists r,
    analyzeInterviewPerformance d = Returns r
    /\ bodyLanguageScore r <= 75
    /\ (responsesOf d = [] -> bodyLanguageScore r <= 60).
Proof.
  intro H. destruct (analyze_returns d H) as [r E]. exists r.
  destruct (analyze_inversion d r E) as (ra & n2 & n3 & Era & Hb & _).
  destruct (bodyLanguage_ceiling d ra noNotes) as [B1 B2].
  split; [exact E |]. rewrite Hb. split; [exact B1 |].
  intro Hr. apply B2.
  rewrite (profile_without_responses d ra Hr Era). cbn. lra.
Qed.

Lemma bodyLanguageScore_ceiling_witness :
  exists r,
    analyzeInterviewPerformance (fullSession "UX Designer" 0) = Returns r
    /\ bodyLanguageScore r <= 75 /\ bodyLanguageScore r <= 60.
Proof.
  destruct (bodyLanguageScore_ceiling (fullSession "UX Designer" 0)
              (or_intror eq_refl)) as (r & E & H75 & H60).
  exists r. split; [exact E |]. split; [exact H75 | apply H60; reflexivity].
Defined.

(** ** Confidence needs both devices *)

Lemma confidenceOf_device_off (d : InterviewData) (ra : ResponseAnalysis) (n : Notes) :
  cameraUsed d = false \/ microphoneUsed d = false ->
  fst (confidenceOf d ra n) = 0.
Proof.
  intros [H | H]; unfold confidenceOf; rewrite H;
    [| rewrite orb_true_r]; reflexivity.
Qed.

(** A bound on the sum of the four sub-scores bounds the overall score. *)
Lemma overallOf_ceiling (body gram skill conf : Q) (bound : Z) :
  body + gram + skill + conf <= 4 * inject_Z bound ->
  overallOf body gram skill conf <= inject_Z bound.
Proof.
  intro H. unfold overallOf, Math_round. rewrite <- Zle_Qle.
  rewrite <- (Qfloor_half bound). apply Qfloor_resp_le.
  assert (M : (body + gram + skill + conf) / 4 <= inject_Z bound).
  { apply Qle_shift_div_r; lra. }
  lra.
Qed.

(** X: confidence is scored only with camera and microphone both on;
    otherwise it is 0 and the overall score cannot pass 50. *)
Theorem confidence_needs_both_devices (d : InterviewData) :
  runs d ->
  cameraUsed d = false \/ microphoneUsed d = false ->
  exists r,
    analyzeInterviewPerformance d = Returns r
    /\ confidenceScore r = 0 /\ overallScore r <= 50.
Proof.
  intros H Off. destruct (analyze_returns d H) as [r E]. exists r.
  destruct (analysis_scores d r E) as (_ & Rb & Rg & Rs & _).
  destruct (analyze_inversion d r E) as (ra & n2 & n3 & _ & Hb & Hg & _ & Hc & Ho).
  rewrite (confidenceOf_device_off d ra n3 Off) in Hc.
  split; [exact E |]. split; [exact Hc |].
  rewrite Ho. change 50 with (inject_Z 50). apply overallOf_ceiling.
  change (inject_Z 50) with 50. rewrite Hc.
  unfold inRange in *. destruct Off as [Off | Off].
  - rewrite (bodyLanguage_camera_off d ra noNotes Off) in Hb. rewrite Hb. lra.
  - rewrite (grammar_microphone_off d ra _ Off) in Hg. rewrite Hg. lra.
Qed.

Lemma confidence_needs_both_devices_witness :
  exists r,
    analyzeInterviewPerformance
      {| questionsAnswered := 7; totalQuestions := 7;
         timeSpentPerQuestion := [40; 40; 40; 40; 40; 40; 40];
         cameraUsed := true; microphoneUsed := false;
         interviewCompleted := true; selectedRole := "Data Scientist";
         interviewDuration := 0;
         responses := Some ["I led the modeling work. It took 2 years. We shipped."] |}
    = Returns r
    /\ confidenceScore r = 0 /\ overallScore r <= 50.
Proof.
  apply confidence_needs_both_devices; [left | right]; reflexivity.
Defined.

(** ** Sessions scored without response texts *)

Lemma confidenceOf_without_profile (d : InterviewData) (n : Notes) :
  fst (confidenceOf d emptyProfile n) <= 15.
Proof.
  unfold confidenceOf.
  destruct (negb (cameraUsed d) || negb (microphoneUsed d))%bool;
    [cbn [fst]; lra |].
  destruct (questionsAnswered d =? 0)%Z; [cbn [fst]; lra |].
  change (inject_Z (Math_floor (confidence emptyProfile * 10))) with 0.
  assert (Z0 : 0 <= 0) by lra.
  pose proof (confidenceCompletion_shrinks (completionRate d) 0 n Z0) as [L1 U1].
  destruct (confidenceCompletion (completionRate d) 0 n) as [s1 n1].
  cbn [fst] in L1, U1.
  assert (T : 0 <= fst (confidenceTiming (avgTimePerQuestion d) emptyProfile s1 n1)
              <= s1).
  { unfold confidenceTiming. cbn [clarity emptyProfile].
    change (Qltb 6 0) with false. rewrite andb_false_r.
    branches; maxes; lra. }
  destruct (confidenceTiming (avgTimePerQuestion d) emptyProfile s1 n1) as [s2 n2].
  cbn [fst] in T. unfold confidenceConsistency.
  destruct (interviewCompleted d && num_geb (completionRate d) 0.9)%bool;
    cbn [fst]; [| lra].
  destruct (Math_min_cases (s2 + 15) 100) as [[? E] | [? E]]; rewrite E; lra.
Qed.

(** X: a session scored without response texts (the way the interview
    wizard calls the scorer) gets grammar and skills 0, body language at
    most 60, confidence at most 15 and an overall score of at most 19,
    whatever the completion, timing and devices. *)
Theorem scores_without_responses (d : InterviewData) :
  responsesOf d = [] ->
  exists r,
    analyzeInterviewPerformance d = Returns r
    /\ grammarScore r == 0 /\ skillsScore r == 0
    /\ bodyLanguageScore r <= 60 /\ confidenceScore r <= 15
    /\ overallScore r <= 19.
Proof.
  intro Hr. destruct (analyze_returns d (or_intror Hr)) as [r E]. exists r.
  destruct (analyze_inversion d r E)
    as (ra & n2 & n3 & Era & Hb & Hg & Hs & Hc & Ho).
  apply (profile_without_responses d ra Hr) in Era. subst ra.
  assert (G : grammarScore r == 0).
  { rewrite Hg. eapply shrinks_from_zero; [| apply grammar_shrinks];
      [reflexivity | cbn; lra]. }
  assert (S : skillsScore r == 0).
  { eapply shrinks_from_zero; [| eapply skills_shrinks; [| exact Hs]];
      [reflexivity | cbn; lra]. }
  assert (B : bodyLanguageScore r <= 60).
  { rewrite Hb. apply bodyLanguage_ceiling. cbn. lra. }
  assert (C : confidenceScore r <= 15).
  { rewrite Hc. apply confidenceOf_without_profile. }
  repeat split; try assumption.
  rewrite Ho. change 19 with (inject_Z 19). apply overallOf_ceiling.
  change (inject_Z 19) with 19. lra.
Qed.

Lemma scores_without_responses_witness :
  exists r,
    analyzeInterviewPerformance (fullSession "Marketing Manager" 0) = Returns r
    /\ grammarScore r == 0 /\ skillsScore r == 0
    /\ bodyLanguageScore r <= 60 /\ confidenceScore r <= 15
    /\ overallScore r <= 19.
Proof.
  apply (scores_without_responses (fullSession "Marketing Manager" 0)).
  reflexivity.
Defined.

(** ** Ranges of the response analyses *)

Lemma round1_floor (x : Q) (z : Z) : inject_Z z <= x -> inject_Z z <= round1 x.
Proof.
  intro H. unfold round1, Math_round.
  assert (F : (10 * z <= Qfloor (x * 10 + 0.5))%Z).
  { rewrite <- (Qfloor_Z (10 * z)). apply Qfloor_resp_le.
    rewrite inject_Z_mult. change (inject_Z 10) with 10. lra. }
  rewrite Zle_Qle, inject_Z_mult in F. change (inject_Z 10) with 10 in F.
  apply Qle_shift_div_l; lra.
Qed.

Lemma raise_keeps_floor (floor x k : Q) :
  floor <= 10 -> floor <= x -> 0 <= k -> floor <= Math_min (x + k) 10.
Proof.
  intros Hf Hx Hk.
  destruct (Math_min_cases (x + k) 10) as [[? E] | [? E]]; rewrite E; lra.
Qed.

Lemma contentStep_raises (role response : string) (st st' : ResponseAnalysis) :
  raisedFrom 5 st -> contentStep role response st = Returns st' ->
  raisedFrom 5 st'.
Proof.
  intros (Hc & Hs & Hl & Hf) E. unfold contentStep in E.
  destruct (keywordHits role response) as [k | |]; cbn [bind] in E;
    try discriminate.
  injection E as <-. unfold raisedFrom.
  cbn [communicationScore skillsRelevance clarity confidence].
  split; [| split; [| split]];
    repeat match goal with
      | |- context [if ?b then _ else _] => destruct b
      end;
    repeat first
      [ assumption
      | apply raise_keeps_floor
      | apply onScale_hits
      | lra ].
Qed.

(** X: as soon as there is a response text, the content profile has
    communication, skills relevance, clarity and confidence between 5 and
    10 (they start at 5 and are only raised), and quality between 0 and
    10. *)
Theorem content_profile_ranges (rs : list string) (role : string) :
  rs <> [] -> inherited role = false ->
  exists ra,
    analyzeResponseContent rs role = Returns ra
    /\ 0 <= qualityScore ra <= 10
    /\ 5 <= communicationScore ra <= 10
    /\ 5 <= skillsRelevance ra <= 10
    /\ 5 <= clarity ra <= 10
    /\ 5 <= confidence ra <= 10.
Proof.
  intros Hne Hrole.
  destruct (analyzeResponseContent_returns rs role (or_introl Hrole)) as [ra E].
  exists ra. split; [exact E |].
  destruct (analyzeResponseContent_onScale rs role ra E)
    as (Sq & Sc & Ss & Sl & Sf).
  unfold onScale in *.
  unfold analyzeResponseContent in E. destruct rs as [| r0 rest]; [congruence |].
  destruct (forEach (contentStep role) (r0 :: rest) _) as [st | |] eqn:F;
    cbn [bind] in E; try discriminate.
  injection E as <-.
  assert (R : raisedFrom 5 st).
  { eapply (forEach_invariant (raisedFrom 5)); [| | exact F].
    - intros x s s'. apply contentStep_raises.
    - unfold raisedFrom. cbn. repeat split; lra. }
  destruct R as (Rc & Rs & Rl & Rf).
  cbn [qualityScore communicationScore skillsRelevance clarity confidence] in *.
  change 5 with (inject_Z 5) in Rc, Rs, Rl, Rf.
  pose proof (round1_floor _ 5 Rc). pose proof (round1_floor _ 5 Rs).
  pose proof (round1_floor _ 5 Rl). pose proof (round1_floor _ 5 Rf).
  change (inject_Z 5) with 5 in *.
  repeat split; lra.
Qed.

Lemma content_profile_ranges_witness :
  exists ra,
    analyzeResponseContent ["um, no"] "Sales Representative" = Returns ra
    /\ 0 <= qualityScore ra <= 10
    /\ 5 <= communicationScore ra <= 10
    /\ 5 <= skillsRelevance ra <= 10
    /\ 5 <= clarity ra <= 10
    /\ 5 <= confidence ra <= 10.
Proof.
  apply content_profile_ranges; [discriminate | reflexivity].
Defined.

Lemma rating_raise (x k : Q) :
  3 <= x <= 10 -> 0 <= k -> 3 <= Math_min (x + k) 10 <= 10.
Proof.
  intros Hx Hk.
  destruct (Math_min_cases (x + k) 10) as [[? E] | [? E]]; rewrite E; lra.
Qed.

Lemma skillsStep_rated (role response : string) (st st' : SkillsState) :
  ratedFrom3 st -> skillsStep role response st = Returns st' -> ratedFrom3 st'.
Proof.
  intros (Ht & Hi & Hp) E. unfold skillsStep in E.
  destruct (keywordHits role response) as [k | |]; cbn [bind] in E;
    try discriminate.
  injection E as <-. unfold ratedFrom3.
  cbn [st_technicalAccuracy st_industryKnowledge st_problemSolving].
  split; [| split];
    repeat match goal with
      | |- context [if ?b then _ else _] => destruct b
      end;
    try assumption; apply rating_raise;
    first [assumption | apply onScale_hits; lra | lra].
Qed.

Lemma skillsStep_examples (role : string) (rs : list string) :
  forall st st',
    forEach (skillsStep role) rs st = Returns st' ->
    (st_specificExamples st' <= st_specificExamples st + List.length rs)%nat.
Proof.
  induction rs as [| r rest IH]; cbn [forEach]; intros st st' E.
  - injection E as <-. cbn. lia.
  - destruct (skillsStep role r st) as [st1 | |] eqn:E1; cbn [bind] in E;
      try discriminate.
    specialize (IH st1 st' E).
    assert (st_specificExamples st1 <= S (st_specificExamples st))%nat.
    { unfold skillsStep in E1.
      destruct (keywordHits role r); cbn [bind] in E1; try discriminate.
      injection E1 as <-. cbn [st_specificExamples].
      destruct (test reExample r); lia. }
    cbn [List.length]. lia.
Qed.

(** X: the skills demonstration starts every rating at 3 and only raises
    it, so technical accuracy, industry knowledge, problem solving and the
    overall competency always lie between 3 and 10, and the number of
    specific examples is at most the number of responses.  The two penalty
    tests [technicalAccuracy < 3] and [problemSolving < 3] of the skills
    score are therefore never true. *)
Theorem skills_demonstration_ranges (rs : list string) (role : string) :
  inherited role = false \/ rs = [] ->
  exists sd,
    analyzeSkillsDemonstration rs role = Returns sd
    /\ 3 <= technicalAccuracy sd <= 10
    /\ 3 <= industryKnowledge sd <= 10
    /\ 3 <= problemSolving sd <= 10
    /\ 3 <= overallCompetency sd <= 10
    /\ (specificExamples sd <= List.length rs)%nat
    /\ Qltb (technicalAccuracy sd) 3 = false
    /\ Qltb (problemSolving sd) 3 = false.
Proof.
  intro H. destruct (analyzeSkillsDemonstration_returns rs role H) as [sd E].
  exists sd. split; [exact E |].
  unfold analyzeSkillsDemonstration in E.
  destruct (forEach (skillsStep role) rs _) as [st | |] eqn:F;
    cbn [bind] in E; try discriminate.
  injection E as <-.
  assert (R : ratedFrom3 st).
  { eapply (forEach_invariant ratedFrom3); [| | exact F].
    - intros x s s'. apply skillsStep_rated.
    - unfold ratedFrom3. cbn. repeat split; lra. }
  pose proof (skillsStep_examples role rs _ _ F) as X. cbn in X.
  destruct R as ((Ta & Tb) & (Ia & Ib) & (Pa & Pb)).
  cbn [technicalAccuracy industryKnowledge problemSolving specificExamples
       overallCompetency].
  set (ta := st_technicalAccuracy st) in *.
  set (ik := st_industryKnowledge st) in *.
  set (ps := st_problemSolving st) in *.
  assert (Oa : 3 <= (ta + ik + ps) / 3) by (apply Qle_shift_div_l; lra).
  assert (Ob : (ta + ik + ps) / 3 <= 10) by (apply Qle_shift_div_r; lra).
  assert (B : forall x, 3 <= x -> x <= 10 -> 3 <= round1 x <= 10).
  { intros x Hx3 Hx10. split.
    - change 3 with (inject_Z 3). apply round1_floor. exact Hx3.
    - apply round1_bounds. lra. }
  pose proof (B ta Ta Tb). pose proof (B ik Ia Ib). pose proof (B ps Pa Pb).
  pose proof (B _ Oa Ob).
  repeat split; try lra; try exact X; apply Qltb_ge; lra.
Qed.

Lemma skills_demonstration_ranges_witness :
  exists sd,
    analyzeSkillsDemonstration ["we cut the api latency by 40%"] "Software Engineer"
    = Returns sd
    /\ 3 <= technicalAccuracy sd <= 10
    /\ 3 <= industryKnowledge sd <= 10
    /\ 3 <= problemSolving sd <= 10
    /\ 3 <= overallCompetency sd <= 10
    /\ (specificExamples sd <= 1)%nat
    /\ Qltb (technicalAccuracy sd) 3 = false
    /\ Qltb (problemSolving sd) 3 = false.
Proof.
  apply (skills_demonstration_ranges ["we cut the api latency by 40%"]
           "Software Engineer").
  left. reflexivity.
Defined.

(** ** When the scorer throws *)

(** X: [analyzeInterviewPerformance] throws exactly when the role is a
    property name inherited from [Object.prototype] (such as
    ["constructor"]) and at least one response text is supplied; it never
    stays pending. *)
Theorem interview_throws_exactly (d : InterviewData) :
  (analyzeInterviewPerformance d = Throws
   <-> inherited (selectedRole d) = true /\ responsesOf d <> [])
  /\ analyzeInterviewPerformance d <> Pending.
Proof.
  split; [split |].
  - intro E. destruct (runs_dec d) as [H | H]; [| exact H].
    destruct (analyze_returns d H) as [r E']. congruence.
  - intros [H1 H2]. apply analyze_throws; assumption.
  - intro E. destruct (runs_dec d) as [H | [H1 H2]].
    + destruct (analyze_returns d H) as [r E']. congruence.
    + rewrite (analyze_throws d H1 H2) in E. discriminate.
Qed.

Lemma interview_throws_exactly_witness :
  analyzeInterviewPerformance
    {| questionsAnswered := 1; totalQuestions := 7;
       timeSpentPerQuestion := [20];
       cameraUsed := true; microphoneUsed := true;
       interviewCompleted := false; selectedRole := "constructor";
       interviewDuration := 0; responses := Some ["Hello."] |}
  = Throws.
Proof.
  apply interview_throws_exactly. split; [reflexivity | discriminate].
Defined.

(** ** Answering more questions never lowers a score *)

Lemma Qleb_gt (x y : Q) : Qleb x y = false <-> y < x.
Proof.
  split; intro H.
  - apply Qnot_le_lt. intro L. apply Qleb_le in L. congruence.
  - destruct (Qleb x y) eqn:E; [| reflexivity].
    apply Qleb_le in E. exfalso. apply (Qlt_not_le _ _ H E).
Qed.

Ltac mins :=
  repeat match goal with
    | |- context [Math_min ?a ?b] =>
        let E := fresh "E" in
        destruct (Math_min_cases a b) as [[? E] | [? E]]; rewrite E; clear E
    end.

Lemma penalty_monotone (s1 s2 k : Q) :
  s1 <= s2 -> Math_max (s1 - k) 0 <= Math_max (s2 - k) 0.
Proof. intro H. maxes; lra. Qed.

Ltac monotone_steps :=
  branches; repeat apply penalty_monotone; try assumption.

Lemma bodyLanguageTiming_monotone (q1 q2 : Z) (times : list Q) (s1 s2 : Q)
  (n n' : Notes) :
  (q1 <= q2)%Z -> 0 <= s1 -> s1 <= s2 ->
  fst (bodyLanguageTiming q1 times s1 n) <= fst (bodyLanguageTiming q2 times s2 n').
Proof.
  intros Hq H0 Hs. rewrite Zle_Qle in Hq. unfold bodyLanguageTiming.
  branches; to_props; maxes; lra.
Qed.

Lemma bodyLanguageQuality_monotone (ra : ResponseAnalysis) (s1 s2 : Q)
  (n n' : Notes) :
  s1 <= s2 ->
  fst (bodyLanguageQuality ra s1 n) <= fst (bodyLanguageQuality ra s2 n').
Proof. intro Hs. unfold bodyLanguageQuality. branches; mins; lra. Qed.

Lemma grammarIssuesPenalty_monotone (rs : list string) (s1 s2 : Q) (n n' : Notes) :
  s1 <= s2 ->
  fst (grammarIssuesPenalty rs s1 n) <= fst (grammarIssuesPenalty rs s2 n').
Proof. intro Hs. unfold grammarIssuesPenalty. monotone_steps. Qed.

Lemma grammarLength_monotone (avg s1 s2 : Q) (n n' : Notes) :
  s1 <= s2 -> fst (grammarLength avg s1 n) <= fst (grammarLength avg s2 n').
Proof. intro Hs. unfold grammarLength. monotone_steps. Qed.

Lemma grammarCompletion_monotone2 (x y s1 s2 : Q) (n n' : Notes) :
  0 <= s1 -> s1 <= s2 -> x <= y ->
  fst (grammarCompletion (Finite x) s1 n)
  <= fst (grammarCompletion (Finite y) s2 n').
Proof.
  intros H0 Hs Hxy. unfold grammarCompletion, num_ltb.
  branches; to_props; maxes; lra.
Qed.

Lemma skillsCompetency_monotone (sd : SkillsDemonstration) (s1 s2 : Q)
  (n n' : Notes) :
  s1 <= s2 ->
  fst (skillsCompetency sd s1 n) <= fst (skillsCompetency sd s2 n').
Proof. intro Hs. unfold skillsCompetency. monotone_steps. Qed.

Lemma skillsCompletion_monotone2 (x y s1 s2 : Q) (n n' : Notes) :
  0 <= s1 -> s1 <= s2 -> x <= y ->
  fst (skillsCompletion (Finite x) s1 n)
  <= fst (skillsCompletion (Finite y) s2 n').
Proof.
  intros H0 Hs Hxy. unfold skillsCompletion, num_ltb.
  branches; to_props; maxes; lra.
Qed.

Lemma skillsDepth_monotone (avg s1 s2 : Q) (n n' : Notes) :
  s1 <= s2 -> fst (skillsDepth avg s1 n) <= fst (skillsDepth avg s2 n').
Proof. intro Hs. unfold skillsDepth. monotone_steps. Qed.

Lemma confidenceCompletion_monotone2 (x y s1 s2 : Q) (n n' : Notes) :
  0 <= s1 -> s1 <= s2 -> x <= y ->
  fst (confidenceCompletion (Finite x) s1 n)
  <= fst (confidenceCompletion (Finite y) s2 n').
Proof.
  intros H0 Hs Hxy. unfold confidenceCompletion, num_ltb.
  branches; to_props; maxes; lra.
Qed.

Lemma confidenceTiming_monotone (avg : Q) (ra : ResponseAnalysis) (s1 s2 : Q)
  (n n' : Notes) :
  s1 <= s2 ->
  fst (confidenceTiming avg ra s1 n) <= fst (confidenceTiming avg ra s2 n').
Proof.
  intro Hs. unfold confidenceTiming. branches; maxes; mins; lra.
Qed.

Lemma confidenceConsistency_monotone (completed : bool) (x y s1 s2 : Q)
  (n n' : Notes) :
  s1 <= 100 -> s1 <= s2 -> x <= y ->
  fst (confidenceConsistency completed (Finite x) s1 n)
  <= fst (confidenceConsistency completed (Finite y) s2 n').
Proof.
  intros H100 Hs Hxy. unfold confidenceConsistency, num_geb.
  destruct completed; cbn [andb]; [| cbn [fst]; exact Hs].
  destruct (Qleb 0.9 x) eqn:Ex; destruct (Qleb 0.9 y) eqn:Ey; cbn [fst];
    try apply Qleb_le in Ex; try apply Qleb_gt in Ex;
    try apply Qleb_le in Ey; try apply Qleb_gt in Ey;
    mins; lra.
Qed.

Lemma floor_base_nonneg (x : Q) : 0 <= x -> 0 <= inject_Z (Math_floor (x * 10)).
Proof.
  intro H. change 0 with (inject_Z 0). rewrite <- Zle_Qle.
  change 0%Z with (Qfloor 0). apply Qfloor_resp_le. lra.
Qed.

Section MoreAnswers.

Variable d : InterviewData.
Variables q1 q2 : Z.
Variable ra : ResponseAnalysis.
Hypothesis questions : (0 < totalQuestions d)%Z.
Hypothesis answered : (0 <= q1 <= q2)%Z.
Hypothesis profile : profileOnScale ra.

Let x : Q := inject_Z q1 / inject_Z (totalQuestions d).
Let y : Q := inject_Z q2 / inject_Z (totalQuestions d).

Lemma rates_ordered : x <= y.
Proof. apply rate_monotone; lia. Qed.

Lemma bodyLanguage_more_answers :
  fst (bodyLanguage (withAnswered d q1) ra noNotes)
  <= fst (bodyLanguage (withAnswered d q2) ra noNotes).
Proof.
  unfold bodyLanguage. rewrite !completionRate_withAnswered by exact questions.
  cbn [withAnswered cameraUsed questionsAnswered timeSpentPerQuestion].
  destruct (negb (cameraUsed d)); [cbn [fst]; lra |].
  pose proof (bodyLanguageBand_monotone q1 q2 x y noNotes answered rates_ordered) as B.
  pose proof (bodyLanguageBand_inRange q1 (Finite x) noNotes) as [B0 _].
  fold x y.
  destruct (bodyLanguageBand q1 (Finite x) noNotes) as [a1 m1].
  destruct (bodyLanguageBand q2 (Finite y) noNotes) as [a2 m2].
  cbn [fst] in B, B0.
  pose proof (bodyLanguageTiming_monotone q1 q2 (timeSpentPerQuestion d)
                a1 a2 m1 m2 (proj2 answered) B0 B) as T.
  destruct (bodyLanguageTiming q1 (timeSpentPerQuestion d) a1 m1) as [b1 k1].
  destruct (bodyLanguageTiming q2 (timeSpentPerQuestion d) a2 m2) as [b2 k2].
  cbn [fst] in T. apply bodyLanguageQuality_monotone. exact T.
Qed.

Lemma grammar_more_answers (n n' : Notes) :
  fst (grammar (withAnswered d q1) ra n) <= fst (grammar (withAnswered d q2) ra n').
Proof.
  destruct profile as (_ & [C0 _] & _).
  destruct (Z.eq_dec q1 0) as [Z1 | N1].
  { rewrite (grammar_unanswered (withAnswered d q1) ra n) by exact Z1.
    apply (grammar_shrinks (withAnswered d q2) ra n' C0). }
  assert (N2 : q2 <> 0%Z) by lia.
  apply Z.eqb_neq in N1, N2.
  unfold grammar. rewrite !completionRate_withAnswered by exact questions.
  change (avgTimePerQuestion (withAnswered d q1)) with (avgTimePerQuestion d).
  change (avgTimePerQuestion (withAnswered d q2)) with (avgTimePerQuestion d).
  change (responsesOf (withAnswered d q1)) with (responsesOf d).
  change (responsesOf (withAnswered d q2)) with (responsesOf d).
  cbn [withAnswered microphoneUsed questionsAnswered]. rewrite N1, N2.
  destruct (negb (microphoneUsed d)); [cbn [fst]; lra |].
  set (base := inject_Z (Math_floor (communicationScore ra * 10))).
  assert (B0 : 0 <= base) by (apply floor_base_nonneg; exact C0).
  pose proof (grammarIssuesPenalty_monotone (responsesOf d) base base n n'
                (Qle_refl base)) as S1.
  pose proof (grammarIssuesPenalty_shrinks (responsesOf d) base n B0) as [P1 _].
  destruct (grammarIssuesPenalty (responsesOf d) base n) as [a1 m1].
  destruct (grammarIssuesPenalty (responsesOf d) base n') as [a2 m2].
  cbn [fst] in S1, P1.
  pose proof (grammarLength_monotone (avgTimePerQuestion d) a1 a2 m1 m2 S1) as S2.
  pose proof (grammarLength_shrinks (avgTimePerQuestion d) a1 m1 P1) as [P2 _].
  destruct (grammarLength (avgTimePerQuestion d) a1 m1) as [b1 k1].
  destruct (grammarLength (avgTimePerQuestion d) a2 m2) as [b2 k2].
  cbn [fst] in S2, P2.
  pose proof (grammarCompletion_monotone2 x y b1 b2 k1 k2 P2 S2 rates_ordered) as S3.
  fold x y.
  destruct (grammarCompletion (Finite x) b1 k1) as [c1 l1].
  destruct (grammarCompletion (Finite y) b2 k2) as [c2 l2].
  exact S3.
Qed.

Lemma skills_more_answers (n n' : Notes) (s1 s2 : Q) (m1 m2 : Notes) :
  skills (withAnswered d q1) ra n = Returns (s1, m1) ->
  skills (withAnswered d q2) ra n' = Returns (s2, m2) ->
  s1 <= s2.
Proof.
  intros E1 E2. destruct profile as (_ & _ & [R0 _] & _).
  destruct (Z.eq_dec q1 0) as [Z1 | N1].
  { rewrite (skills_unanswered (withAnswered d q1) ra n s1 m1 Z1 E1).
    apply (skills_shrinks (withAnswered d q2) ra n' s2 m2 R0 E2). }
  assert (N2 : q2 <> 0%Z) by lia.
  apply Z.eqb_neq in N1, N2.
  unfold skills in E1, E2.
  rewrite !completionRate_withAnswered in E1, E2 by exact questions.
  change (avgTimePerQuestion (withAnswered d q1)) with (avgTimePerQuestion d) in E1.
  change (avgTimePerQuestion (withAnswered d q2)) with (avgTimePerQuestion d) in E2.
  change (responsesOf (withAnswered d q1)) with (responsesOf d) in E1.
  change (responsesOf (withAnswered d q2)) with (responsesOf d) in E2.
  cbn [withAnswered selectedRole questionsAnswered] in E1, E2.
  rewrite N1 in E1. rewrite N2 in E2.
  destruct (analyzeSkillsDemonstration (responsesOf d) (selectedRole d))
    as [sd | |]; cbn [bind] in E1, E2; try discriminate.
  set (base := inject_Z (Math_floor (skillsRelevance ra * 10))) in *.
  assert (B0 : 0 <= base) by (apply floor_base_nonneg; exact R0).
  pose proof (skillsCompetency_monotone sd base base n n' (Qle_refl base)) as S1.
  pose proof (skillsCompetency_shrinks sd base n B0) as [P1 _].
  destruct (skillsCompetency sd base n) as [a1 k1].
  destruct (skillsCompetency sd base n') as [a2 k2].
  cbn [fst] in S1, P1.
  pose proof (skillsCompletion_monotone2 x y a1 a2 k1 k2 P1 S1 rates_ordered) as S2.
  fold x y in E1, E2.
  destruct (skillsCompletion (Finite x) a1 k1) as [b1 l1].
  destruct (skillsCompletion (Finite y) a2 k2) as [b2 l2].
  cbn [fst] in S2.
  pose proof (skillsDepth_monotone (avgTimePerQuestion d) b1 b2 l1 l2 S2) as S3.
  destruct (skillsDepth (avgTimePerQuestion d) b1 l1) as [c1 j1].
  destruct (skillsDepth (avgTimePerQuestion d) b2 l2) as [c2 j2].
  injection E1 as <- _. injection E2 as <- _. exact S3.
Qed.

Lemma confidence_more_answers (n n' : Notes) :
  fst (confidenceOf (withAnswered d q1) ra n)
  <= fst (confidenceOf (withAnswered d q2) ra n').
Proof.
  destruct profile as (_ & _ & _ & _ & F).
  destruct (Z.eq_dec q1 0) as [Z1 | N1].
  { rewrite (confidenceOf_unanswered (withAnswered d q1) ra n) by exact Z1.
    apply (confidenceOf_inRange (withAnswered d q2) ra n' F). }
  assert (N2 : q2 <> 0%Z) by lia.
  apply Z.eqb_neq in N1, N2.
  unfold confidenceOf. rewrite !completionRate_withAnswered by exact questions.
  change (avgTimePerQuestion (withAnswered d q1)) with (avgTimePerQuestion d).
  change (avgTimePerQuestion (withAnswered d q2)) with (avgTimePerQuestion d).
  cbn [withAnswered cameraUsed microphoneUsed questionsAnswered interviewCompleted].
  rewrite N1, N2.
  destruct (negb (cameraUsed d) || negb (microphoneUsed d))%bool;
    [cbn [fst]; lra |].
  pose proof (floor_scale_inRange _ F) as [B0 B100].
  set (base := inject_Z (Math_floor (confidence ra * 10))) in *.
  pose proof (confidenceCompletion_monotone2 x y base base n n' B0
                (Qle_refl base) rates_ordered) as S1.
  pose proof (confidenceCompletion_shrinks (Finite x) base n B0) as [P1 U1].
  fold x y.
  destruct (confidenceCompletion (Finite x) base n) as [a1 k1].
  destruct (confidenceCompletion (Finite y) base n') as [a2 k2].
  cbn [fst] in S1, P1, U1.
  pose proof (confidenceTiming_monotone (avgTimePerQuestion d) ra a1 a2 k1 k2 S1)
    as S2.
  assert (R1 : inRange a1) by (unfold inRange; lra).
  pose proof (confidenceTiming_inRange (avgTimePerQuestion d) ra a1 k1 R1)
    as [_ U2].
  destruct (confidenceTiming (avgTimePerQuestion d) ra a1 k1) as [b1 l1].
  destruct (confidenceTiming (avgTimePerQuestion d) ra a2 k2) as [b2 l2].
  cbn [fst] in S2, U2.
  apply confidenceConsistency_monotone; [exact U2 | exact S2 | exact rates_ordered].
Qed.

End MoreAnswers.

Lemma overallOf_monotone (b1 g1 s1 c1 b2 g2 s2 c2 : Q) :
  b1 <= b2 -> g1 <= g2 -> s1 <= s2 -> c1 <= c2 ->
  overallOf b1 g1 s1 c1 <= overallOf b2 g2 s2 c2.
Proof.
  intros Hb Hg Hs Hc. unfold overallOf, Math_round. rewrite <- Zle_Qle.
  apply Qfloor_resp_le.
  assert ((b1 + g1 + s1 + c1) / 4 <= (b2 + g2 + s2 + c2) / 4).
  { unfold Qdiv. apply Qmult_le_compat_r; [lra |].
    apply Qinv_le_0_compat. lra. }
  lra.
Qed.

(** X: answering more questions never lowers a score.  Of two sessions
    that differ only in [questionsAnswered] (non-negative counts, a
    positive [totalQuestions]), the one with more answers has body
    language, grammar, skills, confidence and overall score at least as
    high. *)
Theorem more_answers_never_lower_scores (d : InterviewData) (q1 q2 : Z) :
  runs d -> (0 < totalQuestions d)%Z -> (0 <= q1 <= q2)%Z ->
  exists r1 r2,
    analyzeInterviewPerformance (withAnswered d q1) = Returns r1
    /\ analyzeInterviewPerformance (withAnswered d q2) = Returns r2
    /\ bodyLanguageScore r1 <= bodyLanguageScore r2
    /\ grammarScore r1 <= grammarScore r2
    /\ skillsScore r1 <= skillsScore r2
    /\ confidenceScore r1 <= confidenceScore r2
    /\ overallScore r1 <= overallScore r2.
Proof.
  intros H Ht Hq.
  destruct (analyze_returns (withAnswered d q1) H) as [r1 E1].
  destruct (analyze_returns (withAnswered d q2) H) as [r2 E2].
  exists r1, r2. split; [exact E1 |]. split; [exact E2 |].
  destruct (analyze_inversion _ r1 E1)
    as (ra & n2 & n3 & Era & Hb1 & Hg1 & Hs1 & Hc1 & Ho1).
  destruct (analyze_inversion _ r2 E2)
    as (ra' & n2' & n3' & Era' & Hb2 & Hg2 & Hs2 & Hc2 & Ho2).
  change (responsesOf (withAnswered d q2)) with (responsesOf (withAnswered d q1))
    in Era'.
  change (selectedRole (withAnswered d q2)) with (selectedRole (withAnswered d q1))
    in Era'.
  rewrite Era in Era'. injection Era' as <-.
  pose proof (analyzeResponseContent_onScale _ _ _ Era) as P.
  assert (B : bodyLanguageScore r1 <= bodyLanguageScore r2).
  { rewrite Hb1, Hb2. apply bodyLanguage_more_answers; assumption. }
  assert (G : grammarScore r1 <= grammarScore r2).
  { rewrite Hg1, Hg2. apply grammar_more_answers; assumption. }
  assert (S : skillsScore r1 <= skillsScore r2).
  { eapply (skills_more_answers d q1 q2 ra Ht Hq P); eassumption. }
  assert (C : confidenceScore r1 <= confidenceScore r2).
  { rewrite Hc1, Hc2. apply confidence_more_answers; assumption. }
  repeat split; try assumption.
  rewrite Ho1, Ho2. apply overallOf_monotone; assumption.
Qed.

Lemma more_answers_never_lower_scores_witness :
  exists r1 r2,
    analyzeInterviewPerformance (withAnswered partialSession 9) = Returns r1
    /\ analyzeInterviewPerformance (withAnswered partialSession 18) = Returns r2
    /\ bodyLanguageScore r1 <= bodyLanguageScore r2
    /\ grammarScore r1 <= grammarScore r2
    /\ skillsScore r1 <= skillsScore r2
    /\ confidenceScore r1 <= confidenceScore r2
    /\ overallScore r1 <= overallScore r2.
Proof.
  apply (more_answers_never_lower_scores partialSession 9 18).
  - left. reflexivity.
  - reflexivity.
  - split; discriminate.
Defined.

(** ** The grammar detector *)

Local Open Scope nat_scope.

Lemma rev_string_allChars (p : ascii -> bool) (s acc : string) :
  allChars p acc = true -> allChars p s = true ->
  allChars p (rev_string acc s) = true.
Proof.
  revert acc. induction s as [| c s IH]; cbn; intros acc Ha Hs; [exact Ha |].
  apply andb_true_iff in Hs. destruct Hs as [Hc Hs].
  apply IH; [cbn; rewrite Hc, Ha; reflexivity | exact Hs].
Qed.

Lemma trimStart_allChars (p : ascii -> bool) (s : string) :
  allChars p s = true -> allChars p (trimStart s) = true.
Proof.
  induction s as [| c s IH]; cbn; intro H; [reflexivity |].
  destruct (isSpace c); [| exact H].
  apply andb_true_iff in H. apply IH, H.
Qed.

Lemma trim_allChars (p : ascii -> bool) (s : string) :
  allChars p s = true -> allChars p (trim s) = true.
Proof.
  intro H. unfold trim.
  apply rev_string_allChars; [reflexivity |]. apply trimStart_allChars.
  apply rev_string_allChars; [reflexivity |]. apply trimStart_allChars, H.
Qed.

Lemma splitSentencesAux_pieces (s : string) :
  forall inRun cur,
    allChars notTerminator cur = true ->
    Forall (fun piece => allChars notTerminator piece = true)
      (splitSentencesAux inRun cur s).
Proof.
  induction s as [| c s IH]; cbn [splitSentencesAux]; intros inRun cur H.
  - constructor; [| constructor]. apply rev_string_allChars; [reflexivity | exact H].
  - destruct (isTerminator c) eqn:T.
    + destruct inRun; [apply IH, H |].
      constructor; [apply rev_string_allChars; [reflexivity | exact H] |].
      apply IH. reflexivity.
    + apply IH. cbn. unfold notTerminator at 1. rewrite T, H. reflexivity.
Qed.

Lemma endsWithTerminator_never (s : string) :
  allChars notTerminator s = true -> endsWithTerminator s = false.
Proof.
  induction s as [| c s IH]; [reflexivity |].
  cbn [allChars]. intro H. apply andb_true_iff in H. destruct H as [Hc Hs].
  destruct s as [| c' s'].
  - cbn. unfold notTerminator in Hc. apply negb_true_iff in Hc. exact Hc.
  - change (endsWithTerminator (String c (String c' s')))
      with (endsWithTerminator (String c' s')).
    apply IH, Hs.
Qed.

(** No piece of [response.split(/[.!?]+/)] ends with a terminator, trimmed
    or not. *)
Lemma pieces_never_terminated (response piece : string) :
  In piece (splitSentences response) ->
  endsWithTerminator (trim piece) = false.
Proof.
  intro H. apply endsWithTerminator_never, trim_allChars.
  pose proof (splitSentencesAux_pieces response false "" eq_refl) as F.
  rewrite Forall_forall in F. apply F, H.
Qed.

Lemma count_by_fold {A : Type} (c : A -> bool) (l : list A) (n0 : nat) :
  fold_left (fun n a => if c a then S n else n) l n0
  = n0 + List.length (filter c l).
Proof.
  revert n0. induction l as [| a l IH]; cbn; intro n0; [lia |].
  rewrite IH. destruct (c a); cbn; lia.
Qed.

Lemma fold_left_ext_in {A B : Type} (f g : B -> A -> B) (l : list A) :
  (forall b a, In a l -> f b a = g b a) ->
  forall b0, fold_left f l b0 = fold_left g l b0.
Proof.
  induction l as [| a l IH]; cbn; intros H b0; [reflexivity |].
  rewrite (H b0 a) by (left; reflexivity).
  apply IH. intros b a' Hin. apply H. right. exact Hin.
Qed.

Lemma grammarStep_incomplete (response : string) (st : GrammarIssues) :
  incompleteThoughts (grammarStep response st)
  = incompleteThoughts st
    + List.length (filter longPiece (splitSentences response)).
Proof.
  unfold grammarStep. cbn [incompleteThoughts].
  rewrite <- count_by_fold. apply fold_left_ext_in.
  intros n piece Hin. unfold longPiece.
  rewrite (pieces_never_terminated response piece Hin). cbn [negb].
  rewrite andb_true_r. reflexivity.
Qed.

Lemma grammarStep_errors (response : string) (st : GrammarIssues) :
  grammarErrors (grammarStep response st) <= S (grammarErrors st).
Proof.
  unfold grammarStep. cbn [grammarErrors].
  destruct (includes response "was were" || includes response "is are"
            || reAgreement response)%bool; lia.
Qed.

Lemma grammar_fold (rs : list string) :
  forall st,
    let out := fold_left (fun st response => grammarStep response st) rs st in
    incompleteThoughts out
    = incompleteThoughts st
      + List.length (filter longPiece (flat_map splitSentences rs))
    /\ grammarErrors out <= grammarErrors st + List.length rs.
Proof.
  induction rs as [| r rest IH]; cbn [fold_left flat_map List.length]; intro st.
  - cbn. split; lia.
  - destruct (IH (grammarStep r st)) as [I G].
    rewrite filter_app, length_app. rewrite grammarStep_incomplete in I.
    pose proof (grammarStep_errors r st). split; cbn zeta in *; lia.
Qed.

(** X: the detector of incomplete thoughts looks for a final [.], [!] or
    [?] in pieces obtained by splitting at exactly those characters, so
    the test never finds one: every piece whose trimmed length exceeds 10
    counts as an incomplete thought, a properly ended sentence included.
    Grammar errors are counted at most once per response. *)
Theorem grammar_detector_counts (rs : list string) :
  incompleteThoughts (analyzeGrammarAndSpeech rs)
  = List.length (filter longPiece (flat_map splitSentences rs))
  /\ grammarErrors (analyzeGrammarAndSpeech rs) <= List.length rs.
Proof.
  unfold analyzeGrammarAndSpeech.
  destruct (grammar_fold rs {| fillerWords := 0; incompleteThoughts := 0;
                               grammarErrors := 0 |}) as [I G].
  cbn zeta in I, G. cbn [incompleteThoughts grammarErrors] in I, G.
  split; [exact I | exact G].
Qed.

(** One well-punctuated sentence is one incomplete thought, and with it
    the grammar score loses 15 points. *)
Example punctuated_sentence_is_penalised :
  incompleteThoughts (analyzeGrammarAndSpeech ["We migrated the billing service."])
  = 1
  /\ (fst (grammarIssuesPenalty ["We migrated the billing service."] 50 noNotes)
      == 35)%Q.
Proof. split; reflexivity. Qed.

(* ===================================================================== *)
(** * Further properties of the resume scorer *)
(* ===================================================================== *)

Local Open Scope Z_scope.

Ltac steps :=
  repeat match goal with
    | |- context [if ?b then _ else _] => destruct b eqn:?
    | |- context [let '(_, _) := ?p in _] => destruct p
    end;
  cbn [fst snd].

(** ** The most a resume can score *)

Lemma sizeStep_small (file : File) (n : Notes) :
  size file < 30000 -> fst (sizeStep file (0 + 3) n) = 0.
Proof.
  intro H. unfold sizeStep. apply Z.ltb_lt in H. rewrite H. reflexivity.
Qed.

Lemma sizeStep_gain (file : File) (score : Z) (n : Notes) :
  0 <= score -> fst (sizeStep file score n) <= score + 2.
Proof. intro H. unfold sizeStep. steps; lia. Qed.

Lemma nameStep_gain (fileName : string) (score : Z) (n : Notes) :
  0 <= score -> fst (nameStep fileName score n) <= score + 2.
Proof.
  intro H. unfold nameStep.
  destruct (negb (includes fileName "resume") && negb (includes fileName "cv"))%bool;
    steps; lia.
Qed.

Lemma requiredStep_gain (role : string) (roleData : RoleData)
  (textContent fileName : string) (score : Z) (n : Notes) :
  0 <= score ->
  fst (requiredStep role roleData textContent fileName score n) <= score + 10.
Proof. intro H. unfold requiredStep. steps; lia. Qed.

Lemma preferredStep_gain (roleData : RoleData) (textContent fileName : string)
  (score : Z) (n : Notes) :
  0 <= score ->
  fst (preferredStep roleData textContent fileName score n) <= score + 15.
Proof. intro H. unfold preferredStep. steps; lia. Qed.

Lemma exclusionStep_gain (roleData : RoleData) (textContent fileName : string)
  (score : Z) (n : Notes) :
  0 <= score ->
  fst (exclusionStep roleData textContent fileName score n) <= score.
Proof. intro H. unfold exclusionStep. steps; lia. Qed.

Lemma sectionStep_gain (textContent fileName : string) (score : Z) (n : Notes) :
  0 <= score -> fst (sectionStep textContent fileName score n) <= score + 5.
Proof. intro H. unfold sectionStep. steps; lia. Qed.

Lemma lengthStep_gain (file : File) (score : Z) (n : Notes) :
  0 <= score ->
  fst (lengthStep file score n) <= score + 8
  /\ (30000 <= size file -> fst (lengthStep file score n) = Z.max (score - 10) 0).
Proof.
  intro H. unfold lengthStep.
  destruct (size file / 6 <? 200) eqn:E1;
    [| destruct (1200 <? size file / 6) eqn:E2;
       [| destruct ((300 <=? size file / 6) && (size file / 6 <=? 800))%bool]];
    cbn [fst]; (split; [lia |]); intro L;
    assert (W : 5000 <= size file / 6) by (apply Z.div_le_lower_bound; lia).
  - apply Z.ltb_lt in E1. lia.
  - reflexivity.
  - apply Z.ltb_ge in E2. lia.
  - apply Z.ltb_ge in E2. lia.
Qed.

Lemma contactStep_gain (textContent fileName : string) (score : Z) (n : Notes) :
  0 <= score -> fst (contactStep textContent fileName score n) <= score + 3.
Proof. intro H. unfold contactStep. steps; lia. Qed.

Lemma scoreText_ceiling (file : File) (role fileName textContent : string)
  (score : Z) (n : Notes) (r : ResumeAnalysis) :
  0 <= score ->
  scoreText file role fileName textContent score n = Returns r ->
  atsScore r <= score + 41
  /\ (30000 <= size file -> atsScore r <= score + 23).
Proof.
  intros H E. unfold scoreText in E.
  destruct (lookupOr roleKeywords noRoleData role) as [roleData |];
    [| discriminate].
  pose proof (requiredStep_gain role roleData textContent fileName score n H) as G5.
  pose proof (requiredStep_nonneg role roleData textContent fileName score n H) as H5.
  destruct (requiredStep role roleData textContent fileName score n) as [s5 n5].
  cbn [fst] in G5, H5.
  pose proof (preferredStep_gain roleData textContent fileName s5 n5 H5) as G6.
  pose proof (preferredStep_nonneg roleData textContent fileName s5 n5 H5) as H6.
  destruct (preferredStep roleData textContent fileName s5 n5) as [s6 n6].
  cbn [fst] in G6, H6.
  pose proof (exclusionStep_gain roleData textContent fileName s6 n6 H6) as G7.
  pose proof (exclusionStep_nonneg roleData textContent fileName s6 n6 H6) as H7.
  destruct (exclusionStep roleData textContent fileName s6 n6) as [s7 n7].
  cbn [fst] in G7, H7.
  pose proof (sectionStep_gain textContent fileName s7 n7 H7) as G8.
  pose proof (sectionStep_nonneg textContent fileName s7 n7 H7) as H8.
  destruct (sectionStep textContent fileName s7 n7) as [s8 n8].
  cbn [fst] in G8, H8.
  pose proof (lengthStep_gain file s8 n8 H8) as [G9 L9].
  pose proof (lengthStep_nonneg file s8 n8 H8) as H9.
  destruct (lengthStep file s8 n8) as [s9 n9].
  cbn [fst] in G9, L9, H9.
  pose proof (contactStep_gain textContent fileName s9 n9 H9) as G10.
  destruct (contactStep textContent fileName s9 n9) as [s10 n10].
  cbn [fst] in G10. injection E as <-. cbn [atsScore].
  split; [lia |]. intro L. specialize (L9 L). lia.
Qed.

Lemma scoreContent_ceiling (file : File) (role : string) (score : Z) (n : Notes)
  (r : ResumeAnalysis) :
  0 <= score ->
  scoreContent file role score n = Returns r ->
  atsScore r <= score + 43
  /\ (30000 <= size file -> atsScore r <= score + 25).
Proof.
  intros H E. unfold scoreContent in E.
  pose proof (nameStep_gain (toLowerCase (name file)) score n H) as G3.
  pose proof (nameStep_nonneg (toLowerCase (name file)) score n H) as H3.
  destruct (nameStep (toLowerCase (name file)) score n) as [s3 n3].
  cbn [fst] in G3, H3.
  destruct (extractTextFromFile file); try discriminate;
    destruct (scoreText_ceiling _ _ _ _ _ _ _ H3 E) as [A B];
    (split; [lia |]); intro L; specialize (B L); lia.
Qed.

(** X: no resume scores above 43, and a resume of 30000 bytes or more (one
    that is not flagged as too small) scores at most 30: the size that
    earns the size bonus is always counted as too lengthy.  The cap of 85
    is never reached and the AVERAGE and GOOD feedback bands (60 and
    above) cannot occur. *)
Theorem resume_score_ceiling (file : option File) (role : string) :
  inherited role = false -> settles file ->
  exists r,
    analyzeResume file role = Returns r
    /\ atsScore r <= 43
    /\ (forall f, file = Some f -> 30000 <= size f -> atsScore r <= 30).
Proof.
  intros H Hs. destruct (analyzeResume_returns file role H Hs) as [r E].
  exists r. split; [exact E |].
  unfold analyzeResume in E. destruct file as [f |].
  - destruct (negb (accepted f)).
    { injection E as <-. cbn. split; intros; lia. }
    destruct (2000000 <? size f).
    { injection E as <-. cbn. split; intros; lia. }
    set (n1 := strength "Acceptable file format" noNotes) in *.
    assert (P : 0 <= 0 + 3) by lia.
    pose proof (sizeStep_gain f (0 + 3) n1 P) as G2.
    pose proof (sizeStep_nonneg f (0 + 3) n1 P) as H2.
    pose proof (sizeStep_small f n1) as Z2.
    destruct (sizeStep f (0 + 3) n1) as [s2 n2]. cbn [fst] in G2, H2, Z2.
    destruct (scoreContent_ceiling f role s2 n2 r H2 E) as [A B].
    split.
    + destruct (Z_lt_le_dec (size f) 30000) as [S | L].
      * rewrite (Z2 S) in A. lia.
      * specialize (B L). lia.
    + intros f' F L. injection F as <-. specialize (B L). lia.
  - injection E as <-. cbn. split; [lia |]. intros f F. discriminate.
Qed.

Lemma resume_score_ceiling_witness :
  exists r,
    analyzeResume (Some pdfResume) "Software Engineer" = Returns r
    /\ atsScore r <= 43 /\ atsScore r <= 30.
Proof.
  destruct (resume_score_ceiling (Some pdfResume) "Software Engineer")
    as (r & E & A & B); [reflexivity | discriminate |].
  exists r. split; [exact E |]. split; [exact A |].
  apply (B pdfResume); [reflexivity | discriminate].
Defined.

(** Both ceilings are reached. *)
Example resume_score_ceilings_reached :
  (exists r,
      analyzeResume
        (Some {| name := "resume.pdf"; size := 3000;
                 readAsText := readAsText txtResume |})
        "Software Engineer" = Returns r
      /\ atsScore r = 43)
  /\ (exists r,
        analyzeResume (Some pdfResume) "Software Engineer" = Returns r
        /\ atsScore r = 30).
Proof.
  split; eexists; (split; [vm_compute; reflexivity | reflexivity]).
Qed.

(** ** Notes only grow *)

Lemma keeps_refl (n : Notes) : keepsImprovements n n.
Proof. intros m H. exact H. Qed.

Lemma keeps_trans (a b c : Notes) :
  keepsImprovements a b -> keepsImprovements b c -> keepsImprovements a c.
Proof. intros H1 H2 m H. apply H2, H1, H. Qed.

Lemma keeps_improve (msg : string) (n : Notes) : keepsImprovements n (improve msg n).
Proof. intros m H. cbn. apply in_or_app. left. exact H. Qed.

Lemma keeps_strength (msg : string) (n : Notes) : keepsImprovements n (strength msg n).
Proof. intros m H. exact H. Qed.

Lemma improve_noted (msg : string) (n : Notes) : In msg (improvements (improve msg n)).
Proof. cbn. apply in_or_app. right. left. reflexivity. Qed.

Ltac keeping :=
  repeat match goal with
    | |- context [if ?b then _ else _] => destruct b
    end;
  cbn [snd];
  repeat first
    [ apply keeps_refl
    | apply keeps_improve
    | apply keeps_strength
    | eapply keeps_trans; [| apply keeps_improve]
    | eapply keeps_trans; [| apply keeps_strength] ].

Lemma preferredStep_keeps (roleData : RoleData) (textContent fileName : string)
  (score : Z) (n : Notes) :
  keepsImprovements n (snd (preferredStep roleData textContent fileName score n)).
Proof. unfold preferredStep. keeping. Qed.

Lemma exclusionStep_keeps (roleData : RoleData) (textContent fileName : string)
  (score : Z) (n : Notes) :
  keepsImprovements n (snd (exclusionStep roleData textContent fileName score n)).
Proof. unfold exclusionStep. keeping. Qed.

Lemma sectionStep_keeps (textContent fileName : string) (score : Z) (n : Notes) :
  keepsImprovements n (snd (sectionStep textContent fileName score n)).
Proof. unfold sectionStep. keeping. Qed.

Lemma lengthStep_keeps (file : File) (score : Z) (n : Notes) :
  keepsImprovements n (snd (lengthStep file score n)).
Proof. unfold lengthStep. keeping. Qed.

Lemma contactStep_keeps (textContent fileName : string) (score : Z) (n : Notes) :
  keepsImprovements n (snd (contactStep textContent fileName score n)).
Proof. unfold contactStep. keeping. Qed.

Lemma requiredStep_keeps (role : string) (roleData : RoleData)
  (textContent fileName : string) (score : Z) (n : Notes) :
  keepsImprovements n
    (snd (requiredStep role roleData textContent fileName score n)).
Proof. unfold requiredStep. keeping. Qed.

(** What the steps after the required keywords can still add. *)
Lemma after_required (file : File) (roleData : RoleData)
  (textContent fileName : string) (s5 : Z) (n5 : Notes) :
  0 <= s5 ->
  let '(s6, n6) := preferredStep roleData textContent fileName s5 n5 in
  let '(s7, n7) := exclusionStep roleData textContent fileName s6 n6 in
  let '(s8, n8) := sectionStep textContent fileName s7 n7 in
  let '(s9, n9) := lengthStep file s8 n8 in
  let '(s10, n10) := contactStep textContent fileName s9 n9 in
  s10 <= s6 + 16 /\ s6 <= s5 + 15 /\ keepsImprovements n5 n10
  /\ keepsImprovements n6 n10.
Proof.
  intro H5.
  pose proof (preferredStep_gain roleData textContent fileName s5 n5 H5) as G6.
  pose proof (preferredStep_nonneg roleData textContent fileName s5 n5 H5) as H6.
  pose proof (preferredStep_keeps roleData textContent fileName s5 n5) as K6.
  destruct (preferredStep roleData textContent fileName s5 n5) as [s6 n6].
  cbn [fst snd] in G6, H6, K6.
  pose proof (exclusionStep_gain roleData textContent fileName s6 n6 H6) as G7.
  pose proof (exclusionStep_nonneg roleData textContent fileName s6 n6 H6) as H7.
  pose proof (exclusionStep_keeps roleData textContent fileName s6 n6) as K7.
  destruct (exclusionStep roleData textContent fileName s6 n6) as [s7 n7].
  cbn [fst snd] in G7, H7, K7.
  pose proof (sectionStep_gain textContent fileName s7 n7 H7) as G8.
  pose proof (sectionStep_nonneg textContent fileName s7 n7 H7) as H8.
  pose proof (sectionStep_keeps textContent fileName s7 n7) as K8.
  destruct (sectionStep textContent fileName s7 n7) as [s8 n8].
  cbn [fst snd] in G8, H8, K8.
  pose proof (lengthStep_gain file s8 n8 H8) as [G9 _].
  pose proof (lengthStep_nonneg file s8 n8 H8) as H9.
  pose proof (lengthStep_keeps file s8 n8) as K9.
  destruct (lengthStep file s8 n8) as [s9 n9].
  cbn [fst snd] in G9, H9, K9.
  pose proof (contactStep_gain textContent fileName s9 n9 H9) as G10.
  pose proof (contactStep_keeps textContent fileName s9 n9) as K10.
  destruct (contactStep textContent fileName s9 n9) as [s10 n10].
  cbn [fst snd] in G10, K10.
  assert (K : keepsImprovements n6 n10).
  { eapply keeps_trans; [exact K7 |]. eapply keeps_trans; [exact K8 |].
    eapply keeps_trans; [exact K9 | exact K10]. }
  repeat split; try lia; [eapply keeps_trans; eassumption | exact K].
Qed.

(** ** Missing keywords and unknown roles *)

(** An accepted file of at most 2MB whose read comes to an end is scored on
    its text by [scoreText]. *)
Lemma analyzeResume_reaches_text (f : File) (role : string) :
  accepted f = true -> size f <= 2000000 -> readAsText f <> Pending ->
  exists score n,
    0 <= score
    /\ analyzeResume (Some f) role
       = scoreText f role (toLowerCase (name f)) (textOf f) score n.
Proof.
  intros Ha Hs Hr. unfold analyzeResume. rewrite Ha. cbn [negb].
  apply Z.ltb_ge in Hs. rewrite Hs.
  set (n1 := strength "Acceptable file format" noNotes).
  assert (P : 0 <= 0 + 3) by lia.
  pose proof (sizeStep_nonneg f (0 + 3) n1 P) as H2.
  destruct (sizeStep f (0 + 3) n1) as [s2 n2]. cbn [fst] in H2.
  unfold scoreContent.
  pose proof (nameStep_nonneg (toLowerCase (name f)) s2 n2 H2) as H3.
  destruct (nameStep (toLowerCase (name f)) s2 n2) as [s3 n3]. cbn [fst] in H3.
  unfold extractTextFromFile, textOf.
  destruct (readAsText f) as [[text |] | |]; cbn [bind]; eauto; congruence.
Qed.

Lemma scoreText_without_required (file : File) (role fileName textContent : string)
  (score : Z) (n : Notes) (roleData : RoleData) :
  lookupOr roleKeywords noRoleData role = Some roleData ->
  countFound textContent fileName (required roleData) = 0%nat ->
  exists r,
    scoreText file role fileName textContent score n = Returns r
    /\ atsScore r <= 31
    /\ In ("CRITICAL: Missing ALL required keywords for " ++ role)
         (resumeImprovements r).
Proof.
  intros L C. unfold scoreText. rewrite L. unfold requiredStep. rewrite C.
  cbn [Nat.eqb].
  set (n5 := improve ("CRITICAL: Missing ALL required keywords for " ++ role) n).
  pose proof (after_required file roleData textContent fileName 0 n5 (Z.le_refl 0))
    as A.
  destruct (preferredStep roleData textContent fileName 0 n5) as [s6 n6].
  destruct (exclusionStep roleData textContent fileName s6 n6) as [s7 n7].
  destruct (sectionStep textContent fileName s7 n7) as [s8 n8].
  destruct (lengthStep file s8 n8) as [s9 n9].
  destruct (contactStep textContent fileName s9 n9) as [s10 n10].
  destruct A as (A1 & A2 & K & _).
  eexists. split; [reflexivity |]. cbn [atsScore resumeImprovements].
  split; [lia |]. apply K. apply improve_noted.
Qed.

(** X: when none of the role's required keywords is found in the text or
    the file name, the points earned so far are discarded: the resume
    scores at most 31 and the improvements name the missing keywords. *)
Theorem no_required_keyword_resets_score (f : File) (role : string)
  (roleData : RoleData) :
  accepted f = true -> size f <= 2000000 -> readAsText f <> Pending ->
  lookupOr roleKeywords noRoleData role = Some roleData ->
  countFound (textOf f) (toLowerCase (name f)) (required roleData) = 0%nat ->
  exists r,
    analyzeResume (Some f) role = Returns r
    /\ atsScore r <= 31
    /\ In ("CRITICAL: Missing ALL required keywords for " ++ role)
         (resumeImprovements r).
Proof.
  intros Ha Hs Hr L C.
  destruct (analyzeResume_reaches_text f role Ha Hs Hr) as (score & n & _ & ->).
  apply scoreText_without_required with (roleData := roleData); assumption.
Qed.

Lemma no_required_keyword_resets_score_witness :
  exists r,
    analyzeResume
      (Some {| name := "resume.pdf"; size := 3000;
               readAsText := Returns (Some "roadmap stakeholder agile") |})
      "Product Manager" = Returns r
    /\ atsScore r <= 31
    /\ In "CRITICAL: Missing ALL required keywords for Product Manager"
         (resumeImprovements r).
Proof.
  eapply (no_required_keyword_resets_score _ "Product Manager");
    try reflexivity; discriminate.
Defined.

(** X: a role that is not in the keyword table (and not a property name
    inherited from [Object.prototype]) has no keywords: the score is reset
    to 0 at the keyword step, the preferred-keyword ratio is [0 / 0], and
    the resume ends with at most 16 points and both keyword
    improvements. *)
Theorem unknown_role_scores_at_most_16 (f : File) (role : string) :
  accepted f = true -> size f <= 2000000 -> readAsText f <> Pending ->
  unknownRole role ->
  exists r,
    analyzeResume (Some f) role = Returns r
    /\ atsScore r <= 16
    /\ In ("CRITICAL: Missing ALL required keywords for " ++ role)
         (resumeImprovements r)
    /\ In "MAJOR: Severely lacking role-specific keywords"
         (resumeImprovements r).
Proof.
  intros Ha Hs Hr [Hown Hinh].
  destruct (analyzeResume_reaches_text f role Ha Hs Hr) as (score & n & _ & ->).
  unfold scoreText, lookupOr. rewrite Hown, Hinh.
  change (requiredStep role noRoleData (textOf f) (toLowerCase (name f)) score n)
    with (0, improve ("CRITICAL: Missing ALL required keywords for " ++ role) n).
  cbv beta iota.
  set (n5 := improve ("CRITICAL: Missing ALL required keywords for " ++ role) n).
  change (preferredStep noRoleData (textOf f) (toLowerCase (name f)) 0 n5)
    with (0, improve "MAJOR: Severely lacking role-specific keywords" n5).
  cbv beta iota.
  set (n6 := improve "MAJOR: Severely lacking role-specific keywords" n5).
  change (exclusionStep noRoleData (textOf f) (toLowerCase (name f)) 0 n6)
    with (0, n6).
  cbv beta iota.
  pose proof (sectionStep_gain (textOf f) (toLowerCase (name f)) 0 n6 (Z.le_refl 0))
    as G8.
  pose proof (sectionStep_nonneg (textOf f) (toLowerCase (name f)) 0 n6 (Z.le_refl 0))
    as H8.
  pose proof (sectionStep_keeps (textOf f) (toLowerCase (name f)) 0 n6) as K8.
  destruct (sectionStep (textOf f) (toLowerCase (name f)) 0 n6) as [s8 n8].
  cbn [fst snd] in G8, H8, K8.
  pose proof (lengthStep_gain f s8 n8 H8) as [G9 _].
  pose proof (lengthStep_nonneg f s8 n8 H8) as H9.
  pose proof (lengthStep_keeps f s8 n8) as K9.
  destruct (lengthStep f s8 n8) as [s9 n9]. cbn [fst snd] in G9, H9, K9.
  pose proof (contactStep_gain (textOf f) (toLowerCase (name f)) s9 n9 H9) as G10.
  pose proof (contactStep_keeps (textOf f) (toLowerCase (name f)) s9 n9) as K10.
  destruct (contactStep (textOf f) (toLowerCase (name f)) s9 n9) as [s10 n10].
  cbn [fst snd] in G10, K10.
  eexists. split; [reflexivity |]. cbn [atsScore resumeImprovements].
  split; [lia |].
  split; apply K10, K9, K8.
  - apply keeps_improve, improve_noted.
  - apply improve_noted.
Qed.

Lemma unknown_role_scores_at_most_16_witness :
  exists r,
    analyzeResume (Some pdfResume) "Astronaut" = Returns r
    /\ atsScore r <= 16
    /\ In "CRITICAL: Missing ALL required keywords for Astronaut"
         (resumeImprovements r)
    /\ In "MAJOR: Severely lacking role-specific keywords"
         (resumeImprovements r).
Proof.
  apply (unknown_role_scores_at_most_16 pdfResume "Astronaut");
    try reflexivity; try discriminate.
  split; reflexivity.
Defined.

(** ** How a resume analysis can fail *)

Lemma scoreText_throws (file : File) (role fileName textContent : string)
  (score : Z) (n : Notes) :
  inherited role = true ->
  scoreText file role fileName textContent score n = Throws.
Proof.
  intro H. unfold scoreText. rewrite (roleKeywords_inherited role H). reflexivity.
Qed.

(** X: [analyzeResume] rejects (throws) exactly when an accepted file of at
    most 2MB has been read and the role is a property name inherited from
    [Object.prototype]; it stays pending exactly when the read of such a
    file never completes.  A missing file, an unaccepted format and an
    oversized file are answered without reading the file or the role. *)
Theorem resume_failures_exactly (file : option File) (role : string) :
  (analyzeResume file role = Throws
   <-> exists f,
         file = Some f /\ accepted f = true /\ size f <= 2000000
         /\ readAsText f <> Pending /\ inherited role = true)
  /\ (analyzeResume file role = Pending
      <-> exists f,
            file = Some f /\ accepted f = true /\ size f <= 2000000
            /\ readAsText f = Pending).
Proof.
  destruct file as [f |].
  2: { split; (split; [intro X; discriminate X |]);
         intros (f & F & _); discriminate F. }
  destruct (accepted f) eqn:Ha.
  2: { unfold analyzeResume. rewrite Ha. cbn [negb].
       split; (split; [intro X; discriminate X |]);
         intros (f' & F & A & _); injection F as <-; congruence. }
  destruct (Z_le_gt_dec (size f) 2000000) as [Hs | Hs].
  2: { unfold analyzeResume. rewrite Ha. cbn [negb].
       assert (B : (2000000 <? size f) = true) by (apply Z.ltb_lt; lia).
       rewrite B.
       split; (split; [intro X; discriminate X |]);
         intros (f' & F & _ & S & _); injection F as <-; lia. }
  destruct (readAsText f) as [o | |] eqn:Hr.
  3: { assert (E : analyzeResume (Some f) role = Pending).
       { unfold analyzeResume. rewrite Ha. cbn [negb].
         apply Z.ltb_ge in Hs. rewrite Hs.
         destruct (sizeStep f (0 + 3) _) as [s2 n2].
         unfold scoreContent, extractTextFromFile.
         destruct (nameStep _ s2 n2) as [s3 n3]. rewrite Hr. reflexivity. }
       rewrite E. split; split.
       - intro X. discriminate X.
       - intros (f' & F & _ & _ & P & _). injection F as <-. congruence.
       - intros _. exists f. auto.
       - reflexivity. }
  all: assert (Hr' : readAsText f <> Pending) by congruence;
    destruct (analyzeResume_reaches_text f role Ha Hs Hr')
      as (score & n & _ & ->);
    destruct (inherited role) eqn:Hi;
    [ rewrite (scoreText_throws _ _ _ _ _ _ Hi)
    | destruct (scoreText_returns f role (toLowerCase (name f)) (textOf f)
                  score n Hi) as [r ->] ];
    split; split;
    try (intro X; discriminate X);
    try (intros _; exists f; auto; fail);
    try reflexivity;
    try (intros (f' & F & _ & _ & P); injection F as <-; congruence);
    try (intros (f' & _ & _ & _ & _ & I); discriminate I).
Qed.

Lemma resume_failures_exactly_witness :
  analyzeResume (Some pdfResume) "toString" = Throws
  /\ analyzeResume (Some (withRead pdfResume Pending)) "Software Engineer"
     = Pending.
Proof.
  split.
  - apply resume_failures_exactly. exists pdfResume.
    repeat split; discriminate.
  - apply resume_failures_exactly. exists (withRead pdfResume Pending).
    repeat split; discriminate.
Defined.

(** ** A read that fails *)

Ltac same_score :=
  repeat match goal with
    | |- context [if ?b then _ else _] => destruct b
    end;
  reflexivity.

Lemma requiredStep_score (role : string) (roleData : RoleData)
  (textContent fileName : string) (score : Z) (n n' : Notes) :
  fst (requiredStep role roleData textContent fileName score n)
  = fst (requiredStep role roleData textContent fileName score n').
Proof. unfold requiredStep. same_score. Qed.

Lemma preferredStep_score (roleData : RoleData) (textContent fileName : string)
  (score : Z) (n n' : Notes) :
  fst (preferredStep roleData textContent fileName score n)
  = fst (preferredStep roleData textContent fileName score n').
Proof. unfold preferredStep. same_score. Qed.

Lemma exclusionStep_score (roleData : RoleData) (textContent fileName : string)
  (score : Z) (n n' : Notes) :
  fst (exclusionStep roleData textContent fileName score n)
  = fst (exclusionStep roleData textContent fileName score n').
Proof. unfold exclusionStep. same_score. Qed.

Lemma sectionStep_score (textContent fileName : string) (score : Z) (n n' : Notes) :
  fst (sectionStep textContent fileName score n)
  = fst (sectionStep textContent fileName score n').
Proof. unfold sectionStep. same_score. Qed.

Lemma lengthStep_score (file : File) (score : Z) (n n' : Notes) :
  fst (lengthStep file score n) = fst (lengthStep file score n').
Proof. unfold lengthStep. same_score. Qed.

Lemma contactStep_score (textContent fileName : string) (score : Z) (n n' : Notes) :
  fst (contactStep textContent fileName score n)
  = fst (contactStep textContent fileName score n').
Proof. unfold contactStep. same_score. Qed.

(** The score of [scoreText] does not depend on the notes it starts with,
    and the improvements it starts with are kept. *)
Lemma scoreText_notes (file : File) (role fileName textContent : string)
  (score : Z) (n n' : Notes) (r r' : ResumeAnalysis) :
  scoreText file role fileName textContent score n = Returns r ->
  scoreText file role fileName textContent score n' = Returns r' ->
  atsScore r = atsScore r'
  /\ (forall m, In m (improvements n) -> In m (resumeImprovements r)).
Proof.
  unfold scoreText.
  destruct (lookupOr roleKeywords noRoleData role) as [roleData |];
    [| discriminate].
  pose proof (requiredStep_score role roleData textContent fileName score n n') as E5.
  pose proof (requiredStep_keeps role roleData textContent fileName score n) as K5.
  destruct (requiredStep role roleData textContent fileName score n) as [s5 n5].
  destruct (requiredStep role roleData textContent fileName score n') as [s5' n5'].
  cbn [fst snd] in E5, K5. subst s5'.
  pose proof (preferredStep_score roleData textContent fileName s5 n5 n5') as E6.
  pose proof (preferredStep_keeps roleData textContent fileName s5 n5) as K6.
  destruct (preferredStep roleData textContent fileName s5 n5) as [s6 n6].
  destruct (preferredStep roleData textContent fileName s5 n5') as [s6' n6'].
  cbn [fst snd] in E6, K6. subst s6'.
  pose proof (exclusionStep_score roleData textContent fileName s6 n6 n6') as E7.
  pose proof (exclusionStep_keeps roleData textContent fileName s6 n6) as K7.
  destruct (exclusionStep roleData textContent fileName s6 n6) as [s7 n7].
  destruct (exclusionStep roleData textContent fileName s6 n6') as [s7' n7'].
  cbn [fst snd] in E7, K7. subst s7'.
  pose proof (sectionStep_score textContent fileName s7 n7 n7') as E8.
  pose proof (sectionStep_keeps textContent fileName s7 n7) as K8.
  destruct (sectionStep textContent fileName s7 n7) as [s8 n8].
  destruct (sectionStep textContent fileName s7 n7') as [s8' n8'].
  cbn [fst snd] in E8, K8. subst s8'.
  pose proof (lengthStep_score file s8 n8 n8') as E9.
  pose proof (lengthStep_keeps file s8 n8) as K9.
  destruct (lengthStep file s8 n8) as [s9 n9].
  destruct (lengthStep file s8 n8') as [s9' n9'].
  cbn [fst snd] in E9, K9. subst s9'.
  pose proof (contactStep_score textContent fileName s9 n9 n9') as E10.
  pose proof (contactStep_keeps textContent fileName s9 n9) as K10.
  destruct (contactStep textContent fileName s9 n9) as [s10 n10].
  destruct (contactStep textContent fileName s9 n9') as [s10' n10'].
  cbn [fst snd] in E10, K10. subst s10'.
  intros E E'. injection E as <-. injection E' as <-.
  cbn [atsScore resumeImprovements]. split; [reflexivity |].
  intros m H. apply K10, K9, K8, K7, K6, K5, H.
Qed.

(** X: a file whose read fails inside the promise is scored like the same
    file with an empty text, with one more improvement: the warning that
    the content could not be parsed. *)
Theorem failed_read_scored_as_empty_text (f : File) (role : string) :
  readAsText f = Throws ->
  accepted f = true -> size f <= 2000000 -> inherited role = false ->
  exists r r',
    analyzeResume (Some f) role = Returns r
    /\ analyzeResume (Some (withRead f (Returns (Some "")))) role = Returns r'
    /\ atsScore r = atsScore r'
    /\ In "WARNING: Could not parse resume content - ensure file is not corrupted"
         (resumeImprovements r).
Proof.
  intros Hr Ha Hs Hi.
  assert (Ha' : accepted (withRead f (Returns (Some ""))) = true) by exact Ha.
  unfold analyzeResume. rewrite Ha, Ha'. cbn [negb].
  change (size (withRead f (Returns (Some "")))) with (size f).
  apply Z.ltb_ge in Hs. rewrite Hs.
  change (sizeStep (withRead f (Returns (Some ""))) (0 + 3)
            (strength "Acceptable file format" noNotes))
    with (sizeStep f (0 + 3) (strength "Acceptable file format" noNotes)).
  destruct (sizeStep f (0 + 3) (strength "Acceptable file format" noNotes))
    as [s2 n2].
  unfold scoreContent, extractTextFromFile.
  change (name (withRead f (Returns (Some "")))) with (name f).
  destruct (nameStep (toLowerCase (name f)) s2 n2) as [s3 n3].
  rewrite Hr. cbn [readAsText withRead bind].
  change (scoreText (withRead f (Returns (Some ""))) role (toLowerCase (name f))
            "" s3 n3)
    with (scoreText f role (toLowerCase (name f)) "" s3 n3).
  set (warned :=
         improve "WARNING: Could not parse resume content - ensure file is not corrupted" n3).
  destruct (scoreText_returns f role (toLowerCase (name f)) "" s3 warned Hi)
    as [r E].
  destruct (scoreText_returns f role (toLowerCase (name f)) "" s3 n3 Hi)
    as [r' E'].
  exists r, r'. split; [exact E |]. split; [exact E' |].
  destruct (scoreText_notes _ _ _ _ _ _ _ _ _ E E') as [S K].
  split; [exact S |]. apply K. apply improve_noted.
Qed.

Lemma failed_read_scored_as_empty_text_witness :
  exists r r',
    analyzeResume (Some (withRead pdfResume Throws)) "Software Engineer" = Returns r
    /\ analyzeResume
         (Some (withRead (withRead pdfResume Throws) (Returns (Some ""))))
         "Software Engineer" = Returns r'
    /\ atsScore r = atsScore r'
    /\ In "WARNING: Could not parse resume content - ensure file is not corrupted"
         (resumeImprovements r).
Proof.
  apply (failed_read_scored_as_empty_text (withRead pdfResume Throws));
    try reflexivity; discriminate.
Defined.

(* ===================================================================== *)
(** * The scorer of the stand-alone page *)
(* ===================================================================== *)

Local Open Scope Q_scope.

(** X: the scorer of [public/minimal.js] gives confidence at least 5 even
    without devices and caps the four sub-scores at 60, 45, 50 and 40, so
    its overall score always lies between 1 and 49.  The feedback for an
    overall score of 0 (no participation detected) and the one for 60 and
    above (good performance) can therefore never be shown. *)
Theorem minimal_overall_between_1_and_49 (state : Minimal.State) :
  let analysis := Minimal.analyzePerformance state in
  1 <= Minimal.overallScore analysis <= 49
  /\ 5 <= Minimal.confidenceScore analysis
  /\ (Minimal.feedback analysis
      = "Extremely poor performance. Major improvements needed."
      \/ Minimal.feedback analysis
         = "Very poor interview performance. Focus on preparation and engagement."
      \/ Minimal.feedback analysis
         = "Below average performance with significant room for improvement.").
Proof.
  unfold Minimal.analyzePerformance, Minimal.bodyLanguage, Minimal.grammar,
    Minimal.skills, Minimal.confidence.
  repeat match goal with
    | |- context [if ?b then _ else _] => destruct b
    end;
    cbv zeta beta iota;
    cbn [Minimal.overallScore Minimal.confidenceScore Minimal.feedback];
    (split; [split; apply Qle_bool_iff; vm_compute; reflexivity |]);
    (split; [apply Qle_bool_iff; vm_compute; reflexivity |]);
    vm_compute; auto.
Qed.

(* ===================================================================== *)
(** * Keyword and filler matching *)
(* ===================================================================== *)

Local Open Scope nat_scope.

(** ** Fillers are found as substrings *)

Lemma countOccurrences_zero (sub s : string) :
  sub <> "" -> (countOccurrences sub s = 0 <-> includes s sub = false).
Proof.
  intro Hne. unfold countOccurrences, includes.
  induction s as [| c t IH].
  - cbn. destruct sub as [| a sub']; [congruence |]. cbn. tauto.
  - cbn [countFrom existsSuffix].
    destruct (String.prefix sub (String c t)); cbn [orb].
    + split; discriminate.
    + exact IH.
Qed.

Lemma grammarStep_fillers (response : string) (st : GrammarIssues) :
  fillerWords (grammarStep response st) = 0
  <-> fillerWords st = 0
      /\ forall filler, In filler fillerPatterns ->
                        includes (toLowerCase response) filler = false.
Proof.
  unfold grammarStep. cbn [fillerWords fillerPatterns fold_left In].
  split.
  - intro H. split; [lia |]. intros filler Hin.
    repeat (destruct Hin as [<- | Hin];
            [apply countOccurrences_zero; [discriminate | lia] |]).
    contradiction.
  - intros [H0 H].
    repeat match goal with
      | |- context [countOccurrences ?f ?r] =>
          let Z := fresh "Z" in
          assert (Z : countOccurrences f r = 0)
            by (apply countOccurrences_zero; [discriminate | apply H; auto 10]);
          rewrite Z; clear Z
      end.
    lia.
Qed.

Lemma fillers_fold (rs : list string) :
  forall st,
    fillerWords (fold_left (fun st response => grammarStep response st) rs st) = 0
    <-> fillerWords st = 0
        /\ forall r filler, In r rs -> In filler fillerPatterns ->
                            includes (toLowerCase r) filler = false.
Proof.
  induction rs as [| r rest IH]; cbn [fold_left]; intro st.
  - split; [intro H; split; [exact H | intros r f []] | intros [H _]; exact H].
  - rewrite IH, grammarStep_fillers. split.
    + intros [[H0 Hr] Hrest]. split; [exact H0 |].
      intros r' f [<- | Hin] Hf; [apply Hr, Hf | apply Hrest; assumption].
    + intros [H0 H]. split; [split; [exact H0 |] |].
      * intros f Hf. apply H; [left; reflexivity | exact Hf].
      * intros r' f Hin Hf. apply H; [right; exact Hin | exact Hf].
Qed.

(** X: filler words are looked for as substrings of the lower-cased
    response, not as words: the filler count is zero exactly when none of
    [um], [uh], [like], [you know], [actually], [basically] occurs anywhere
    in any response, inside longer words included. *)
Theorem fillers_are_substrings (rs : list string) :
  fillerWords (analyzeGrammarAndSpeech rs) = 0
  <-> forall r filler, In r rs -> In filler fillerPatterns ->
                       includes (toLowerCase r) filler = false.
Proof.
  unfold analyzeGrammarAndSpeech. rewrite fillers_fold.
  cbn [fillerWords]. tauto.
Qed.

(** [summary] and [column] each hold a filler. *)
Example fillers_inside_words :
  fillerWords (analyzeGrammarAndSpeech ["A summary of the third column."]) = 2.
Proof. reflexivity. Qed.

(** ** An exclusion keyword that cannot match *)

Lemma allChars_app (p : ascii -> bool) (a b : string) :
  allChars p (a ++ b) = (allChars p a && allChars p b)%bool.
Proof.
  induction a as [| c a IH]; cbn; [reflexivity |].
  rewrite IH, andb_assoc. reflexivity.
Qed.

Lemma includes_allChars (p : ascii -> bool) (s sub : string) :
  includes s sub = true -> allChars p s = true -> allChars p sub = true.
Proof.
  intros H A. apply includes_iff in H. destruct H as (pre & post & ->).
  rewrite !allChars_app in A.
  apply andb_true_iff in A. destruct A as [_ A].
  apply andb_true_iff in A. apply A.
Qed.

Lemma lowerChar_notUpper (c : ascii) : notUpper (lowerChar c) = true.
Proof. destruct c as [[] [] [] [] [] [] [] []]; reflexivity. Qed.

Lemma toLowerCase_notUpper (s : string) : allChars notUpper (toLowerCase s) = true.
Proof.
  induction s as [| c s IH]; cbn; [reflexivity |].
  rewrite lowerChar_notUpper, IH. reflexivity.
Qed.

Lemma capitalised_keyword_not_found (textContent fileName keyword : string) :
  allChars notUpper keyword = false ->
  (includes (toLowerCase textContent) keyword
   || includes (toLowerCase fileName) keyword)%bool = false.
Proof.
  intro K. apply orb_false_iff. split.
  - destruct (includes (toLowerCase textContent) keyword) eqn:E; [| reflexivity].
    rewrite (includes_allChars notUpper _ _ E (toLowerCase_notUpper _)) in K.
    discriminate.
  - destruct (includes (toLowerCase fileName) keyword) eqn:E; [| reflexivity].
    rewrite (includes_allChars notUpper _ _ E (toLowerCase_notUpper _)) in K.
    discriminate.
Qed.

(** X: keywords are compared with the lower-cased text and the lower-cased
    file name, so a keyword written with capitals can never be found.  The
    DevOps exclusion [basic IT support] is such a keyword: for a DevOps
    resume at most two of the three exclusions are ever counted. *)
Theorem capitalised_exclusion_never_counts (textContent fileName : string)
  (roleData : RoleData) :
  lookupOr roleKeywords noRoleData "DevOps Engineer" = Some roleData ->
  In "basic IT support" (exclusions roleData)
  /\ countFound textContent (toLowerCase fileName) (exclusions roleData) <= 2.
Proof.
  intro L. cbv in L. injection L as <-. split; [cbn; auto |].
  unfold countFound. cbn [exclusions filter].
  rewrite (capitalised_keyword_not_found textContent fileName "basic IT support")
    by reflexivity.
  repeat match goal with
    | |- context [if ?b then _ else _] => destruct b
    end; cbn; lia.
Qed.

Lemma capitalised_exclusion_never_counts_witness :
  In "basic IT support"
    (exclusions
       {| required := ["devops"; "infrastructure"; "deployment"];
          preferred := ["aws"; "docker"; "kubernetes"; "ci/cd"; "automation";
                        "monitoring"; "cloud"; "linux"];
          exclusions := ["basic IT support"; "help desk"; "desktop support"] |})
  /\ countFound "Basic IT support, help desk and desktop support" "resume.pdf"
       (exclusions
          {| required := ["devops"; "infrastructure"; "deployment"];
             preferred := ["aws"; "docker"; "kubernetes"; "ci/cd"; "automation";
                           "monitoring"; "cloud"; "linux"];
             exclusions := ["basic IT support"; "help desk"; "desktop support"] |})
     <= 2.
Proof.
  apply (capitalised_exclusion_never_counts
           "Basic IT support, help desk and desktop support" "resume.pdf").
  reflexivity.
Defined.
